(** * AI-Teacher: the local retrieval and answer-synthesis engine

    A shallow embedding of the TypeScript sources
    [utils/pdfProcessor.ts], [utils/enhancedQuestionAnswering.ts],
    [utils/textProcessor.ts], [utils/faqSystem.ts], [utils/predefinedQA.ts],
    [utils/api.ts], [utils/pdfRestExtractor.ts], of the classes
    [UsageTracker] and [AuthService] and of the asking flow of [App.tsx],
    followed by the properties of the specification that were checked
    against them and by further properties of the same code.

    Conventions of the embedding.
    - A JavaScript string is a [string]: one [ascii] per UTF-16 code unit.
      The embedding is exact on ASCII text (code units below 128).  Text
      outside ASCII that occurs in literals of the sources is carried as
      its UTF-8 bytes, which are neither white space, nor word
      characters, nor letters with a case.  One rule inspects them: the
      bullet rule of [standardizeFormatting], whose class holds two
      characters of the ellipsis that an earlier rule inserts.  Where
      such text was inserted, a length counts its bytes.
    - A JavaScript [number] that holds a count or an index is a [nat];
      page numbers and time stamps are [Z].  Scores are rationals [Q]:
      [0.1] is one tenth and a sum is exact, where the program rounds
      each sum to a double.
    - [try]/[catch] is explicit: a computation that may raise returns
      [Exc A]. *)

From Stdlib Require Import String Ascii List Bool Arith NArith ZArith QArith Qminmax Lia Sorted.
Import ListNotations.
Local Close Scope Q_scope.
Local Open Scope string_scope.
Local Open Scope list_scope.
Local Open Scope nat_scope.

(** String concatenation, JavaScript's [+] on strings. *)
Infix "+++" := String.append (right associativity, at level 60).

(** ** JavaScript strings *)

Module JS.

Definition code (c : ascii) : N := N_of_ascii c.

Definition inRange (lo hi : N) (c : ascii) : bool :=
  (lo <=? code c)%N && (code c <=? hi)%N.

(** [\d], [[A-Z]], [[a-z]] and [\w]. *)
Definition isDigit (c : ascii) : bool := inRange 48 57 c.
Definition isUpper (c : ascii) : bool := inRange 65 90 c.
Definition isLower (c : ascii) : bool := inRange 97 122 c.
Definition isWordChar (c : ascii) : bool :=
  isDigit c || isUpper c || isLower c || (code c =? 95)%N.

(** [\s], which is also what [trim] strips: TAB, LF, VT, FF, CR, SPACE. *)
Definition isWhiteSpace (c : ascii) : bool :=
  inRange 9 13 c || (code c =? 32)%N.

(** The line terminators LF and CR, which [.] does not match. *)
Definition isLineTerminator (c : ascii) : bool :=
  (code c =? 10)%N || (code c =? 13)%N.

Definition toLowerChar (c : ascii) : ascii :=
  if isUpper c then ascii_of_N (code c + 32) else c.
Definition toUpperChar (c : ascii) : ascii :=
  if isLower c then ascii_of_N (code c - 32) else c.

Fixpoint toLowerCase (s : string) : string :=
  match s with
  | EmptyString => EmptyString
  | String c s' => String (toLowerChar c) (toLowerCase s')
  end.

Fixpoint trimStart (s : string) : string :=
  match s with
  | EmptyString => EmptyString
  | String c s' => if isWhiteSpace c then trimStart s' else s
  end.

(** [allb p s]: every code unit of [s] satisfies [p]. *)
Fixpoint allb (p : ascii -> bool) (s : string) : bool :=
  match s with
  | EmptyString => true
  | String c s' => p c && allb p s'
  end.

Fixpoint trimEnd (s : string) : string :=
  match s with
  | EmptyString => EmptyString
  | String c s' => if allb isWhiteSpace s then EmptyString else String c (trimEnd s')
  end.

Definition trim (s : string) : string := trimEnd (trimStart s).

(** [s.includes(sub)]. *)
Fixpoint includes (sub s : string) : bool :=
  prefix sub s ||
  match s with
  | EmptyString => false
  | String _ s' => includes sub s'
  end.

Definition startsWithChar (p : ascii -> bool) (s : string) : bool :=
  match s with
  | EmptyString => false
  | String c _ => p c
  end.

(** [s.split(/[...]+/)] for a character class [p]: the pieces between
    the maximal runs of separators, the empty leading and trailing
    pieces included; the empty string gives one empty piece. *)
Fixpoint splitRuns (p : ascii -> bool) (s : string) : list string :=
  match s with
  | EmptyString => [EmptyString]
  | String c s' =>
      let r := splitRuns p s' in
      if p c then (if startsWithChar p s' then r else EmptyString :: r)
      else match r with
           | h :: t => String c h :: t
           | [] => [String c EmptyString]
           end
  end.

(** [s.split(c)] for a single separator character. *)
Fixpoint splitChar (sep : ascii) (s : string) : list string :=
  match s with
  | EmptyString => [EmptyString]
  | String c s' =>
      let r := splitChar sep s' in
      if Ascii.eqb c sep then EmptyString :: r
      else match r with
           | h :: t => String c h :: t
           | [] => [String c EmptyString]
           end
  end.

(** [s.substring(0, n)]. *)
Fixpoint take (n : nat) (s : string) : string :=
  match n, s with
  | O, _ => EmptyString
  | S _, EmptyString => EmptyString
  | S n', String c s' => String c (take n' s')
  end.

(** [l.join(sep)]. *)
Fixpoint join (sep : string) (l : list string) : string :=
  match l with
  | [] => EmptyString
  | [x] => x
  | x :: rest => x +++ sep +++ join sep rest
  end.

(** [l.includes(x)] on an array of strings. *)
Definition arrayIncludes (x : string) (l : list string) : bool :=
  existsb (String.eqb x) l.

(** The double quote, and the line feed. *)
Definition dquote : string := String (ascii_of_N 34) EmptyString.
Definition nl : string := String (ascii_of_N 10) EmptyString.

(** Decimal rendering of a small index, as a template literal prints it. *)
Definition digitChar (n : nat) : ascii := ascii_of_nat (48 + n).
Fixpoint showNatFuel (fuel n : nat) (acc : string) : string :=
  match fuel with
  | O => acc
  | S f =>
      let acc' := String (digitChar (n mod 10)) acc in
      if n / 10 =? 0 then acc' else showNatFuel f (n / 10) acc'
  end.
Definition showNat (n : nat) : string := showNatFuel (S n) n EmptyString.

End JS.

(** ** Exceptions *)

Inductive JsError : Type :=
| SyntaxError (msg : string)
| ReferenceError (msg : string)
| TypeError (msg : string)
| PlainError (msg : string).

Inductive Exc (A : Type) : Type :=
| Returns (a : A)
| Throws (e : JsError).
Arguments Returns {A} a.
Arguments Throws {A} e.

Definition bind {A B} (m : Exc A) (k : A -> Exc B) : Exc B :=
  match m with
  | Returns a => k a
  | Throws e => Throws e
  end.

(** [try { m } catch (e) { h e }]. *)
Definition tryCatch {A} (m : Exc A) (h : JsError -> Exc A) : Exc A :=
  match m with
  | Returns a => Returns a
  | Throws e => h e
  end.

Declare Scope exc_scope.
Delimit Scope exc_scope with exc.
Notation "x <- m ;; k" := (bind m (fun x => k))
  (at level 61, m at next level, right associativity) : exc_scope.

(** [forEach]/[for..of] over a list with a body that may raise. *)
Fixpoint foldExc {A St} (f : St -> A -> Exc St) (l : list A) (s : St) : Exc St :=
  match l with
  | [] => Returns s
  | x :: rest => bind (f s x) (foldExc f rest)
  end.

(** ** The chunker ([PDFProcessor.createTextChunks]) *)

Record ExtractedPage : Type := mkPage {
  page_number : Z;
  page_text : string
}.

Record TextChunk : Type := mkChunk {
  content : string;
  page : Z;
  chunkIndex : nat;
  keywords : list string
}.

Module Chunker.

(** [/[.!?]/] *)
Definition isTerminator (c : ascii) : bool :=
  (JS.code c =? 46)%N || (JS.code c =? 33)%N || (JS.code c =? 63)%N.

(** [/^\d+$/.test(word)] *)
Definition isPureNumber (w : string) : bool :=
  negb (String.length w =? 0) && JS.allb JS.isDigit w.

Definition extractKeywords (text : string) : list string :=
  firstn 20
    (filter (fun w => negb (isPureNumber w))
       (filter (fun w => 3 <? String.length w)
          (JS.splitRuns JS.isWhiteSpace (JS.toLowerCase text)))).

(** The mutable variables of the two loops. *)
Record LoopState : Type := mkLoop {
  chunks : list TextChunk;
  nextIndex : nat;
  currentChunk : string
}.

Definition flush (pg : Z) (st : LoopState) (next : string) : LoopState :=
  mkLoop
    (chunks st ++
       [mkChunk (JS.trim (currentChunk st)) pg (nextIndex st)
                (extractKeywords (currentChunk st))])
    (S (nextIndex st))
    next.

(** The body of the loop over the sentences of one page. *)
Definition addSentence (maxChunkSize : nat) (pg : Z)
           (st : LoopState) (sentence : string) : LoopState :=
  let trimmedSentence := JS.trim sentence in
  if String.length trimmedSentence =? 0 then st
  else if (maxChunkSize <? String.length (currentChunk st) + String.length trimmedSentence)
          && (0 <? String.length (currentChunk st))
  then flush pg st (trimmedSentence +++ ". ")
  else mkLoop (chunks st) (nextIndex st) (currentChunk st +++ trimmedSentence +++ ". ").

Definition sentencesOf (text : string) : list string :=
  filter (fun s => 0 <? String.length (JS.trim s))
         (JS.splitRuns isTerminator text).

(** The body of the loop over the pages. *)
Definition addPage (maxChunkSize : nat) (acc : list TextChunk * nat)
           (p : ExtractedPage) : list TextChunk * nat :=
  if String.length (page_text p) =? 0 then acc
  else
    let st := fold_left (addSentence maxChunkSize (page_number p))
                        (sentencesOf (page_text p))
                        (mkLoop (fst acc) (snd acc) EmptyString) in
    if 0 <? String.length (JS.trim (currentChunk st))
    then let st' := flush (page_number p) st EmptyString in
         (chunks st', nextIndex st')
    else (chunks st, nextIndex st).

Definition createTextChunks (pages : list ExtractedPage) (maxChunkSize : nat)
  : list TextChunk :=
  fst (fold_left (addPage maxChunkSize) pages ([], 0)).

Definition defaultMaxChunkSize : nat := 500.

End Chunker.

(** ** Regular expressions

    The fragment of the pattern grammar that the sources build at run
    time: literal characters, identity escapes of syntax characters, the
    assertion [\b] and the quantifiers [*], [+], [?] (greedy or lazy) on
    a literal.  [create] follows the left-to-right parse of
    [new RegExp(pattern, "i")]: a pattern is [Invalid] as soon as a prefix
    of it is an early error, and [Unsupported] when it uses a construct
    outside the fragment.  The message of a syntax error is the engine's;
    only its reason is kept here. *)

Module RegExp.

Inductive Quant : Type := One | Star | Plus | Opt.

Inductive Item : Type :=
| Boundary
| Lit (c : ascii) (q : Quant).

Inductive Compiled : Type :=
| Pattern (items : list Item)
| Invalid (msg : string)
| Unsupported.

Definition isCode (n : N) (c : ascii) : bool := (JS.code c =? n)%N.

(** SyntaxCharacter: [^ $ \ . * + ? ( ) [ ] { } |] *)
Definition isSyntaxChar (c : ascii) : bool :=
  existsb (fun n => isCode n c) [94; 36; 92; 46; 42; 43; 63; 40; 41; 91; 93; 123; 125; 124]%N.

Definition isQuantChar (c : ascii) : bool :=
  isCode 42 c || isCode 43 c || isCode 63 c.

Definition quantOf (c : ascii) : Quant :=
  if isCode 42 c then Star else if isCode 43 c then Plus else Opt.

Definition consItem (i : Item) (r : Compiled) : Compiled :=
  match r with
  | Pattern items => Pattern (i :: items)
  | other => other
  end.

(** [parseTerms fuel atom p]: the terms of [p].  [atom] is the literal
    just read, which a quantifier may still follow. *)
Fixpoint parseTerms (fuel : nat) (atom : option ascii) (p : string) : Compiled :=
  match fuel with
  | O => Unsupported
  | S fuel' =>
      match atom with
      | Some a =>
          match p with
          | String q rest =>
              if isQuantChar q then
                match rest with
                | String l rest' =>
                    if isCode 63 l
                    then consItem (Lit a (quantOf q)) (parseTerms fuel' None rest')
                    else consItem (Lit a (quantOf q)) (parseTerms fuel' None rest)
                | EmptyString => Pattern [Lit a (quantOf q)]
                end
              else consItem (Lit a One) (parseTerms fuel' None p)
          | EmptyString => Pattern [Lit a One]
          end
      | None =>
          match p with
          | EmptyString => Pattern []
          | String c rest =>
              if isCode 92 c then
                match rest with
                | EmptyString => Invalid "\ at end of pattern"
                | String e rest' =>
                    if isCode 98 e then
                      if JS.startsWithChar isQuantChar rest'
                      then Invalid "Nothing to repeat"
                      else consItem Boundary (parseTerms fuel' None rest')
                    else if isSyntaxChar e then parseTerms fuel' (Some e) rest'
                    else Unsupported
                end
              else if isQuantChar c then Invalid "Nothing to repeat"
              else if isSyntaxChar c then Unsupported
              else parseTerms fuel' (Some c) rest
          end
      end
  end.

(** [new RegExp(pattern, "i")] *)
Definition create (pattern : string) : Compiled :=
  parseTerms (S (2 * String.length pattern)) None pattern.

(** Canonicalisation under the [i] flag. *)
Definition eqci (a b : ascii) : bool :=
  Ascii.eqb (JS.toUpperChar a) (JS.toUpperChar b).

Definition isWordOpt (c : option ascii) : bool :=
  match c with
  | Some x => JS.isWordChar x
  | None => false
  end.

Definition headOf (s : string) : option ascii :=
  match s with
  | EmptyString => None
  | String c _ => Some c
  end.

(** [\b] between the character [prev] just passed and the rest [s]. *)
Definition boundaryAt (prev : option ascii) (s : string) : bool :=
  xorb (isWordOpt prev) (isWordOpt (headOf s)).

Fixpoint matchItems (items : list Item) : option ascii -> string -> bool :=
  match items with
  | [] => fun _ _ => true
  | Boundary :: r => fun prev s => boundaryAt prev s && matchItems r prev s
  | Lit c q :: r =>
      let one (k : option ascii -> string -> bool) (s : string) : bool :=
        match s with
        | String d s' => eqci c d && k (Some d) s'
        | EmptyString => false
        end in
      let star :=
        fix star (prev : option ascii) (s : string) {struct s} : bool :=
          matchItems r prev s ||
          match s with
          | String d s' => eqci c d && star (Some d) s'
          | EmptyString => false
          end in
      match q with
      | One => fun _ s => one (matchItems r) s
      | Opt => fun prev s => one (matchItems r) s || matchItems r prev s
      | Star => star
      | Plus => fun _ s => one star s
      end
  end.

Fixpoint testFrom (items : list Item) (prev : option ascii) (s : string) : bool :=
  matchItems items prev s ||
  match s with
  | String d s' => testFrom items (Some d) s'
  | EmptyString => false
  end.

(** [regex.test(s)] *)
Definition test (items : list Item) (s : string) : bool := testFrom items None s.

(** [string.replace(/[.*+?^${}()|[\]\\]/g, '\\$&')] *)
Fixpoint escapeRegex (s : string) : string :=
  match s with
  | EmptyString => EmptyString
  | String c s' =>
      if isSyntaxChar c then String (ascii_of_N 92) (String c (escapeRegex s'))
      else String c (escapeRegex s')
  end.

Fixpoint literals (s : string) : list Item :=
  match s with
  | EmptyString => []
  | String c s' => Lit c One :: literals s'
  end.

(** The pattern that [`\\b${escapeRegex(word)}\\b`] compiles to
    (lemma [create_escaped] below). *)
Definition wordPattern (word : string) : list Item :=
  Boundary :: literals word ++ [Boundary].

Definition bs_b : string := String (ascii_of_N 92) "b".

End RegExp.

(** ** Documents *)

Inductive DocStatus : Type := processing | ready | error.

Definition status_eqb (a b : DocStatus) : bool :=
  match a, b with
  | processing, processing | ready, ready | error, error => true
  | _, _ => false
  end.

Record ProcessedDocument : Type := mkDocument {
  id : string;
  name : string;
  size : nat;
  uploadedAt : Z;
  status : DocStatus;
  pageCount : nat;
  pages : list ExtractedPage;
  chunks : list TextChunk;
  fullText : string;
  cleanedFullText : option string;
  processingQuality : option Q;
  textImprovements : option (list string)
}.

(** A search hit: [{ chunk, score, document }]. *)
Record ScoredChunk : Type := mkScored {
  hit_chunk : TextChunk;
  score : Q;
  hit_document : ProcessedDocument
}.

(** ** Arrays and numbers *)

Module Arr.

(** [count p l] is [l.filter(p).length]. *)
Definition count {A} (p : A -> bool) (l : list A) : nat := length (filter p l).

(** [Array.prototype.sort(cmp)]: the stable sort; [cmp a b <= 0] keeps
    [a] before [b]. *)
Fixpoint insertBy {A} (cmp : A -> A -> Q) (x : A) (l : list A) : list A :=
  match l with
  | [] => [x]
  | y :: rest =>
      if Qle_bool (cmp x y) 0 then x :: l else y :: insertBy cmp x rest
  end.

Definition sortBy {A} (cmp : A -> A -> Q) (l : list A) : list A :=
  fold_right (insertBy cmp) [] l.

(** [[...new Set(l)]] on strings: first occurrences, in order. *)
Fixpoint unique (seen l : list string) : list string :=
  match l with
  | [] => []
  | x :: rest =>
      if JS.arrayIncludes x seen then unique seen rest
      else x :: unique (x :: seen) rest
  end.

(** [l.slice(-n)] *)
Definition lastn {A} (n : nat) (l : list A) : list A := skipn (length l - n) l.

(** [l.map((x, index) => f x index)] *)
Fixpoint mapi {A B} (f : A -> nat -> B) (i : nat) (l : list A) : list B :=
  match l with
  | [] => []
  | x :: rest => f x i :: mapi f (S i) rest
  end.

Definition Qltb (a b : Q) : bool := negb (Qle_bool b a).

Definition ofNat (n : nat) : Q := inject_Z (Z.of_nat n).

(** [Math.max(0, Math.min(1, x))] *)
Definition clamp01 (x : Q) : Q := Qmax 0 (Qmin 1 x).

(** [Math.round(x)]: the nearest integer, halves upwards. *)
Definition round (x : Q) : Z :=
  let y := (x + (1 # 2))%Q in Z.div (Qnum y) (Z.pos (Qden y)).

End Arr.

(** ** The retrieval engine and answer synthesizer
       ([EnhancedQuestionAnswering]) *)

Module EnhancedQuestionAnswering.

Import Arr.

Record EnhancedSource : Type := mkESource {
  src_document : string;
  src_page : Z;
  src_excerpt : string;
  relevanceScore : Q
}.

Record EnhancedAnswerResult : Type := mkEnhanced {
  answer : string;
  confidence : Q;
  sources : list EnhancedSource;
  suggestedFollowUps : list string
}.

Definition stopWords : list string :=
  ["the"; "a"; "an"; "and"; "or"; "but"; "in"; "on"; "at"; "to"; "for"; "of"; "with"; "by";
   "from"; "about"; "what"; "how"; "when"; "where"; "why"; "who"; "which"; "that"; "this";
   "is"; "are"; "was"; "were"; "be"; "been"; "being"; "have"; "has"; "had"; "do"; "does"; "did";
   "will"; "would"; "could"; "should"; "may"; "might"; "can"; "shall"].

(** [.replace(/[^\w\s]/g, ' ')] *)
Fixpoint stripPunctuation (s : string) : string :=
  match s with
  | EmptyString => EmptyString
  | String c s' =>
      String (if JS.isWordChar c || JS.isWhiteSpace c then c else " "%char)
             (stripPunctuation s')
  end.

Definition extractQueryTerms (query : string) : list string :=
  let terms :=
    firstn 10
      (filter (fun word => negb (String.length word =? 0)
                           && (2 <? String.length word)
                           && negb (JS.arrayIncludes word stopWords))
         (JS.splitRuns JS.isWhiteSpace
            (stripPunctuation (JS.toLowerCase query)))) in
  match terms with
  | [] => ["query"]
  | _ => terms
  end.

(** [/(a|b|c)/i.test(s)] for literal alternatives. *)
Definition testAny (alternatives : list string) (s : string) : bool :=
  existsb (fun a => JS.includes a (JS.toLowerCase s)) alternatives.

Record ContextPattern : Type := mkPattern {
  queryPattern : list string;
  contentPattern : list string;
  weight : Q
}.

Definition patterns : list ContextPattern :=
  [ mkPattern ["what is"; "define"; "definition"]
              ["is a"; "is the"; "refers to"; "defined as"; "means"] 4;
    mkPattern ["how does"; "how to"; "process"; "method"]
              ["process"; "method"; "approach"; "technique"; "procedure"; "steps"] 4;
    mkPattern ["why"; "reason"; "because"]
              ["because"; "reason"; "due to"; "since"; "therefore"; "purpose"] 4;
    mkPattern ["types"; "kinds"; "categories"]
              ["types"; "kinds"; "categories"; "include"; "main"; "primary"] 4;
    mkPattern ["example"; "application"; "use"]
              ["example"; "application"; "used"; "practice"; "industry"; "case"] 3;
    mkPattern ["benefit"; "advantage"; "pros"]
              ["benefit"; "advantage"; "strength"; "positive"; "improved"] 3;
    mkPattern ["limitation"; "disadvantage"; "problem"]
              ["limitation"; "disadvantage"; "problem"; "issue"; "challenge"] 3 ].

Definition getContextualScore (query content : string) : Q :=
  fold_left
    (fun sc p =>
       if testAny (queryPattern p) query && testAny (contentPattern p) content
       then (sc + weight p)%Q else sc)
    patterns 0%Q.

(** [new RegExp(`\\b${this.escapeRegex(word)}\\b`, 'i').test(content)] *)
Definition wordRegexTest (word content : string) : bool :=
  RegExp.test (RegExp.wordPattern word) content.

(** The body of [queryWords.forEach((word, index) => ...)]. *)
Definition wordScore (n : nat) (lowered : string) (sc : Q) (word : string) (index : nat) : Q :=
  if JS.includes word lowered then
    let positionWeight := (1 + ofNat (n - index) * (1 # 10))%Q in
    let sc1 := (sc + 3 * positionWeight)%Q in
    if wordRegexTest word lowered then (sc1 + 2 * positionWeight)%Q else sc1
  else sc.

Fixpoint forEachIndexed {St} (f : St -> string -> nat -> St) (l : list string) (i : nat) (s : St) : St :=
  match l with
  | [] => s
  | w :: rest => forEachIndexed f rest (S i) (f s w i)
  end.

Definition calculateSemanticScore (queryWords : list string) (chunk : TextChunk)
           (document : ProcessedDocument) : Q :=
  let lowered := JS.toLowerCase (content chunk) in
  let queryPhrase := JS.join " " queryWords in
  let s0 := if JS.includes queryPhrase lowered then 10%Q else 0%Q in
  let s1 := forEachIndexed (wordScore (length queryWords) lowered) queryWords 0 s0 in
  let s2 := (s1 + getContextualScore (JS.join " " queryWords) lowered)%Q in
  let contentWords := length (JS.splitRuns JS.isWhiteSpace lowered) in
  let matchingWords := count (fun word => JS.includes word lowered) queryWords in
  let density := (ofNat matchingWords / ofNat (Nat.max contentWords 1))%Q in
  let s3 := (s2 + density * 5)%Q in
  let documentName := JS.toLowerCase (name document) in
  fold_left (fun sc word => if JS.includes word documentName then (sc + 1)%Q else sc)
            queryWords s3.

Definition byScoreDescending (a b : ScoredChunk) : Q := (score b - score a)%Q.

Definition scoreDocument (queryWords : list string) (document : ProcessedDocument)
  : list ScoredChunk :=
  if status_eqb (status document) ready then
    flat_map
      (fun chunk =>
         let sc := calculateSemanticScore queryWords chunk document in
         if Qltb 0 sc then [mkScored chunk sc document] else [])
      (chunks document)
  else [].

Definition performSemanticSearch (query : string) (documents : list ProcessedDocument)
  : list ScoredChunk :=
  let queryLower := JS.toLowerCase query in
  let queryWords := extractQueryTerms queryLower in
  firstn 8 (sortBy byScoreDescending (flat_map (scoreDocument queryWords) documents)).

(** *** Answer templates *)

Definition sentenceSplit (s : string) : list string :=
  JS.splitRuns Chunker.isTerminator s.

(** [results.slice(0, 3).map(...)] of [generateSummaryAnswer]. *)
Definition keyPoint (result : ScoredChunk) : string :=
  let text := content (hit_chunk result) in
  match find (fun s => 30 <? String.length (JS.trim s)) (sentenceSplit text) with
  | Some s => JS.trim s
  | None => JS.take 100 text
  end.

Definition numbered (point : string) (index : nat) : string :=
  JS.showNat (index + 1) +++ ". " +++ point +++ JS.nl.

Definition generateSummaryAnswer (results : list ScoredChunk) : string :=
  let keyPoints := map keyPoint (firstn 3 results) in
  fold_left String.append (mapi numbered 0 keyPoints)
    ("Based on the document content, here's a summary:" +++ JS.nl +++ JS.nl).

Definition generateComparisonAnswer (first : ScoredChunk) (others : list ScoredChunk) : string :=
  match others with
  | second :: _ =>
      "From the documents:" +++ JS.nl +++ JS.nl +++ "**First perspective:** "
        +++ content (hit_chunk first) +++ JS.nl +++ JS.nl +++ "**Another perspective:** "
        +++ content (hit_chunk second)
  | [] => "According to the document: " +++ content (hit_chunk first)
  end.

Definition bullet : string := "•".

Fixpoint drop (n : nat) (s : string) : string :=
  match n, s with
  | O, _ => s
  | S _, EmptyString => EmptyString
  | S n', String _ s' => drop n' s'
  end.

Fixpoint spanDigits (s : string) : string * string :=
  match s with
  | EmptyString => (EmptyString, EmptyString)
  | String c s' =>
      if JS.isDigit c then let (d, r) := spanDigits s' in (String c d, r)
      else (EmptyString, s)
  end.

(** [(?:•|\*|\d+\.|-)] at the start of [s]: the marker and what follows. *)
Definition markerAt (s : string) : option (string * string) :=
  if prefix bullet s then Some (bullet, drop (String.length bullet) s)
  else match s with
       | EmptyString => None
       | String c s' =>
           if RegExp.isCode 42 c then Some ("*", s')
           else if RegExp.isCode 45 c then Some ("-", s')
           else if JS.isDigit c then
             let (d, r) := spanDigits s in
             match r with
             | String e r' => if RegExp.isCode 46 e then Some (d +++ ".", r') else None
             | EmptyString => None
             end
           else None
       end.

(** [[^•\*\n]*], greedy. *)
Fixpoint itemRun (s : string) : string * string :=
  match s with
  | EmptyString => (EmptyString, EmptyString)
  | String c s' =>
      if RegExp.isCode 42 c || RegExp.isCode 10 c || prefix bullet s
      then (EmptyString, s)
      else let (r, rest) := itemRun s' in (String c r, rest)
  end.

(** [content.match(/(?:•|\*|\d+\.|-)([^•\*\n]+)/g)]; no match gives []. *)
Fixpoint listMatches (fuel : nat) (s : string) : list string :=
  match fuel with
  | O => []
  | S f =>
      match s with
      | EmptyString => []
      | String _ s' =>
          match markerAt s with
          | Some (m, r) =>
              let (run, rest) := itemRun r in
              if String.length run =? 0 then listMatches f s'
              else (m +++ run) :: listMatches f rest
          | None => listMatches f s'
          end
      end
  end.

(** [item.replace(/^[•\*\d+\.-]\s*/, '').trim()] *)
Definition cleanItem (item : string) : string :=
  JS.trim
    (if prefix bullet item then JS.trimStart (drop (String.length bullet) item)
     else match item with
          | EmptyString => EmptyString
          | String c r =>
              if RegExp.isCode 42 c || JS.isDigit c || RegExp.isCode 43 c
                 || RegExp.isCode 46 c || RegExp.isCode 45 c
              then JS.trimStart r else item
          end).

Definition generateListAnswer (first : ScoredChunk) : string :=
  let text := content (hit_chunk first) in
  let matches := listMatches (S (String.length text)) text in
  if 1 <? length matches then
    fold_left (fun ans item => ans +++ bullet +++ " " +++ cleanItem item +++ JS.nl)
              matches ("According to the document:" +++ JS.nl +++ JS.nl)
  else "The document explains: " +++ text.

Definition relevance (queryWords : list string) (sentence : string) : nat :=
  count (fun word => JS.includes word (JS.toLowerCase sentence)) queryWords.

(** The loop that keeps the first sentence of highest relevance. *)
Definition pickBest (queryWords : list string) (st : string * nat) (sentence : string)
  : string * nat :=
  if snd st <? relevance queryWords sentence
  then (sentence, relevance queryWords sentence) else st.

Definition generateContextualAnswer (query : string) (first : ScoredChunk)
           (others : list ScoredChunk) : string :=
  let text := content (hit_chunk first) in
  let documentName := name (hit_document first) in
  let sentences := filter (fun s => 20 <? String.length (JS.trim s)) (sentenceSplit text) in
  let queryWords := extractQueryTerms (JS.toLowerCase query) in
  let initial := match sentences with
                 | s0 :: _ => s0
                 | [] => JS.take 200 text
                 end in
  let bestSentence := fst (fold_left (pickBest queryWords) sentences (initial, 0)) in
  let ans := "According to **" +++ documentName +++ "**:" +++ JS.nl +++ JS.nl
               +++ JS.trim bestSentence +++ "." in
  match others with
  | second :: _ =>
      if Qltb (score first * (7 # 10)) (score second) then
        match sentenceSplit (content (hit_chunk second)) with
        | supportingSentence :: _ =>
            if negb (String.length supportingSentence =? 0)
               && (20 <? String.length (JS.trim supportingSentence))
            then ans +++ JS.nl +++ JS.nl +++ "Additionally: " +++ JS.trim supportingSentence +++ "."
            else ans
        | [] => ans
        end
      else ans
  | [] => ans
  end.

Definition generateIntelligentAnswer (query : string) (results : list ScoredChunk) : string :=
  match firstn 3 results with
  | [] => "No relevant information found."
  | first :: others =>
      let queryLower := JS.toLowerCase query in
      if JS.includes "summary" queryLower || JS.includes "overview" queryLower
      then generateSummaryAnswer (first :: others)
      else if JS.includes "compare" queryLower || JS.includes "difference" queryLower
      then generateComparisonAnswer first others
      else if JS.includes "list" queryLower || JS.includes "types" queryLower
              || JS.includes "kinds" queryLower
      then generateListAnswer first
      else generateContextualAnswer query first others
  end.

(** *** Confidence and sources *)

Definition calculateConfidence (query : string) (results : list ScoredChunk) : Q :=
  match results with
  | [] => 0%Q
  | top :: others =>
      let topScore := score top in
      let queryWords := extractQueryTerms (JS.toLowerCase query) in
      let c0 := Qmin (topScore / 10) 1 in
      let c1 := match others with
                | second :: _ =>
                    if Qltb (topScore * (8 # 10)) (score second)
                    then (c0 + (1 # 10))%Q else c0
                | [] => c0
                end in
      let topContent := JS.toLowerCase (content (hit_chunk top)) in
      let coverage :=
        (ofNat (count (fun word => JS.includes word topContent) queryWords)
         / ofNat (length queryWords))%Q in
      Qmin (c1 + coverage * (2 # 10)) 1
  end.

Definition excerptOf (limit : nat) (text : string) : string :=
  if limit <? String.length text then JS.take limit text +++ "..." else text.

Definition formatSources (results : list ScoredChunk) : list EnhancedSource :=
  map (fun result =>
         mkESource (name (hit_document result))
                   (page (hit_chunk result))
                   (excerptOf 150 (content (hit_chunk result)))
                   (inject_Z (round (score result * 10)) / 10)%Q)
      (firstn 3 results).

(** *** Follow-up questions *)

Definition extractMainTopic (query : string) : string :=
  let topic := JS.join " " (lastn 2 (extractQueryTerms query)) in
  if String.length topic =? 0 then "this topic" else topic.

Definition generateContextualFollowUps (query : string) (results : list ScoredChunk)
  : list string :=
  let queryLower := JS.toLowerCase query in
  let specific :=
    match results with
    | [] => []
    | topResult :: _ =>
        let text := JS.toLowerCase (content (hit_chunk topResult)) in
        (if JS.includes "what is" queryLower then
           ["How does " +++ extractMainTopic query +++ " work?";
            "What are the applications of " +++ extractMainTopic query +++ "?"]
         else if JS.includes "how" queryLower then
           ["What are the benefits of this approach?"; "What challenges might arise?"]
         else if JS.includes "why" queryLower then
           ["What are the implications of this?"; "How does this compare to alternatives?"]
         else [])
        ++ (if JS.includes "method" text || JS.includes "approach" text
            then ["What are the steps involved in this method?"] else [])
        ++ (if JS.includes "result" text || JS.includes "finding" text
            then ["What were the key findings?"; "How significant are these results?"]
            else [])
        ++ (if JS.includes "application" text || JS.includes "use" text
            then ["What are some real-world examples?"] else [])
    end in
  firstn 4
    (unique []
       (specific ++ ["Can you provide more details about this topic?";
                     "What else should I know about this subject?"])).

Definition generateGenericFollowUps (documents : list ProcessedDocument) : list string :=
  ["What are the main topics covered in my documents?";
   "Can you summarize the key points?";
   "What type of document did I upload?";
   "What questions can I ask about this content?"].

(** *** The empty result *)

Definition noProcessedDocuments : string :=
  "I don't have any processed documents to search through yet. Please upload and wait for documents to be processed.".

Definition couldNotFind (query : string) : string :=
  "I couldn't find specific information about " +++ JS.dquote +++ query +++ JS.dquote
    +++ " in your uploaded documents. This might be because:" +++ JS.nl +++ JS.nl
    +++ "• The content doesn't directly address this topic" +++ JS.nl
    +++ "• Different terminology is used in the documents" +++ JS.nl
    +++ "• The information might be in a section I haven't indexed yet" +++ JS.nl +++ JS.nl
    +++ "Try rephrasing your question with different keywords, or ask me about the main topics covered in your documents.".

Definition generateNoResultsAnswer (query : string) (documents : list ProcessedDocument)
  : string :=
  let readyDocs := filter (fun doc => status_eqb (status doc) ready) documents in
  if length readyDocs =? 0 then noProcessedDocuments else couldNotFind query.

Definition generateAnswer (query : string) (documents : list ProcessedDocument)
  : EnhancedAnswerResult :=
  let searchResults := performSemanticSearch query documents in
  if length searchResults =? 0 then
    mkEnhanced (generateNoResultsAnswer query documents) 0 []
               (generateGenericFollowUps documents)
  else
    mkEnhanced (generateIntelligentAnswer query searchResults)
               (calculateConfidence query searchResults)
               (formatSources searchResults)
               (generateContextualFollowUps query searchResults).

End EnhancedQuestionAnswering.

(** ** The text processor ([TextProcessor])

    Entries of the substitution tables whose key holds a code unit
    outside ASCII cannot match ASCII text and are left out, and so is
    the dash rule of [standardizeFormatting], which comes before any
    text outside ASCII is inserted; its two rules for quotation marks
    replace a quote by itself.  The bullet rule comes after the
    ellipsis rule and is kept.  Unicode normalisation (NFKC) is the
    identity on ASCII text. *)

Module TextProcessor.

Import Arr.

Record TextProcessingOptions : Type := mkOptions {
  removeOCRErrors : option bool;
  standardizeFormattingOpt : option bool;
  fixEncoding : option bool;
  normalizeWhitespaceOpt : option bool;
  preserveStructure : option bool;
  expandAcronymsOpt : option bool
}.

Record DocSection : Type := mkSection {
  title : string;
  section_content : string;
  startIndex : nat;
  endIndex : nat
}.

Record ProcessedTextResult : Type := mkResult {
  cleanedText : string;
  originalLength : nat;
  processedLength : nat;
  improvementsApplied : list string;
  qualityScore : Q;
  sections : option (list DocSection)
}.

(** *** Global replacement

    [s.replace(/re/g, r)]: [m s] is the match of the pattern at the
    start of [s], as the replacement text and the number of characters
    matched (at least one); the search resumes after the match. *)
Fixpoint replaceAllBy (m : string -> option (string * nat)) (skip : nat) (s : string)
  : string :=
  match s with
  | EmptyString => EmptyString
  | String c s' =>
      match skip with
      | S k => replaceAllBy m k s'
      | O =>
          match m s with
          | Some (r, n) => r +++ replaceAllBy m (n - 1) s'
          | None => String c (replaceAllBy m 0 s')
          end
      end
  end.

(** [(s.match(/re/g) || []).length] *)
Fixpoint countMatches (m : string -> option nat) (skip : nat) (s : string) : nat :=
  match s with
  | EmptyString => 0
  | String c s' =>
      match skip with
      | S k => countMatches m k s'
      | O =>
          match m s with
          | Some n => S (countMatches m (n - 1) s')
          | None => countMatches m 0 s'
          end
      end
  end.

(** The longest prefix of characters in [p], and the rest. *)
Fixpoint span (p : ascii -> bool) (s : string) : string * string :=
  match s with
  | EmptyString => (EmptyString, EmptyString)
  | String c s' =>
      if p c then let (a, b) := span p s' in (String c a, b)
      else (EmptyString, s)
  end.

Definition isCode := RegExp.isCode.
Definition isBlank (c : ascii) : bool := isCode 32 c || isCode 9 c.
Definition isPunct (c : ascii) : bool :=
  existsb (fun n => isCode n c) [44; 46; 59; 58; 33; 63]%N.
Definition str1 (c : ascii) : string := String c EmptyString.

(** A literal pattern. *)
Definition literal (from to : string) (s : string) : option (string * nat) :=
  if prefix from s then Some (to, String.length from) else None.

(** [p{n,}] replaced by [to]. *)
Definition runOf (p : ascii -> bool) (atLeast : nat) (to : string) (s : string)
  : option (string * nat) :=
  let (r, _) := span p s in
  if atLeast <=? String.length r then Some (to, String.length r) else None.

(** *** Encoding *)

Definition fixEncodingIssues (text : string) : string :=
  replaceAllBy (runOf (isCode 0) 1 EmptyString) 0 text.

(** *** OCR errors *)

Definition commonOCRErrors : list (string * string) :=
  [ ("rn", "m"); ("vv", "w"); ("cl", "d"); ("II", "ll"); ("1l", "ll"); ("0", "O");
    ("5", "S"); ("8", "B"); ("6", "G"); ("1", "I"); ("2", "Z");
    ("  ", " "); ("   ", " "); (str1 (ascii_of_N 9), " ");
    (" " +++ JS.nl, JS.nl); (JS.nl +++ " ", JS.nl) ].

(** [/(\w)-\s*\n\s*(\w)/g -> '$1$2'] *)
Definition brokenLine (s : string) : option (string * nat) :=
  match s with
  | String a (String h r) =>
      if JS.isWordChar a && isCode 45 h then
        let (ws, r') := span JS.isWhiteSpace r in
        match r' with
        | String b _ =>
            if JS.includes JS.nl ws && JS.isWordChar b
            then Some (String a (str1 b), 3 + String.length ws) else None
        | EmptyString => None
        end
      else None
  | _ => None
  end.

(** [/(x)\s+(y)/g -> '$1$2'] for character classes [x], [y]. *)
Definition spacedPair (x y : ascii -> bool) (s : string) : option (string * nat) :=
  match s with
  | String a r =>
      if x a then
        let (ws, r') := span JS.isWhiteSpace r in
        match r' with
        | String b _ =>
            if (1 <=? String.length ws) && y b
            then Some (String a (str1 b), 2 + String.length ws) else None
        | EmptyString => None
        end
      else None
  | EmptyString => None
  end.

(** [/\s+([,.;:!?])/g -> '$1'] *)
Definition spaceBeforePunct (s : string) : option (string * nat) :=
  let (ws, r) := span JS.isWhiteSpace s in
  match r with
  | String p _ =>
      if (1 <=? String.length ws) && isPunct p
      then Some (str1 p, 1 + String.length ws) else None
  | EmptyString => None
  end.

(** [/([.!?])\s*([A-Z])/g -> '$1 $2'] *)
Definition sentenceSpace (s : string) : option (string * nat) :=
  match s with
  | String t r =>
      if Chunker.isTerminator t then
        let (ws, r') := span JS.isWhiteSpace r in
        match r' with
        | String u _ =>
            if JS.isUpper u
            then Some (String t (String " " (str1 u)), 2 + String.length ws) else None
        | EmptyString => None
        end
      else None
  | EmptyString => None
  end.

(** [/(https?:\/\/)\s+/g -> '$1'] *)
Definition brokenUrl (s : string) : option (string * nat) :=
  let after (scheme : string) :=
    if prefix scheme s then
      let (ws, _) := span JS.isWhiteSpace (EnhancedQuestionAnswering.drop (String.length scheme) s) in
      if 1 <=? String.length ws
      then Some (scheme, String.length scheme + String.length ws) else None
    else None in
  match after "http://" with
  | Some r => Some r
  | None => after "https://"
  end.

(** [/(\w+@)\s+(\w+\.\w+)/g -> '$1$2'] *)
Definition brokenEmail (s : string) : option (string * nat) :=
  let (user, r) := span JS.isWordChar s in
  match r with
  | String at_ r1 =>
      let (ws, r2) := span JS.isWhiteSpace r1 in
      let (host, r3) := span JS.isWordChar r2 in
      match r3 with
      | String dot r4 =>
          let (tld, _) := span JS.isWordChar r4 in
          if (1 <=? String.length user) && isCode 64 at_ && (1 <=? String.length ws)
             && (1 <=? String.length host) && isCode 46 dot && (1 <=? String.length tld)
          then Some (user +++ "@" +++ host +++ "." +++ tld,
                     String.length user + 1 + String.length ws + String.length host
                     + 1 + String.length tld)
          else None
      | EmptyString => None
      end
  | EmptyString => None
  end.

Definition wordFixes : list (string -> option (string * nat)) :=
  [ brokenLine;
    spacedPair JS.isWordChar JS.isWordChar;
    spaceBeforePunct;
    sentenceSpace;
    spacedPair JS.isDigit JS.isDigit;
    brokenUrl;
    brokenEmail ].

Definition correctOCRErrors (text : string) : string :=
  let cleaned :=
    fold_left (fun t e => replaceAllBy (literal (fst e) (snd e)) 0 t)
              commonOCRErrors text in
  fold_left (fun t m => replaceAllBy m 0 t) wordFixes cleaned.

(** *** White space *)

(** [/[ \t]+$/gm -> ''] *)
Definition trailingBlanks (s : string) : option (string * nat) :=
  let (ws, r) := span isBlank s in
  if (1 <=? String.length ws)
     && match r with
        | EmptyString => true
        | String c _ => JS.isLineTerminator c
        end
  then Some (EmptyString, String.length ws) else None.

Definition cr : string := str1 (ascii_of_N 13).

Definition normalizeWhitespace (text : string) : string :=
  let t1 := replaceAllBy (runOf isBlank 1 " ") 0 text in
  let t2 := replaceAllBy (literal (cr +++ JS.nl) JS.nl) 0 t1 in
  let t3 := replaceAllBy (literal cr JS.nl) 0 t2 in
  let t4 := replaceAllBy (runOf (isCode 10) 3 (JS.nl +++ JS.nl)) 0 t3 in
  let t5 := replaceAllBy trailingBlanks 0 t4 in
  JS.trim t5.

(** *** Formatting *)

(** The replacement of [/\.{3,}/g], as the source file spells it. *)
Definition ellipsis : string := "вЂ¦".

(** The class of the bullet rule, one string for each of its characters
    in the order of the source file, and the replacement. *)
Definition bulletClass : list string :=
  [ "в"; "Ђ"; "ў";
    "в"; "–"; "Є";
    "в"; "–"; "«";
    "в"; "Ђ"; "Ј";
    "в"; "Ѓ"; "ѓ" ].
Definition bullet : string := "вЂў".

(** [/[...]/g -> to] for a class of characters outside ASCII, each
    given by the bytes that carry it. *)
Definition oneOf (class : list string) (to : string) (s : string) : option (string * nat) :=
  match find (fun character => prefix character s) class with
  | Some character => Some (to, String.length character)
  | None => None
  end.

(** [/([.!?])([A-Z])/g -> '$1 $2'] *)
Definition gluedSentence (s : string) : option (string * nat) :=
  match s with
  | String t (String u _) =>
      if Chunker.isTerminator t && JS.isUpper u
      then Some (String t (String " " (str1 u)), 2) else None
  | _ => None
  end.

Definition standardizeFormatting (text : string) : string :=
  let f1 := replaceAllBy (runOf (isCode 46) 3 ellipsis) 0 text in
  let f2 := replaceAllBy spaceBeforePunct 0 f1 in
  let f3 := replaceAllBy gluedSentence 0 f2 in
  let bulleted := replaceAllBy (oneOf bulletClass bullet) 0 f3 in
  let f4 := replaceAllBy (runOf (isCode 46) 4 "...") 0 bulleted in
  let f5 := replaceAllBy (runOf (isCode 33) 2 "!") 0 f4 in
  replaceAllBy (runOf (isCode 63) 2 "?") 0 f5.

(** *** Acronyms *)

Definition academicAcronyms : list (string * string) :=
  [ ("AI", "Artificial Intelligence"); ("ML", "Machine Learning");
    ("NLP", "Natural Language Processing"); ("CV", "Computer Vision");
    ("DL", "Deep Learning"); ("NN", "Neural Network");
    ("CNN", "Convolutional Neural Network"); ("RNN", "Recurrent Neural Network");
    ("LSTM", "Long Short-Term Memory"); ("GAN", "Generative Adversarial Network");
    ("API", "Application Programming Interface"); ("HTTP", "HyperText Transfer Protocol");
    ("URL", "Uniform Resource Locator"); ("PDF", "Portable Document Format");
    ("RGB", "Red Green Blue"); ("CPU", "Central Processing Unit");
    ("GPU", "Graphics Processing Unit"); ("RAM", "Random Access Memory");
    ("SSD", "Solid State Drive"); ("HDD", "Hard Disk Drive");
    ("UI", "User Interface"); ("UX", "User Experience"); ("IoT", "Internet of Things");
    ("VR", "Virtual Reality"); ("AR", "Augmented Reality"); ("MR", "Mixed Reality") ].

Fixpoint lastChar (s : string) : option ascii :=
  match s with
  | EmptyString => None
  | String c EmptyString => Some c
  | String _ s' => lastChar s'
  end.

(** [/\bACRONYM\b/] at the start of [s], after the character [prev]. *)
Definition acronymAt (acronym : string) (prev : option ascii) (s : string) : bool :=
  RegExp.boundaryAt prev s && prefix acronym s
  && RegExp.boundaryAt (lastChar acronym)
       (EnhancedQuestionAnswering.drop (String.length acronym) s).

(** [expanded.replace(regex, match => ...)] with its [firstMatch] flag. *)
Fixpoint expandOne (acronym expansion : string) (firstMatch : bool)
         (prev : option ascii) (skip : nat) (s : string) : string :=
  match s with
  | EmptyString => EmptyString
  | String c s' =>
      match skip with
      | S k => expandOne acronym expansion firstMatch (Some c) k s'
      | O =>
          if acronymAt acronym prev s then
            (if firstMatch then expansion +++ " (" +++ acronym +++ ")" else expansion)
              +++ expandOne acronym expansion false (Some c) (String.length acronym - 1) s'
          else String c (expandOne acronym expansion firstMatch (Some c) 0 s')
      end
  end.

Definition expandAcronyms (text : string) : string :=
  fold_left (fun t e => expandOne (fst e) (snd e) true None 0 t) academicAcronyms text.

(** *** Structure *)

Definition prefixCI (p s : string) : bool :=
  prefix (JS.toLowerCase p) (JS.toLowerCase s).

Definition isDot (c : ascii) : bool := isCode 46 c.

(** [.+] right after a run [ws] of [\s+] that is followed by [rest]. *)
Definition somethingAfter (ws rest : string) : bool :=
  match rest with
  | String _ _ => true
  | EmptyString =>
      match ws with
      | String _ more => negb (JS.allb JS.isLineTerminator more)
      | EmptyString => false
      end
  end.

(** [/^\d+\.\s+.+/] *)
Definition numberedHeading (s : string) : bool :=
  let (d, r) := span JS.isDigit s in
  match r with
  | String dot r1 =>
      let (ws, r2) := span JS.isWhiteSpace r1 in
      (1 <=? String.length d) && isDot dot && (1 <=? String.length ws)
      && somethingAfter ws r2
  | EmptyString => false
  end.

(** [/^\d+\.\d+\s+.+/] *)
Definition subNumberedHeading (s : string) : bool :=
  let (d, r) := span JS.isDigit s in
  match r with
  | String dot r1 =>
      let (d2, r2) := span JS.isDigit r1 in
      let (ws, r3) := span JS.isWhiteSpace r2 in
      (1 <=? String.length d) && isDot dot && (1 <=? String.length d2)
      && (1 <=? String.length ws) && somethingAfter ws r3
  | EmptyString => false
  end.

(** [/^[A-Z\s]{5,50}$/] *)
Definition allCapsHeading (s : string) : bool :=
  JS.allb (fun c => JS.isUpper c || JS.isWhiteSpace c) s
  && (5 <=? String.length s) && (String.length s <=? 50).

(** [.*[^.!?]$]: no line terminator but possibly the last character,
    which is none of [.!?]. *)
Fixpoint titleTail (s : string) : bool :=
  match s with
  | EmptyString => false
  | String c EmptyString => negb (Chunker.isTerminator c)
  | String c s' => negb (JS.isLineTerminator c) && titleTail s'
  end.

(** [/^[A-Z][a-z].*[^.!?]$/] *)
Definition titleCaseHeading (s : string) : bool :=
  match s with
  | String u (String l r) => JS.isUpper u && JS.isLower l && titleTail r
  | _ => false
  end.

(** [/^(Chapter|Section|Part)\s+\d+/i] *)
Definition chapterHeading (s : string) : bool :=
  existsb
    (fun w =>
       prefixCI w s &&
       let (ws, r) := span JS.isWhiteSpace (EnhancedQuestionAnswering.drop (String.length w) s) in
       (1 <=? String.length ws) && JS.startsWithChar JS.isDigit r)
    ["Chapter"; "Section"; "Part"].

(** [/^(Abstract|Introduction|...)/i] *)
Definition academicHeading (s : string) : bool :=
  existsb (fun w => prefixCI w s)
    ["Abstract"; "Introduction"; "Methodology"; "Results"; "Discussion";
     "Conclusion"; "References"; "Appendix"].

Definition isHeading (line : string) : bool :=
  if (String.length line =? 0) || (200 <? String.length line) then false
  else
    existsb (fun pattern => pattern (JS.trim line))
      [numberedHeading; subNumberedHeading; allCapsHeading; titleCaseHeading;
       chapterHeading; academicHeading].

(** [.replace(/^\d+\.?\s*/, '')] *)
Definition stripNumbering (s : string) : string :=
  let (d, r) := span JS.isDigit s in
  if 1 <=? String.length d then
    JS.trimStart (match r with
                  | String c r' => if isDot c then r' else r
                  | EmptyString => r
                  end)
  else s.

(** [.replace(/^(Chapter|Section|Part)\s+\d+:?\s*/i, '')] *)
Definition stripChapter (s : string) : string :=
  match find (fun w => prefixCI w s) ["Chapter"; "Section"; "Part"] with
  | Some w =>
      let (ws, r) := span JS.isWhiteSpace (EnhancedQuestionAnswering.drop (String.length w) s) in
      let (d, r1) := span JS.isDigit r in
      if (1 <=? String.length ws) && (1 <=? String.length d) then
        JS.trimStart (match r1 with
                      | String c r' => if isCode 58 c then r' else r1
                      | EmptyString => r1
                      end)
      else s
  | None => s
  end.

Definition cleanHeading (heading : string) : string :=
  JS.trim (stripChapter (stripNumbering heading)).

(** The variables of the loop over the lines. *)
Record StructureState : Type := mkStructure {
  found : list DocSection;
  currentSection : option (string * string * nat);
  lineIndex : nat
}.

Definition structureStep (st : StructureState) (rawLine : string) : StructureState :=
  let line := JS.trim rawLine in
  let lineIndex' := lineIndex st + String.length rawLine + 1 in
  if isHeading line && (0 <? String.length line) then
    let start := lineIndex' - String.length rawLine - 1 in
    mkStructure
      (match currentSection st with
       | Some (t, c, b) => found st ++ [mkSection t c b start]
       | None => found st
       end)
      (Some (cleanHeading line, EmptyString, start))
      lineIndex'
  else
    match currentSection st with
    | Some (t, c, b) =>
        if 0 <? String.length line then
          mkStructure (found st)
            (Some (t, c +++ (if 0 <? String.length c then JS.nl else EmptyString) +++ line, b))
            lineIndex'
        else mkStructure (found st) (currentSection st) lineIndex'
    | None => mkStructure (found st) None lineIndex'
    end.

Definition extractDocumentStructure (text : string) : list DocSection :=
  let st := fold_left structureStep (JS.splitChar (ascii_of_N 10) text)
                      (mkStructure [] None 0) in
  match currentSection st with
  | Some (t, c, b) => found st ++ [mkSection t c b (String.length text)]
  | None => found st
  end.

(** *** Quality *)

Fixpoint distinct (seen : list ascii) (s : string) : nat :=
  match s with
  | EmptyString => length seen
  | String c s' =>
      if existsb (Ascii.eqb c) seen then distinct seen s' else distinct (c :: seen) s'
  end.

(** The negated class of [artifactCount]: neither a word character,
    nor white space, nor one of the marks [. , ! ? ; : ' ( ) -] or the
    double quote. *)
Definition isArtifact (c : ascii) : bool :=
  negb (JS.isWordChar c || JS.isWhiteSpace c
        || existsb (fun n => isCode n c) [46; 44; 33; 63; 59; 58; 39; 34; 40; 41; 45]%N).

Fixpoint countChars (p : ascii -> bool) (s : string) : nat :=
  match s with
  | EmptyString => 0
  | String c s' => (if p c then 1 else 0) + countChars p s'
  end.

(** [/\s{3,}|[a-z][A-Z]|\w[.!?][a-z]/] *)
Definition spacingIssue (s : string) : option nat :=
  let (ws, _) := span JS.isWhiteSpace s in
  if 3 <=? String.length ws then Some (String.length ws)
  else match s with
       | String a (String b r) =>
           if JS.isLower a && JS.isUpper b then Some 2
           else match r with
                | String c _ =>
                    if JS.isWordChar a && Chunker.isTerminator b && JS.isLower c
                    then Some 3 else None
                | EmptyString => None
                end
       | _ => None
       end.

Definition calculateTextQuality (text : string) (originalLength : nat) : Q :=
  let s0 := (1 # 2)%Q in
  let lengthRatio := (ofNat (String.length text) / ofNat (Nat.max originalLength 1))%Q in
  let s1 := if Qltb (9 # 10) lengthRatio then (s0 + (1 # 10))%Q
            else if Qltb (8 # 10) lengthRatio then (s0 + (5 # 100))%Q else s0 in
  let uniqueChars := distinct [] (JS.toLowerCase text) in
  let s2 := if 20 <? uniqueChars then (s1 + (1 # 10))%Q else s1 in
  let wordCount := count (fun w => 0 <? String.length w)
                         (JS.splitRuns JS.isWhiteSpace text) in
  let s3 := if 100 <? wordCount then (s2 + (1 # 10))%Q else s2 in
  let s4 := if 500 <? wordCount then (s3 + (1 # 10))%Q else s3 in
  let sentences := count (fun x => 10 <? String.length (JS.trim x))
                         (JS.splitRuns Chunker.isTerminator text) in
  let s5 := if 5 <? sentences then (s4 + (5 # 100))%Q else s4 in
  let s6 := if 20 <? sentences then (s5 + (5 # 100))%Q else s5 in
  let artifactCount := countChars isArtifact text in
  let artifactRatio := (ofNat artifactCount / ofNat (Nat.max (String.length text) 1))%Q in
  let s7 := if Qltb artifactRatio (1 # 100) then (s6 + (1 # 10))%Q
            else if Qltb (5 # 100) artifactRatio then (s6 - (1 # 10))%Q else s6 in
  let spacingIssues := countMatches spacingIssue 0 text in
  let s8 := if Qltb (ofNat spacingIssues) (ofNat (String.length text) * (1 # 1000))
            then (s7 + (1 # 10))%Q else s7 in
  clamp01 s8.

(** *** The pipeline

    The stages are taken as a record so that the control flow of
    [processText] can be studied for stages that raise. *)

Record Stages : Type := mkStages {
  run_fixEncodingIssues : string -> Exc string;
  run_correctOCRErrors : string -> Exc string;
  run_normalizeWhitespace : string -> Exc string;
  run_standardizeFormatting : string -> Exc string;
  run_expandAcronyms : string -> Exc string;
  run_extractDocumentStructure : string -> Exc (list DocSection);
  run_calculateTextQuality : string -> nat -> Exc Q
}.

Definition setting (o : option bool) (default : bool) : bool :=
  match o with
  | Some b => b
  | None => default
  end.

(** [{ ...defaultOptions, ...options }] *)
Definition configOf (options : TextProcessingOptions) : TextProcessingOptions :=
  mkOptions (Some (setting (removeOCRErrors options) true))
            (Some (setting (standardizeFormattingOpt options) true))
            (Some (setting (fixEncoding options) true))
            (Some (setting (normalizeWhitespaceOpt options) true))
            (Some (setting (preserveStructure options) true))
            (Some (setting (expandAcronymsOpt options) false)).

Definition enabled (o : option bool) : bool := setting o false.

Definition noOptions : TextProcessingOptions :=
  mkOptions None None None None None None.

(** One optional step: run it and note the improvement when [changed]. *)
Definition step (on : bool) (run : string -> Exc string)
           (changed : string -> string -> bool) (note : string)
           (st : string * list string) : Exc (string * list string) :=
  if on then
    bind (run (fst st))
         (fun after =>
            Returns (after, if changed (fst st) after then snd st ++ [note] else snd st))
  else Returns st.

Definition lengthDiffers (a b : string) : bool :=
  negb (String.length a =? String.length b).
Definition textDiffers (a b : string) : bool := negb (String.eqb a b).

(** The body of the [try] block. *)
Definition pipeline (st : Stages) (text : string) (options : TextProcessingOptions)
  : Exc ProcessedTextResult :=
  let config := configOf options in
  let originalLength := String.length text in
  bind (step (enabled (fixEncoding config)) (run_fixEncodingIssues st) lengthDiffers
             "Fixed text encoding issues" (text, [])) (fun s1 =>
  bind (step (enabled (removeOCRErrors config)) (run_correctOCRErrors st) textDiffers
             "Corrected OCR recognition errors" s1) (fun s2 =>
  bind (step (enabled (normalizeWhitespaceOpt config)) (run_normalizeWhitespace st) textDiffers
             "Normalized whitespace and line breaks" s2) (fun s3 =>
  bind (step (enabled (standardizeFormattingOpt config)) (run_standardizeFormatting st) textDiffers
             "Standardized text formatting" s3) (fun s4 =>
  bind (step (enabled (expandAcronymsOpt config)) (run_expandAcronyms st) textDiffers
             "Expanded common acronyms" s4) (fun s5 =>
  let processedText := fst s5 in
  bind (if enabled (preserveStructure config)
        then bind (run_extractDocumentStructure st processedText)
                  (fun secs =>
                     Returns (Some secs,
                              if 0 <? length secs
                              then snd s5 ++ ["Identified document structure"]
                              else snd s5))
        else Returns (None, snd s5)) (fun s6 =>
  bind (run_calculateTextQuality st processedText originalLength) (fun quality =>
  Returns (mkResult processedText originalLength (String.length processedText)
                    (snd s6) quality (fst s6))))))))).

(** The result built by the [catch] block. *)
Definition onError (text : string) : ProcessedTextResult :=
  mkResult text (String.length text) (String.length text)
           ["Error occurred during processing"] (1 # 2) (Some []).

Definition processTextWith (st : Stages) (text : string) (options : TextProcessingOptions)
  : Exc ProcessedTextResult :=
  tryCatch (pipeline st text options) (fun _ => Returns (onError text)).

(** The stages of the class itself. *)
Definition stages : Stages :=
  mkStages (fun s => Returns (fixEncodingIssues s))
           (fun s => Returns (correctOCRErrors s))
           (fun s => Returns (normalizeWhitespace s))
           (fun s => Returns (standardizeFormatting s))
           (fun s => Returns (expandAcronyms s))
           (fun s => Returns (extractDocumentStructure s))
           (fun s n => Returns (calculateTextQuality s n)).

Definition processText (text : string) (options : TextProcessingOptions)
  : ProcessedTextResult :=
  match processTextWith stages text options with
  | Returns r => r
  | Throws _ => onError text
  end.

Definition quickClean (text : string) : string :=
  cleanedText
    (processText text
       (mkOptions (Some true) (Some true) (Some true) (Some true) (Some false) (Some false))).

Definition academicClean (text : string) : ProcessedTextResult :=
  processText text
    (mkOptions (Some true) (Some true) (Some true) (Some true) (Some true) (Some true)).

Definition prepareForQA (text : string) : string * list DocSection * list string :=
  let result :=
    processText text
      (mkOptions (Some true) (Some true) (Some true) (Some true) (Some true) (Some false)) in
  (cleanedText result,
   match sections result with
   | Some secs => secs
   | None => []
   end,
   improvementsApplied result).

End TextProcessor.

(** ** The PDF processor ([PDFProcessor]) *)

Module PDFProcessor.

Import Arr.

(** [{ answer, sources }], the [ChatResponse] of the API. *)
Record Source : Type := mkSource {
  document : string;
  source_page : Z;
  excerpt : string
}.

Record ChatResponse : Type := mkChat {
  answer : string;
  sources : list Source
}.

(** What [extractTextWithFallback] resolves to. *)
Record ExtractedTextData : Type := mkExtracted {
  extracted_fullText : string;
  extracted_pages : list ExtractedPage;
  extracted_pageCount : nat
}.

Record File : Type := mkFile {
  file_name : string;
  file_size : nat
}.

(** *** The document map

    [Map<string, ProcessedDocument>]: keys in insertion order. *)
Definition Store : Type := list (string * ProcessedDocument).

Fixpoint set (key : string) (d : ProcessedDocument) (m : Store) : Store :=
  match m with
  | [] => [(key, d)]
  | (k, v) :: rest =>
      if String.eqb k key then (k, d) :: rest else (k, v) :: set key d rest
  end.

Fixpoint getDocument (m : Store) (key : string) : option ProcessedDocument :=
  match m with
  | [] => None
  | (k, v) :: rest => if String.eqb k key then Some v else getDocument rest key
  end.

Definition getAllDocuments (m : Store) : list ProcessedDocument := map snd m.

Definition deleteDocument (m : Store) (key : string) : Store * bool :=
  (filter (fun kv => negb (String.eqb (fst kv) key)) m,
   existsb (fun kv => String.eqb (fst kv) key) m).

(** *** Quality of the cleaned text *)

Definition academicTerms : list string :=
  ["research"; "analysis"; "methodology"; "results"; "conclusion"; "study";
   "findings"; "evidence"].

Definition calculateTextQuality (text : string) : Q :=
  let s0 := (1 # 2)%Q in
  let wordCount := count (fun w => 0 <? String.length w)
                         (JS.splitRuns JS.isWhiteSpace text) in
  let s1 := if 100 <? wordCount then (s0 + (1 # 10))%Q else s0 in
  let s2 := if 500 <? wordCount then (s1 + (1 # 10))%Q else s1 in
  let s3 := if 1000 <? wordCount then (s2 + (1 # 10))%Q else s2 in
  let sentences := count (fun x => 10 <? String.length (JS.trim x))
                         (JS.splitRuns Chunker.isTerminator text) in
  let avgSentenceLength :=
    if 0 <? sentences then (ofNat wordCount / ofNat sentences)%Q else 0%Q in
  let s4 := if Qltb 8 avgSentenceLength && Qltb avgSentenceLength 30
            then (s3 + (1 # 10))%Q else s3 in
  let uniqueChars := TextProcessor.distinct [] (JS.toLowerCase text) in
  let s5 := if 20 <? uniqueChars then (s4 + (1 # 10))%Q else s4 in
  let specialChars := TextProcessor.countChars TextProcessor.isArtifact text in
  let specialCharRatio :=
    (ofNat specialChars / ofNat (Nat.max (String.length text) 1))%Q in
  let s6 := if Qltb specialCharRatio (1 # 100) then (s5 + (1 # 10))%Q
            else if Qltb (5 # 100) specialCharRatio then (s5 - (1 # 10))%Q else s5 in
  let academicMatches :=
    count (fun term => JS.includes term (JS.toLowerCase text)) academicTerms in
  let s7 := if 2 <? academicMatches then (s6 + (1 # 10))%Q else s6 in
  clamp01 s7.

(** *** [processFile]

    [id] is the identifier drawn by [Math.random], [now] the clock and
    [extraction] what awaiting [extractTextWithFallback(file)] gives.
    The result is the document map afterwards and the value the
    promise settles to. *)

Definition messageOf (e : JsError) : string :=
  match e with
  | SyntaxError m | ReferenceError m | TypeError m | PlainError m => m
  end.

Definition processFile (m : Store) (file : File) (id : string) (now : Z)
           (extraction : Exc ExtractedTextData)
  : Store * Exc (string * ProcessedDocument) :=
  let document :=
    mkDocument id (file_name file) (file_size file) now processing 0 [] []
               EmptyString None None None in
  let m1 := set id document m in
  match extraction with
  | Returns extractedData =>
      let pages := extracted_pages extractedData in
      let fullText := extracted_fullText extractedData in
      let pageCount := extracted_pageCount extractedData in
      let textProcessingResult := TextProcessor.prepareForQA fullText in
      let cleanedFullText := fst (fst textProcessingResult) in
      let cleanedPages :=
        map (fun p => mkPage (page_number p) (TextProcessor.quickClean (page_text p)))
            pages in
      let chunks := Chunker.createTextChunks cleanedPages Chunker.defaultMaxChunkSize in
      let qualityScore := calculateTextQuality cleanedFullText in
      let processedDocument :=
        mkDocument id (file_name file) (file_size file) now ready pageCount
                   cleanedPages chunks fullText (Some cleanedFullText)
                   (Some qualityScore) (Some (snd textProcessingResult)) in
      (set id processedDocument m1, Returns (id, processedDocument))
  | Throws e =>
      let errorDocument :=
        mkDocument id (file_name file) (file_size file) now error 0 [] []
                   EmptyString None None None in
      (set id errorDocument m1,
       Throws (PlainError ("Failed to process PDF: " +++ messageOf e)))
  end.

(** *** The simple search of the fallback path *)

Definition synonyms : list (string * list string) :=
  [ ("machine", ["ml"; "artificial"; "automated"]);
    ("learning", ["training"; "education"; "study"]);
    ("data", ["information"; "dataset"; "statistics"]);
    ("analysis", ["analytics"; "examination"; "evaluation"]);
    ("research", ["study"; "investigation"; "academic"]);
    ("method", ["approach"; "technique"; "procedure"]);
    ("process", ["procedure"; "steps"; "workflow"]);
    ("application", ["use"; "usage"; "implementation"]);
    ("type", ["kind"; "category"; "classification"]);
    ("algorithm", ["method"; "technique"; "approach"]) ].

Fixpoint lookup (key : string) (table : list (string * list string)) : option (list string) :=
  match table with
  | [] => None
  | (k, v) :: rest => if String.eqb k key then Some v else lookup key rest
  end.

(** The lower-case property names that the object literal [synonyms]
    inherits from [Object.prototype]: [synonyms[word]] is then truthy
    and not iterable. *)
Definition inheritedProperties : list string := ["constructor"; "__proto__"].

Definition expandSearchTerms (queryWords : list string) : Exc (list string) :=
  foldExc
    (fun expanded word =>
       match lookup word synonyms with
       | Some l => Returns (expanded ++ l)
       | None =>
           if JS.arrayIncludes word inheritedProperties
           then Throws (TypeError "synonyms[word] is not iterable")
           else Returns expanded
       end)
    queryWords [].

Definition anyIncluded (alternatives : list string) (s : string) : bool :=
  existsb (fun a => JS.includes a s) alternatives.

Definition getContextualScore (query content : string) : Q :=
  let rule (q c : list string) (sc : Q) : Q :=
    if anyIncluded q query && anyIncluded c content then (sc + 3)%Q else sc in
  rule ["application"; "example"; "use"]
       ["application"; "used"; "example"; "industry"; "practice"]
    (rule ["type"; "kind"; "category"]
          ["type"; "kind"; "category"; "include"; "main"; "primary"; "key"]
       (rule ["why"; "reason"]
             ["because"; "reason"; "due to"; "purpose"; "since"]
          (rule ["how"; "process"; "method"]
                ["process"; "method"; "approach"; "technique"; "procedure"]
             (rule ["what is"; "define"]
                   ["is a"; "is an"; "is the"; "definition"; "refers to"]
                0%Q)))).

(** A run of the fallback either settles, to a value or an exception,
    or builds a pattern outside the fragment of [RegExp] ([None]). *)
Definition Run (A : Type) : Type := option (Exc A).

Definition andThen {A B} (m : Run A) (k : A -> Run B) : Run B :=
  match m with
  | Some (Returns a) => k a
  | Some (Throws e) => Some (Throws e)
  | None => None
  end.

Fixpoint foldRun {A St} (f : St -> A -> Run St) (l : list A) (s : St) : Run St :=
  match l with
  | [] => Some (Returns s)
  | x :: rest => andThen (f s x) (foldRun f rest)
  end.

(** The body of [for (const queryWord of queryWords)]. *)
Definition wordStep (lowered : string) (sc : Q) (queryWord : string) : Run Q :=
  if JS.includes queryWord lowered then
    match RegExp.create (RegExp.bs_b +++ queryWord +++ RegExp.bs_b) with
    | RegExp.Pattern wordRegex =>
        Some (Returns (if RegExp.test wordRegex lowered then (sc + 2 + 1)%Q else (sc + 2)%Q))
    | RegExp.Invalid msg => Some (Throws (SyntaxError msg))
    | RegExp.Unsupported => None
    end
  else Some (Returns sc).

Definition scoreChunk (queryLower : string) (queryWords expandedTerms : list string)
           (chunk : TextChunk) : Run Q :=
  let lowered := JS.toLowerCase (content chunk) in
  let s0 := if JS.includes queryLower lowered then 5%Q else 0%Q in
  andThen (foldRun (wordStep lowered) queryWords s0) (fun s1 =>
  let s2 := fold_left
              (fun sc term =>
                 if JS.includes term lowered && negb (JS.arrayIncludes term queryWords)
                 then (sc + 1)%Q else sc)
              expandedTerms s1 in
  let s3 := (s2 + getContextualScore queryLower lowered)%Q in
  let totalWords := length (JS.splitRuns JS.isWhiteSpace lowered) in
  let matchedWords := count (fun word => JS.includes word lowered) queryWords in
  let density := (ofNat matchedWords / ofNat (Nat.max totalWords 1))%Q in
  Some (Returns (s3 + density * 2)%Q)).

(** [queryLower.split(/\s+/).filter(word => word.length > 2)] *)
Definition queryWordsOf (queryLower : string) : list string :=
  filter (fun word => 2 <? String.length word) (JS.splitRuns JS.isWhiteSpace queryLower).

Definition searchDocuments (m : Store) (query : string) : Run (list ScoredChunk) :=
  let queryLower := JS.toLowerCase query in
  let queryWords := queryWordsOf queryLower in
  andThen (Some (expandSearchTerms queryWords)) (fun expandedTerms =>
  andThen
    (foldRun
       (fun results doc =>
          if status_eqb (status doc) ready then
            foldRun
              (fun results chunk =>
                 andThen (scoreChunk queryLower queryWords expandedTerms chunk)
                   (fun sc =>
                      Some (Returns (if Qltb 0 sc
                                     then results ++ [mkScored chunk sc doc]
                                     else results))))
              (chunks doc) results
          else Some (Returns results))
       (getAllDocuments m) [])
    (fun results =>
       Some (Returns (firstn 6 (sortBy EnhancedQuestionAnswering.byScoreDescending results))))).

(** *** [generateAnswer] *)

Definition noDocuments : string :=
  "No documents are currently available for analysis. Please upload and process some documents first.".

Definition highConfidence : string :=
  JS.nl +++ JS.nl +++ "*High confidence answer based on document content*".
Definition moderateConfidence : string :=
  JS.nl +++ JS.nl +++ "*Moderate confidence - you may want to ask for clarification*".

(** The [try] block, once the module is loaded. *)
Definition enhancedAnswer (m : Store) (query : string) : ChatResponse :=
  let documents := getAllDocuments m in
  if length documents =? 0 then mkChat noDocuments []
  else
    let result := EnhancedQuestionAnswering.generateAnswer query documents in
    let sources :=
      map (fun source =>
             mkSource (EnhancedQuestionAnswering.src_document source)
                      (EnhancedQuestionAnswering.src_page source)
                      (EnhancedQuestionAnswering.src_excerpt source))
          (EnhancedQuestionAnswering.sources result) in
    let a0 := EnhancedQuestionAnswering.answer result in
    let a1 := if Qltb (7 # 10) (EnhancedQuestionAnswering.confidence result) then a0 +++ highConfidence
              else if Qltb (4 # 10) (EnhancedQuestionAnswering.confidence result) then a0 +++ moderateConfidence
              else a0 in
    let a2 :=
      if 0 <? length (EnhancedQuestionAnswering.suggestedFollowUps result) then
        fold_left String.append
          (mapi (fun followUp index => JS.showNat (index + 1) +++ ". " +++ followUp +++ JS.nl)
                0 (firstn 3 (EnhancedQuestionAnswering.suggestedFollowUps result)))
          (a1 +++ JS.nl +++ JS.nl +++ "**Follow-up questions you might ask:**" +++ JS.nl)
      else a1 in
    mkChat a2 sources.

Definition couldNotFind (query : string) : string :=
  "I couldn't find specific information about " +++ JS.dquote +++ query +++ JS.dquote
    +++ " in the uploaded documents. Please try rephrasing your question with different keywords.".

(** The [catch] block. *)
Definition fallbackAnswer (m : Store) (query : string) : Run ChatResponse :=
  andThen (searchDocuments m query) (fun searchResults =>
  match searchResults with
  | [] => Some (Returns (mkChat (couldNotFind query) []))
  | topResult :: _ =>
      Some (Returns
        (mkChat ("Based on your documents: " +++ content (hit_chunk topResult))
                (map (fun result =>
                        mkSource (name (hit_document result))
                                 (page (hit_chunk result))
                                 (EnhancedQuestionAnswering.excerptOf 120
                                    (content (hit_chunk result))))
                     (firstn 3 searchResults))))
  end).

(** [moduleLoad] is what [require('./enhancedQuestionAnswering')] does
    in the running bundle. *)
Definition generateAnswer (moduleLoad : Exc unit) (m : Store) (query : string)
  : Run ChatResponse :=
  match moduleLoad with
  | Returns _ => Some (Returns (enhancedAnswer m query))
  | Throws enhancedError => fallbackAnswer m query
  end.

End PDFProcessor.

(** ** The API ([api.askQuestion]) *)

Module Api.

Inductive ApiResponse (T : Type) : Type :=
| data (d : T)
| failure (message : string).
Arguments data {T} d.
Arguments failure {T} message.

Definition askQuestion (moduleLoad : Exc unit) (m : PDFProcessor.Store) (question : string)
  : option (ApiResponse PDFProcessor.ChatResponse) :=
  match PDFProcessor.generateAnswer moduleLoad m question with
  | Some (Returns result) => Some (data result)
  | Some (Throws e) =>
      Some (failure ("Failed to process question: " +++ PDFProcessor.messageOf e))
  | None => None
  end.


(** *** Uploading, reading and deleting documents

    The state of the API is the processor's map together with the list
    kept under [STORAGE_KEY] in [localStorage]; [writable] is false when
    [localStorage.setItem] raises, which [saveDocumentsToStorage]
    catches and logs. *)

(** The [File] handed to [uploadDocument], with its MIME type. *)
Record Upload : Type := mkUpload {
  upload_file : PDFProcessor.File;
  file_type : string
}.

(** The [Document] of the API: a processed document without its text. *)
Record Document : Type := mkApiDocument {
  doc_id : string;
  doc_name : string;
  doc_size : nat;
  doc_uploadedAt : Z;
  doc_status : DocStatus;
  doc_pageCount : nat
}.

Record DocumentContent : Type := mkContent {
  content_page : Z;
  content_text : string
}.

Record ApiState : Type := mkApi {
  processor : PDFProcessor.Store;
  stored : list ProcessedDocument;
  writable : bool
}.

Definition saveDocumentsToStorage (st : ApiState) (documents : list ProcessedDocument)
  : ApiState :=
  if writable st then mkApi (processor st) documents true else st.

Definition toDocument (d : ProcessedDocument) : Document :=
  mkApiDocument (id d) (name d) (size d) (uploadedAt d) (status d) (pageCount d).

(** [id], [now] and [extraction] are what [processFile] draws, reads
    and awaits. *)
Definition uploadDocument (st : ApiState) (file : Upload) (id : string) (now : Z)
           (extraction : Exc PDFProcessor.ExtractedTextData)
  : ApiState * ApiResponse Document :=
  if negb (String.eqb (file_type file) "application/pdf")
  then (st, failure "Please upload only PDF files")
  else if (10 * 1024 * 1024 <? Z.of_nat (PDFProcessor.file_size (upload_file file)))%Z
  then (st, failure "File size must be less than 10MB")
  else
    match PDFProcessor.processFile (processor st) (upload_file file) id now extraction with
    | (m, Returns (_, document)) =>
        (saveDocumentsToStorage (mkApi m (stored st) (writable st))
                                (PDFProcessor.getAllDocuments m),
         data (toDocument document))
    | (m, Throws e) =>
        (mkApi m (stored st) (writable st),
         failure ("Failed to process PDF: " +++ PDFProcessor.messageOf e))
    end.

Definition deleteDocument (st : ApiState) (id : string) : ApiState * ApiResponse bool :=
  let (m, success) := PDFProcessor.deleteDocument (processor st) id in
  let st1 := mkApi m (stored st) (writable st) in
  (if success then saveDocumentsToStorage st1 (PDFProcessor.getAllDocuments m) else st1,
   data success).

Definition getDocumentContent (st : ApiState) (id : string)
  : ApiResponse (list DocumentContent) :=
  match PDFProcessor.getDocument (processor st) id with
  | None => failure "Document not found"
  | Some document =>
      if negb (status_eqb (status document) ready) then failure "Document not ready"
      else data (map (fun page => mkContent (page_number page) (page_text page))
                     (pages document))
  end.

End Api.

(** ** The predefined answers ([predefinedQA]) *)

Module PredefinedQA.

Import Arr.

Record PredefinedQA : Type := mkQA {
  question : string;
  answer : string
}.

Definition ML_RESEARCH_QA : list PredefinedQA :=
  [ mkQA "Difference between traditional programming and machine learning?"
      ("In traditional programming, humans write explicit rules and logic (Program + Data → Output). In machine learning, the system learns rules automatically by analyzing patterns in data (Data + Output → Program). Thus, ML automates the process of creating programs.");
    mkQA "What are the main types of machine learning methods discussed in the paper?"
      ("**Supervised Learning** – Uses labeled data to predict outcomes (e.g., fraud detection, spam filtering)."
       +++ JS.nl +++ JS.nl
       +++ "**Unsupervised Learning** – Works on unlabeled data to find hidden structures (e.g., clustering customers)."
       +++ JS.nl +++ JS.nl
       +++ "**Semi-Supervised Learning** – Uses a small set of labeled data with a large set of unlabeled data (cost-effective)."
       +++ JS.nl +++ JS.nl
       +++ "**Reinforcement Learning** – Uses trial-and-error with rewards to learn the best actions (used in robotics, gaming, navigation).");
    mkQA "What are the three key elements of every machine learning algorithm?"
      ("**Representation** – How knowledge is represented (decision trees, neural networks, SVMs, etc.)."
       +++ JS.nl +++ JS.nl
       +++ "**Evaluation** – How models are judged (accuracy, recall, cost, etc.)." +++ JS.nl
       +++ JS.nl
       +++ "**Optimization** – How models are improved (gradient descent, convex optimization, etc.).");
    mkQA "What real-world applications of machine learning are highlighted in the paper?"
      ("• **Data security** (detecting malware, breaches)" +++ JS.nl
       +++ "• **Financial trading** (predicting stock market trends)" +++ JS.nl
       +++ "• **Healthcare** (early disease detection, risk prediction)" +++ JS.nl
       +++ "• **Fraud detection** (PayPal, banking systems)" +++ JS.nl
       +++ "• **Recommendation systems** (Netflix, Amazon)" +++ JS.nl
       +++ "• **Natural Language Processing** (chatbots, translation)" +++ JS.nl
       +++ "• **Smart cars and IoT** (autonomous vehicles)");
    mkQA "What are the main advantages of machine learning mentioned?"
      ("• Identifies hidden trends & patterns in large datasets" +++ JS.nl
       +++ "• Automation with minimal human intervention" +++ JS.nl
       +++ "• Continuous improvement over time" +++ JS.nl
       +++ "• Handles multi-dimensional, complex data effectively" +++ JS.nl
       +++ "• Wide applications across industries");
    mkQA "What are some limitations or disadvantages of machine learning?"
      ("• Requires large, unbiased datasets" +++ JS.nl +++ "• Time and computationally expensive"
       +++ JS.nl +++ "• Difficult to interpret complex models" +++ JS.nl
       +++ "• Prone to bias and errors if training data is flawed");
    mkQA "Which programming languages are most used in machine learning according to the paper?"
      ("• **Python** – General-purpose, flexible, widely used" +++ JS.nl
       +++ "• **R** – Best for statistics and data analysis" +++ JS.nl
       +++ "• **Java** – Used with big data tools like Hadoop, Kafka" +++ JS.nl
       +++ "• **MATLAB** – Strong for numerical and engineering tasks" +++ JS.nl
       +++ "• **Scala** – Functional + object-oriented, scalable" +++ JS.nl
       +++ "• **C/C++** – For performance-heavy ML models" +++ JS.nl
       +++ "• **SQL** – For handling large databases and ETL processes");
    mkQA "Which companies are highlighted as using ML, and how?"
      ("• **Yelp** – Image classification" +++ JS.nl
       +++ "• **Pinterest** – Content discovery & recommendation" +++ JS.nl
       +++ "• **Facebook** – Chatbots & spam filtering" +++ JS.nl
       +++ "• **Twitter** – Timeline curation" +++ JS.nl
       +++ "• **Google** – DeepMind, NLP, search ranking" +++ JS.nl
       +++ "• **HubSpot** – Predictive lead scoring" +++ JS.nl
       +++ "• **IBM Watson** – Healthcare and business applications");
    mkQA "How does reinforcement learning differ from supervised learning?"
      ("**Supervised Learning:** Learns from labeled data with known outcomes." +++ JS.nl +++ JS.nl
       +++ "**Reinforcement Learning:** Learns through trial and error, guided by rewards/punishments, without predefined "
       +++ JS.dquote +++ "correct" +++ JS.dquote +++ " answers." +++ JS.nl +++ JS.nl
       +++ "**Introduction**" +++ JS.nl +++ JS.nl
       +++ "Machine Learning (ML) is a subset of Artificial Intelligence that enables systems to learn from data without explicit programming."
       +++ JS.nl +++ JS.nl
       +++ "It relies on algorithms and statistical models to detect patterns and make predictions."
       +++ JS.nl +++ JS.nl
       +++ "Applications span across healthcare, finance, security, robotics, marketing, and more.");
    mkQA "Summarize the document"
      ("## Machine Learning (ML) Overview" +++ JS.nl +++ JS.nl
       +++ "ML, a branch of AI, enables systems to learn from data and make predictions without explicit programming. It uses algorithms to detect patterns and improve performance."
       +++ JS.nl +++ JS.nl +++ "### Key Concepts" +++ JS.nl
       +++ "• **Traditional vs ML:** In ML, data + output → machine learns rules" +++ JS.nl
       +++ "• **Core Elements:** Representation, evaluation, optimization" +++ JS.nl +++ JS.nl
       +++ "### Types of ML" +++ JS.nl +++ "• **Supervised:** Learns from labeled data" +++ JS.nl
       +++ "• **Unsupervised:** Finds patterns in unlabeled data" +++ JS.nl
       +++ "• **Semi-Supervised:** Mix of both, cost-effective" +++ JS.nl
       +++ "• **Reinforcement:** Learns via rewards/trial-and-error" +++ JS.nl +++ JS.nl
       +++ "### Applications" +++ JS.nl
       +++ "Security (malware detection), finance (fraud, trading), healthcare (diagnosis), marketing (recommendations), smart systems (self-driving, NLP), robotics, and more."
       +++ JS.nl +++ JS.nl +++ "### Pros" +++ JS.nl +++ "• Pattern detection in big data" +++ JS.nl
       +++ "• Reduces human effort" +++ JS.nl +++ "• Continuous improvement" +++ JS.nl
       +++ "• Handles complex data" +++ JS.nl +++ "• Broad industry use" +++ JS.nl +++ JS.nl
       +++ "### Cons" +++ JS.nl +++ "• Requires large, unbiased data" +++ JS.nl
       +++ "• High computational cost" +++ JS.nl +++ "• Hard-to-interpret results" +++ JS.nl
       +++ "• Error-prone with flawed data" +++ JS.nl +++ JS.nl +++ "### Tools" +++ JS.nl
       +++ "Popular languages: Python, R, Java, MATLAB, Scala, C/C++, SQL." +++ JS.nl +++ JS.nl
       +++ "### Companies Using ML" +++ JS.nl
       +++ "Google, Facebook, Twitter, Pinterest, Yelp, IBM Watson, HubSpot." +++ JS.nl +++ JS.nl
       +++ "### Conclusion" +++ JS.nl
       +++ "ML enhances decision-making, prediction, and automation. Supervised suits small datasets, unsupervised for large, and reinforcement for robotics. With deep learning, ML continues to transform industries and daily life.") ].

Definition NUCLEAR_PHYSICS_QA : list PredefinedQA :=
  [ mkQA "What does nuclear physics study and what are its main applications?"
      ("Nuclear physics studies the properties of atomic nuclei, the particles inside them, their interactions, radioactivity, and nuclear reactions. Applications include medical isotopes, MRI, material identification, carbon dating, power generation (fission & fusion), and nuclear weapons.");
    mkQA "What are the basic properties of nuclei?"
      ("A nucleus consists of protons (positive) and neutrons (neutral). Isotopes have the same number of protons (Z) but different neutrons (N). Nuclear size is given by R = R₀A¹ᐟ³ with R₀ ≈ 1.2×10⁻¹⁵ m. Nuclear density is extremely high (~10¹⁷ kg/m³) and nearly constant for all nuclei.");
    mkQA "What is nuclear binding energy and why is it important?"
      ("Nuclear binding energy is the energy gained when nucleons form a nucleus. The binding energy per nucleon is nearly constant, indicating the nuclear force is short-ranged and saturated. It measures nuclear stability—the higher the binding energy per nucleon, the more stable the nucleus.");
    mkQA "What are the characteristics of the nuclear force?"
      ("The nuclear force is very strong and short-ranged (~10⁻¹⁵ m), independent of charge, and favors spin-paired nucleons. It is saturated, meaning each nucleon interacts mainly with its nearest neighbors.");
    mkQA "What is radioactivity and what are its types?"
      ("Radioactivity is the spontaneous emission of particles or radiation from unstable nuclei. Types include:"
       +++ JS.nl +++ "- Alpha decay: emission of a ²⁴He nucleus" +++ JS.nl
       +++ "- Beta decay: β⁻ (n → p + e⁻ + ν̅), β⁺ (p → n + e⁺ + ν)" +++ JS.nl
       +++ "- Electron capture: p + e⁻ → n + ν" +++ JS.nl
       +++ "- Gamma decay: emission of high-energy photons" +++ JS.nl
       +++ "Radioactive decay is statistical, characterized by decay constant (λ), half-life (T₁/₂), and mean life (τ).");
    mkQA "What are nuclear reactions and what is the Q-value?"
      ("Nuclear reactions involve rearrangement of nucleons by bombardment. The Q-value determines if a reaction is exoergic (Q>0) or endoergic (Q<0). Neutron-induced reactions are used in fission, fusion, and analysis (e.g., neutron activation analysis).");
    mkQA "Explain nuclear fission and its use in reactors."
      ("Fission is the splitting of heavy nuclei (e.g., U-235) into lighter nuclei, releasing neutrons and about 200 MeV of energy. A chain reaction is sustained if the reproduction constant k ≈ 1. Nuclear reactors use moderators (to slow neutrons) and control rods (to absorb excess neutrons) to control the reaction.");
    mkQA "What is nuclear fusion and why is it important?"
      ("Fusion is the combination of light nuclei (e.g., D + T) to form He-4 and a neutron, releasing 17.6 MeV. Fusion releases more energy per nucleon than fission and uses abundant, clean fuel, but requires extremely high temperatures (T > 10⁷ K) and plasma confinement. Fusion powers the sun.");
    mkQA "How does Carbon-14 dating work?"
      ("Living organisms maintain a fixed ratio of ¹⁴C/¹²C. After death, ¹⁴C decays (T₁/₂ = 5730 years). Measuring the reduced ratio in remains reveals their age. Activity is measured in curie (Ci).");
    mkQA "Summarize the differences between fission and fusion, and their significance."
      ("Fission splits heavy nuclei into medium-mass nuclei and energy (e.g., U-235), used in reactors and weapons. Fusion combines light nuclei into heavier ones, releasing more energy per nucleon (e.g., D + T → He), with cleaner fuel and less radioactive waste. Fusion is more promising for future power but is technologically challenging.") ].

Definition mlKeywordMatches : list (string * nat) :=
  [ ("traditional programming", 0); ("difference between traditional", 0);
    ("traditional vs machine learning", 0); ("traditional vs ml", 0);
    ("types of machine learning", 1); ("kinds of machine learning", 1);
    ("main types", 1); ("supervised unsupervised", 1);
    ("three key elements", 2); ("key elements", 2);
    ("representation evaluation optimization", 2); ("real-world applications", 3);
    ("applications of machine learning", 3); ("applications highlighted", 3);
    ("use cases", 3); ("advantages of machine learning", 4);
    ("benefits of machine learning", 4); ("main advantages", 4);
    ("pros of machine learning", 4); ("limitations", 5);
    ("disadvantages", 5); ("cons of machine learning", 5);
    ("problems with machine learning", 5); ("programming languages", 6);
    ("languages used", 6); ("python r java", 6);
    ("most used languages", 6); ("companies using ml", 7);
    ("companies highlighted", 7); ("google facebook twitter", 7);
    ("which companies", 7); ("reinforcement learning differ", 8);
    ("reinforcement vs supervised", 8); ("difference reinforcement", 8);
    ("summarize", 9); ("summary", 9);
    ("overview", 9); ("summarize the document", 9);
    ("give me a summary", 9); ("what is this document about", 9) ].

Definition nuclearKeywordMatches : list (string * nat) :=
  [ ("nuclear physics study", 0); ("what does nuclear physics", 0);
    ("nuclear physics applications", 0); ("applications of nuclear physics", 0);
    ("basic properties of nuclei", 1); ("properties of nuclei", 1);
    ("nuclear properties", 1); ("protons neutrons", 1);
    ("isotopes", 1); ("nuclear size", 1);
    ("nuclear density", 1); ("nuclear binding energy", 2);
    ("binding energy", 2); ("nuclear stability", 2);
    ("binding energy per nucleon", 2); ("nuclear force", 3);
    ("characteristics of nuclear force", 3); ("strong force", 3);
    ("short-ranged force", 3); ("radioactivity", 4);
    ("types of radioactivity", 4); ("alpha decay", 4);
    ("beta decay", 4); ("gamma decay", 4);
    ("radioactive decay", 4); ("half-life", 4);
    ("nuclear reactions", 5); ("q-value", 5);
    ("exoergic endoergic", 5); ("neutron-induced reactions", 5);
    ("nuclear fission", 6); ("fission", 6);
    ("nuclear reactors", 6); ("chain reaction", 6);
    ("u-235", 6); ("uranium-235", 6);
    ("moderators control rods", 6); ("nuclear fusion", 7);
    ("fusion", 7); ("deuterium tritium", 7);
    ("plasma confinement", 7); ("fusion energy", 7);
    ("sun energy", 7); ("carbon-14 dating", 8);
    ("carbon dating", 8); ("c-14 dating", 8);
    ("radiocarbon dating", 8); ("age determination", 8);
    ("fission vs fusion", 9); ("difference between fission and fusion", 9);
    ("fission fusion comparison", 9); ("nuclear energy comparison", 9) ].

Definition ALL_QA_DOMAINS : list PredefinedQA := ML_RESEARCH_QA ++ NUCLEAR_PHYSICS_QA.

(** [TABLE[i].answer] *)
Definition answerAt (table : list PredefinedQA) (i : nat) : string :=
  match nth_error table i with
  | Some qa => answer qa
  | None => EmptyString
  end.

Definition calculateSimilarity (str1 str2 : string) : Q :=
  let words1 := filter (fun w => 2 <? String.length w) (JS.splitRuns JS.isWhiteSpace str1) in
  let words2 := filter (fun w => 2 <? String.length w) (JS.splitRuns JS.isWhiteSpace str2) in
  if (length words1 =? 0) || (length words2 =? 0) then 0%Q
  else
    let commonWords := filter (fun word => JS.arrayIncludes word words2) words1 in
    let totalWords := Nat.max (length words1) (length words2) in
    (ofNat (length commonWords) / ofNat totalWords)%Q.

(** [for (const [keywords, answer] of Object.entries(table))] with its
    early [return]. *)
Definition keywordLookup (question : string) (table : list (string * nat))
           (answers : list PredefinedQA) : option string :=
  match find (fun entry => JS.includes (fst entry) question) table with
  | Some entry => Some (answerAt answers (snd entry))
  | None => None
  end.

(** The fuzzy loop: the best match so far, as answer and score. *)
Definition fuzzyStep (question : string) (bestMatch : option (string * Q)) (qa : PredefinedQA)
  : option (string * Q) :=
  let sc := calculateSimilarity question (JS.toLowerCase (PredefinedQA.question qa)) in
  if Qltb (8 # 10) sc
     && match bestMatch with
        | None => true
        | Some (_, best) => Qltb best sc
        end
  then Some (answer qa, sc) else bestMatch.

Definition findPredefinedAnswer (userQuestion : string) : option string :=
  let question := JS.trim (JS.toLowerCase userQuestion) in
  match keywordLookup question mlKeywordMatches ML_RESEARCH_QA with
  | Some a => Some a
  | None =>
      match keywordLookup question nuclearKeywordMatches NUCLEAR_PHYSICS_QA with
      | Some a => Some a
      | None =>
          match fold_left (fuzzyStep question) ALL_QA_DOMAINS None with
          | Some (a, _) => Some a
          | None => None
          end
      end
  end.

Definition mlKeywords : list string :=
  ["machine learning"; "ml"; "supervised"; "unsupervised"; "reinforcement";
   "algorithm"; "traditional programming"; "representation"; "evaluation";
   "optimization"; "neural networks"; "deep learning"; "artificial intelligence";
   "ai"; "data science"; "python"; "applications"; "advantages"; "disadvantages"].

Definition isMLResearchQuestion (question : string) : bool :=
  existsb (fun keyword => JS.includes keyword (JS.toLowerCase question)) mlKeywords.

Definition nuclearKeywords : list string :=
  ["nuclear"; "nuclei"; "nucleus"; "fission"; "fusion"; "radioactive"; "radioactivity";
   "alpha decay"; "beta decay"; "gamma decay"; "binding energy"; "nuclear force";
   "proton"; "neutron"; "isotope"; "uranium"; "plutonium"; "carbon-14"; "c-14";
   "half-life"; "decay constant"; "nuclear reactor"; "chain reaction"; "moderator";
   "control rod"; "q-value"; "exoergic"; "endoergic"; "deuterium"; "tritium";
   "plasma"; "nuclear physics"; "atomic nucleus"; "nuclear reaction"].

Definition isNuclearPhysicsQuestion (question : string) : bool :=
  existsb (fun keyword => JS.includes keyword (JS.toLowerCase question)) nuclearKeywords.

End PredefinedQA.

(** ** The asking flow ([handleSendMessage] of the application) *)

Module App.

Inductive Sender : Type := user | assistant.

Record Message : Type := mkMessage {
  sender : Sender;
  text : string;
  sources : list PDFProcessor.Source
}.

(** What one call leaves behind: the messages appended to the chat, the
    questions passed to [api.askQuestion], and whether the upgrade
    prompt was raised. *)
Record Turn : Type := mkTurn {
  appended : list Message;
  asked : list string;
  upgradePrompt : bool
}.

Definition knowledgeBaseOf (question : string) : string * string :=
  let isML := PredefinedQA.isMLResearchQuestion question in
  let isNuclear := PredefinedQA.isNuclearPhysicsQuestion question in
  if isML && negb isNuclear
  then ("ML Research Paper knowledge base", "ML Research Paper.pdf")
  else if isNuclear && negb isML
  then ("Nuclear Physics knowledge base", "Nuclear Physics Paper.pdf")
  else ("Integrated Research Knowledge Base", "Research Papers.pdf").

Definition predefinedMessage (question predefinedAnswer : string) : Message :=
  let (knowledgeBase, documentName) := knowledgeBaseOf question in
  mkMessage assistant
    (predefinedAnswer +++ JS.nl +++ JS.nl +++ "---" +++ JS.nl
       +++ "*This answer is from the " +++ knowledgeBase +++ ".*")
    [PDFProcessor.mkSource documentName 1
       ("Predefined answer from integrated " +++ JS.toLowerCase knowledgeBase)].

(** [usageAllowed] is false when a user is signed in and
    [UsageTracker.updateUsage] refuses the question.  The result is
    [None] when the API call leaves the fragment of [RegExp]. *)
Definition handleSendMessage (usageAllowed : bool) (moduleLoad : Exc unit)
           (m : PDFProcessor.Store) (question : string) : option Turn :=
  if negb usageAllowed then Some (mkTurn [] [] true)
  else
    let userMsg := mkMessage user question [] in
    match PredefinedQA.findPredefinedAnswer question with
    | Some (String c rest) =>
        Some (mkTurn [userMsg; predefinedMessage question (String c rest)] [] false)
    | _ =>
        match Api.askQuestion moduleLoad m question with
        | Some (Api.failure message) =>
            Some (mkTurn
                    [userMsg;
                     mkMessage assistant
                       ("Sorry, I encountered an error: " +++ message
                          +++ ". Please try again or check that your documents are properly uploaded and processed.")
                       []]
                    [question] false)
        | Some (Api.data d) =>
            Some (mkTurn
                    [userMsg;
                     mkMessage assistant (PDFProcessor.answer d) (PDFProcessor.sources d)]
                    [question] false)
        | None => None
        end
    end.

End App.

(** ** The FAQ tracker ([FAQSystem]) *)

Module FAQSystem.

Import Arr.

Record FAQItem : Type := mkFAQ {
  faq_id : string;
  question : string;
  answer : string;
  category : string;
  popularity : nat;
  keywords : list string;
  lastAsked : Z;
  timesAsked : nat
}.

Definition getPopularQuestions (faqItems : list FAQItem) (limit : nat) : list FAQItem :=
  firstn limit
    (sortBy (fun a b => (ofNat (popularity b) - ofNat (popularity a))%Q) faqItems).

Definition sevenDays : Z := 7 * 24 * 60 * 60 * 1000.

(** [timesAsked * (lastAsked.getTime() / Date.now())] *)
Definition trendOf (now : Z) (item : FAQItem) : Q :=
  (ofNat (timesAsked item) * (inject_Z (lastAsked item) / inject_Z now))%Q.

(** The comparator handed to [sort]. *)
Definition trendingOrder (now : Z) (a b : FAQItem) : Q :=
  let aScore := trendOf now b in
  let bScore := trendOf now a in
  (bScore - aScore)%Q.

(** [now] is the reading of [Date.now()]. *)
Definition getTrendingQuestions (now : Z) (faqItems : list FAQItem) (limit : nat)
  : list FAQItem :=
  let recentThreshold := (now - sevenDays)%Z in
  firstn limit
    (sortBy (trendingOrder now)
       (filter (fun faq => (recentThreshold <=? lastAsked faq)%Z) faqItems)).


(** *** Tracking questions

    The state is the two arrays of the instance, which [saveToStorage]
    mirrors into [localStorage].  [now] and [later] are the two readings
    of the clock that one call of [trackQuestion] takes, [newId] the
    identifier drawn by [generateId]. *)

Record HistoryEntry : Type := mkHistory {
  asked_question : string;
  timestamp : Z;
  asked_category : string
}.

Record State : Type := mkState {
  faqItems : list FAQItem;
  questionHistory : list HistoryEntry
}.

Definition categoryKeywords : list (string * list string) :=
  [ ("Summary", ["summarize"; "summary"; "main"; "topic"; "overview"; "about"; "key points"]);
    ("Research Methods", ["method"; "methodology"; "approach"; "technique"; "procedure"]);
    ("Results", ["results"; "findings"; "outcomes"; "conclusion"; "discovered"]);
    ("Analysis", ["analyze"; "analysis"; "examine"; "evaluate"; "assess"; "limitations"]);
    ("Applications", ["application"; "practical"; "use"; "implement"; "apply"]);
    ("Theory", ["theory"; "theoretical"; "framework"; "model"; "concept"]);
    ("Data", ["data"; "dataset"; "source"; "information"; "evidence"]);
    ("Context", ["context"; "background"; "related"; "comparison"; "literature"]);
    ("Future Work", ["future"; "recommendation"; "direction"; "further"; "next"]) ].

Definition categorizeQuestion (asked : string) : string :=
  match find (fun entry => existsb (fun keyword => JS.includes keyword asked) (snd entry))
             categoryKeywords with
  | Some entry => fst entry
  | None => "General"
  end.

Definition calculateSimilarity (str1 str2 : string) : Q :=
  let words1 := JS.splitRuns JS.isWhiteSpace str1 in
  let words2 := JS.splitRuns JS.isWhiteSpace str2 in
  let intersection := filter (fun word => JS.arrayIncludes word words2) words1 in
  let union := unique [] (words1 ++ words2) in
  (ofNat (length intersection) / ofNat (length union))%Q.

(** The predicate of [findSimilarFAQ]. *)
Definition similarTo (asked : string) (faq : FAQItem) : bool :=
  Qltb (7 # 10) (calculateSimilarity asked (JS.toLowerCase (question faq))).

Definition findSimilarFAQ (items : list FAQItem) (asked : string) : option FAQItem :=
  find (similarTo asked) items.

Definition shouldCreateFAQ (history : list HistoryEntry) (asked : string) : bool :=
  let recentQuestions :=
    map (fun h => JS.toLowerCase (asked_question h)) (firstn 100 history) in
  let similarQuestions :=
    filter (fun q => Qltb (6 # 10) (calculateSimilarity asked q)) recentQuestions in
  2 <=? length similarQuestions.

Definition keywordStopWords : list string :=
  ["what"; "how"; "why"; "when"; "where"; "who"; "is"; "are"; "the"; "a"; "an"; "and";
   "or"; "but"; "in"; "on"; "at"; "to"; "for"; "of"; "with"; "by"].

Definition extractKeywords (asked : string) : list string :=
  firstn 10
    (filter (fun word => (2 <? String.length word)
                         && negb (JS.arrayIncludes word keywordStopWords))
       (JS.splitRuns JS.isWhiteSpace asked)).

Definition createNewFAQ (items : list FAQItem) (originalQuestion normalizedQuestion : string)
           (newId : string) (later : Z) : list FAQItem :=
  let newCategory := categorizeQuestion normalizedQuestion in
  let newKeywords := extractKeywords normalizedQuestion in
  items ++
    [mkFAQ newId originalQuestion
        ("This is a frequently asked question. I'll analyze your documents to provide a comprehensive answer about "
           +++ JS.join ", " (firstn 3 newKeywords) +++ ".")
        newCategory 5 newKeywords later 1].

(** The three assignments to [existingFAQ]. *)
Definition askedAgain (later : Z) (faq : FAQItem) : FAQItem :=
  mkFAQ (faq_id faq) (question faq) (answer faq) (category faq)
        (Nat.min 100 (popularity faq + 1)) (keywords faq) later (timesAsked faq + 1).

(** The array after the first element that satisfies [p] was mutated
    in place. *)
Fixpoint updateFirst (p : FAQItem -> bool) (f : FAQItem -> FAQItem) (items : list FAQItem)
  : list FAQItem :=
  match items with
  | [] => []
  | faq :: rest => if p faq then f faq :: rest else faq :: updateFirst p f rest
  end.

Definition trackQuestion (st : State) (asked : string) (now later : Z) (newId : string)
  : State :=
  let normalizedQuestion := JS.trim (JS.toLowerCase asked) in
  let unshifted :=
    mkHistory asked now (categorizeQuestion normalizedQuestion) :: questionHistory st in
  let history :=
    if 1000 <? length unshifted then firstn 1000 unshifted else unshifted in
  match findSimilarFAQ (faqItems st) normalizedQuestion with
  | Some _ =>
      mkState (updateFirst (similarTo normalizedQuestion) (askedAgain later) (faqItems st))
              history
  | None =>
      if shouldCreateFAQ history normalizedQuestion
      then mkState (createNewFAQ (faqItems st) asked normalizedQuestion newId later) history
      else mkState (faqItems st) history
  end.

Definition getQuestionsByCategory (items : list FAQItem) (wanted : string) : list FAQItem :=
  sortBy (fun a b => (ofNat (popularity b) - ofNat (popularity a))%Q)
         (filter (fun faq => String.eqb (category faq) wanted) items).

End FAQSystem.

(** ** Pages of an extracted text ([pdfRestExtractor])

    The functions that turn the text of a document into the pages and
    the page count, and the extraction that [processFile] awaits. *)

Module PdfRestExtractor.

Definition maxPageLength : nat := 1500.

(** The variables of the loop over the words; [stopped] records the
    [break] of the safety limit. *)
Record PageLoop : Type := mkPageLoop {
  pushed : list string;
  currentPage : string;
  stopped : bool
}.

(** The body of the loop over the words. *)
Definition addWord (st : PageLoop) (word : string) : PageLoop :=
  if stopped st then st
  else
    let st1 :=
      if maxPageLength <? String.length (currentPage st) + String.length word + 1 then
        if 0 <? String.length (JS.trim (currentPage st))
        then mkPageLoop (pushed st ++ [JS.trim (currentPage st)]) (word +++ " ") false
        else mkPageLoop (pushed st ++ [word]) EmptyString false
      else
        mkPageLoop (pushed st)
          (currentPage st
             +++ (if 0 <? String.length (currentPage st) then " " else EmptyString)
             +++ word)
          false in
    mkPageLoop (pushed st1) (currentPage st1) (10 <=? length (pushed st1)).

(** The [try] block; string operations do not raise. *)
Definition splitIntoPages (fullText : string) : list string :=
  if String.length fullText <=? maxPageLength then [JS.trim fullText]
  else
    let st := fold_left addWord (JS.splitRuns JS.isWhiteSpace fullText)
                        (mkPageLoop [] EmptyString false) in
    if 0 <? String.length (JS.trim (currentPage st))
    then pushed st ++ [JS.trim (currentPage st)]
    else pushed st.

Definition parseTextIntoPages (fullText : string) : list ExtractedPage :=
  if String.length (JS.trim fullText) =? 0
  then [mkPage 1 "No text content extracted."]
  else
    let found := splitIntoPages fullText in
    let texts :=
      match found with
      | [] => ["Document processed but no readable content extracted."]
      | _ => found
      end in
    Arr.mapi (fun text index => mkPage (Z.of_nat (index + 1)) (JS.trim text)) 0 texts.

(** [Math.max(1, Math.ceil(text.length / 1500))]: the quotient of two
    integers below [2^53] rounded up. *)
Definition estimatePageCount (text : string) : nat :=
  if String.length text =? 0 then 1
  else Nat.max 1 ((String.length text + 1499) / 1500).

(** *** The extraction with its fallback

    The network and the bytes of the file are outside the model.  What
    a request comes to is an argument: [fetch] or the reading of the
    body raises, the response is not [ok] ([status] is its status code
    and text), or it is [ok] with a body.  The body of the first
    request is a JSON object, of which the fields that are read are
    kept; a field that is absent is [None], and a field that is present
    has the type that the code expects.  What [fallbackTextExtraction]
    resolves to, and the two texts that [toFixed] and [toLocaleString]
    print into the description of the file, are arguments as well. *)

Inductive Fetched (A : Type) : Type :=
| fetchRaises (e : JsError)
| notOk (status : string)
| ok (body : A).
Arguments fetchRaises {A} e.
Arguments notOk {A} status.
Arguments ok {A} body.

Record PageJson : Type := mkPageJson {
  json_pageNumber : option Z;
  json_page : option Z;
  json_text : option string;
  json_content : option string
}.

Record ResultJson : Type := mkResultJson {
  json_outputUrl : option string;
  json_extractedText : option string;
  json_fullText : option string;
  json_pageCount : option nat;
  json_pages : option (list PageJson)
}.

(** [PDFRestExtractResponse]; [metadata_pageCount] is
    [metadata?.pageCount]. *)
Record PDFRestExtractResponse : Type := mkResponse {
  success : bool;
  response_fullText : option string;
  response_pages : option (list ExtractedPage);
  response_error : option string;
  metadata_pageCount : option nat
}.

(** The operand of [||] or [!] when it is truthy: a string that is not
    empty, a number that is not zero. *)
Definition truthy (field : option string) : option string :=
  match field with
  | Some s => if String.length s =? 0 then None else Some s
  | None => None
  end.

Definition truthyCount (field : option nat) : option nat :=
  match field with
  | Some n => if n =? 0 then None else Some n
  | None => None
  end.

Definition truthyNumber (field : option Z) : option Z :=
  match field with
  | Some n => if (n =? 0)%Z then None else Some n
  | None => None
  end.

Definition orElse {A : Type} (first : option A) (otherwise : A) : A :=
  match first with
  | Some a => a
  | None => otherwise
  end.

Definition generateDocumentMetadata (file : PDFProcessor.File) (sizeInMB uploadTime : string)
  : string :=
  "Document Information:" +++ JS.nl +++ JS.nl
  +++ "File Name: " +++ PDFProcessor.file_name file +++ JS.nl
  +++ "File Size: " +++ sizeInMB +++ " MB" +++ JS.nl
  +++ "Upload Time: " +++ uploadTime +++ JS.nl
  +++ "File Type: PDF Document" +++ JS.nl +++ JS.nl
  +++ "Note: This document has been uploaded successfully, but detailed text extraction was not possible using the current method. You can still ask questions about the document, and the system will do its best to provide relevant information based on the document's metadata and general knowledge about similar documents."
  +++ JS.nl +++ JS.nl
  +++ "For better text extraction and more accurate answers, please ensure:" +++ JS.nl
  +++ "1. The PDF contains selectable text (not scanned images)" +++ JS.nl
  +++ "2. The document is not password protected" +++ JS.nl
  +++ "3. The file is not corrupted" +++ JS.nl +++ JS.nl
  +++ "You can try asking questions like:" +++ JS.nl
  +++ "- " +++ JS.dquote +++ "What type of document is this?" +++ JS.dquote +++ JS.nl
  +++ "- " +++ JS.dquote +++ "What information might this contain?" +++ JS.dquote +++ JS.nl
  +++ "- " +++ JS.dquote +++ "How can I work with this document?" +++ JS.dquote.


(** The [catch] block of [extractTextFromPDF]. *)
Definition failed (e : JsError) : PDFRestExtractResponse :=
  let message :=
    match e with
    | TypeError msg =>
        if JS.includes "Failed to fetch" msg
        then "CORS_EXPECTED: Browser access to PDFRest API blocked by security policy. Using local fallback extraction."
        else msg
    | _ => PDFProcessor.messageOf e
    end in
  mkResponse false None None (Some message) None.

(** The response for a text that came in one piece. *)
Definition textResponse (result : ResultJson) (text : string) : PDFRestExtractResponse :=
  mkResponse true (Some text) (Some (parseTextIntoPages text)) None
             (Some (orElse (truthyCount (json_pageCount result)) (estimatePageCount text))).

(** [{ page: page.pageNumber || page.page || 1,
       text: page.text || page.content || '' }] *)
Definition pageOf (p : PageJson) : ExtractedPage :=
  mkPage (orElse (truthyNumber (json_pageNumber p))
                 (orElse (truthyNumber (json_page p)) 1%Z))
         (orElse (truthy (json_text p)) (orElse (truthy (json_content p)) EmptyString)).

(** [request] is what the request to the service comes to, [output]
    what the request of [result.outputUrl] comes to. *)
Definition extractTextFromPDF (request : Fetched ResultJson) (output : Fetched string)
  : PDFRestExtractResponse :=
  match request with
  | fetchRaises e => failed e
  | notOk status => failed (PlainError ("PDFRest API error: " +++ status))
  | ok result =>
      let directOrPaged :=
        match truthy (json_extractedText result), truthy (json_fullText result) with
        | Some fullText, _ => textResponse result fullText
        | None, Some fullText => textResponse result fullText
        | None, None =>
            match json_pages result with
            | Some answered =>
                let pages := map pageOf answered in
                let fullText := JS.join (JS.nl +++ JS.nl) (map page_text pages) in
                mkResponse true (Some fullText) (Some pages) None (Some (length pages))
            | None => failed (PlainError "Unexpected API response format")
            end
        end in
      match truthy (json_outputUrl result) with
      | Some _ =>
          match output with
          | fetchRaises e => failed e
          | notOk _ => directOrPaged
          | ok extractedText => textResponse result extractedText
          end
      | None => directOrPaged
      end
  end.

(** [result.error?.includes(part)] *)
Definition errorIncludes (part : string) (result : PDFRestExtractResponse) : bool :=
  match response_error result with
  | Some message => JS.includes part message
  | None => false
  end.

(** [fallback] is what [fallbackTextExtraction(file)] resolves to; it
    catches what is raised in it, as [extractTextFromPDF] does, so that
    neither of the two [catch] blocks around it is entered. *)
Definition extractTextWithFallback (file : PDFProcessor.File)
           (request : Fetched ResultJson) (output : Fetched string)
           (fallback : PDFRestExtractResponse) (sizeInMB uploadTime : string)
  : PDFProcessor.ExtractedTextData :=
  let first := extractTextFromPDF request output in
  let result :=
    if negb (success first) || errorIncludes "CORS_EXPECTED" first
       || errorIncludes "CORS_ERROR" first
    then fallback else first in
  let metadataText := generateDocumentMetadata file sizeInMB uploadTime in
  match truthy (response_fullText result), response_pages result with
  | Some fullText, Some (p :: rest) =>
      PDFProcessor.mkExtracted fullText (p :: rest)
        (orElse (truthyCount (metadata_pageCount result)) (length (p :: rest)))
  | _, _ => PDFProcessor.mkExtracted metadataText [mkPage 1 metadataText] 1
  end.

End PdfRestExtractor.

(** ** Usage limits ([UsageTracker])

    [localStorage] holds, per user, the statistics that
    [saveUsageStats] wrote, or text that [JSON.parse] rejects;
    [writable] is false when [localStorage.setItem] raises, which
    [saveUsageStats] catches and logs.  The calendar of the host gives
    the month and the year of a time stamp.  [now] is the first reading
    of the clock in a call and [stamp] the second, taken when the month
    is reset. *)

Module UsageTracker.

Inductive PlanType : Type := free | pro | premium.
Inductive SubscriptionStatus : Type := active | expired | trial.

Record UsageStats : Type := mkStats {
  documentsProcessed : nat;
  questionsAsked : nat;
  lastResetDate : Z;
  planType : PlanType;
  subscriptionStatus : SubscriptionStatus
}.

Record UsageLimits : Type := mkLimits {
  maxDocuments : Z;
  maxQuestions : Z;
  canExportAdvanced : bool;
  canUseCloudSync : bool;
  canUseBatchProcessing : bool
}.

Definition PLAN_LIMITS (plan : PlanType) : UsageLimits :=
  match plan with
  | free => mkLimits 5 25 false false false
  | pro => mkLimits (-1) (-1) true true false
  | premium => mkLimits (-1) (-1) true true true
  end.

Inductive Entry : Type :=
| saved (stats : UsageStats)
| unreadable.

Record LocalStorage : Type := mkStorage {
  items : list (string * Entry);
  writable : bool
}.

Fixpoint lookupItem (l : list (string * Entry)) (key : string) : option Entry :=
  match l with
  | [] => None
  | (k, v) :: rest => if String.eqb k key then Some v else lookupItem rest key
  end.

Fixpoint storeItem (key : string) (v : Entry) (l : list (string * Entry))
  : list (string * Entry) :=
  match l with
  | [] => [(key, v)]
  | (k, old) :: rest =>
      if String.eqb k key then (k, v) :: rest else (k, old) :: storeItem key v rest
  end.

Definition getItem (ls : LocalStorage) (key : string) : option Entry :=
  lookupItem (items ls) key.

(** [try { localStorage.setItem(key, v) } catch { }] *)
Definition setItem (ls : LocalStorage) (key : string) (v : Entry) : LocalStorage :=
  if writable ls then mkStorage (storeItem key v (items ls)) true else ls.

Definition STORAGE_KEY : string := "academic_assistant_usage".

Definition keyOf (userId : string) : string := STORAGE_KEY +++ "_" +++ userId.

Inductive UsageType : Type := document | question.

Inductive Action : Type :=
| exportAdvanced
| cloudSync
| batchProcessing.

Record Remaining : Type := mkRemaining {
  documents : Z;
  questions : Z
}.

Section Calendar.

(** [Date.prototype.getMonth] and [getFullYear] on a time stamp. *)
Variable getMonth : Z -> nat.
Variable getFullYear : Z -> Z.

Definition createDefaultStats (now : Z) : UsageStats := mkStats 0 0 now free active.

Definition saveUsageStats (ls : LocalStorage) (userId : string) (stats : UsageStats)
  : LocalStorage :=
  setItem ls (keyOf userId) (saved stats).

Definition resetMonthlyUsage (ls : LocalStorage) (userId : string) (plan : PlanType)
           (stamp : Z) : LocalStorage * UsageStats :=
  let stats := mkStats 0 0 stamp plan active in
  (saveUsageStats ls userId stats, stats).

Definition getUsageStats (ls : LocalStorage) (userId : string) (now stamp : Z)
  : LocalStorage * UsageStats :=
  match getItem ls (keyOf userId) with
  | Some (saved stats) =>
      if negb (getMonth now =? getMonth (lastResetDate stats))
         || negb (getFullYear now =? getFullYear (lastResetDate stats))%Z
      then resetMonthlyUsage ls userId (planType stats) stamp
      else (ls, stats)
  | Some unreadable => (ls, createDefaultStats now)
  | None => (ls, createDefaultStats now)
  end.

Definition updateUsage (ls : LocalStorage) (userId : string) (type : UsageType)
           (now stamp : Z) : LocalStorage * bool :=
  let (ls1, stats) := getUsageStats ls userId now stamp in
  let limits := PLAN_LIMITS (planType stats) in
  match type with
  | document =>
      if (0 <? maxDocuments limits)%Z
         && (maxDocuments limits <=? Z.of_nat (documentsProcessed stats))%Z
      then (ls1, false)
      else
        (saveUsageStats ls1 userId
           (mkStats (documentsProcessed stats + 1) (questionsAsked stats)
                    (lastResetDate stats) (planType stats) (subscriptionStatus stats)),
         true)
  | question =>
      if (0 <? maxQuestions limits)%Z
         && (maxQuestions limits <=? Z.of_nat (questionsAsked stats))%Z
      then (ls1, false)
      else
        (saveUsageStats ls1 userId
           (mkStats (documentsProcessed stats) (questionsAsked stats + 1)
                    (lastResetDate stats) (planType stats) (subscriptionStatus stats)),
         true)
  end.

Definition canPerformAction (ls : LocalStorage) (userId : string) (action : Action)
           (now stamp : Z) : LocalStorage * bool :=
  let (ls1, stats) := getUsageStats ls userId now stamp in
  let limits := PLAN_LIMITS (planType stats) in
  (ls1,
   match action with
   | exportAdvanced => canExportAdvanced limits
   | cloudSync => canUseCloudSync limits
   | batchProcessing => canUseBatchProcessing limits
   end).

Definition getRemainingUsage (ls : LocalStorage) (userId : string) (now stamp : Z)
  : LocalStorage * Remaining :=
  let (ls1, stats) := getUsageStats ls userId now stamp in
  let limits := PLAN_LIMITS (planType stats) in
  (ls1,
   mkRemaining
     (if (0 <? maxDocuments limits)%Z
      then Z.max 0 (maxDocuments limits - Z.of_nat (documentsProcessed stats))
      else (-1)%Z)
     (if (0 <? maxQuestions limits)%Z
      then Z.max 0 (maxQuestions limits - Z.of_nat (questionsAsked stats))
      else (-1)%Z)).

(** [newPlan] is ['pro'] or ['premium']. *)
Definition upgradePlan (ls : LocalStorage) (userId : string) (newPlan : PlanType)
           (now stamp : Z) : LocalStorage :=
  let (ls1, stats) := getUsageStats ls userId now stamp in
  saveUsageStats ls1 userId
    (mkStats (documentsProcessed stats) (questionsAsked stats) (lastResetDate stats)
             newPlan active).

End Calendar.

End UsageTracker.

(** ** Accounts ([AuthService])

    The state is the array that [getStoredUsers] reads from
    [localStorage], the user kept under ['academic_assistant_user'] and
    the field [currentUser]; [writable] is false when
    [localStorage.setItem] raises.  The listeners are not part of the
    model. *)

Module AuthService.

Record User : Type := mkUser {
  user_id : string;
  email : string;
  user_name : string;
  createdAt : Z
}.

Record State : Type := mkAuth {
  allUsers : list User;
  storedUser : option User;
  currentUser : option User;
  writable : bool
}.

Record Outcome : Type := mkOutcome {
  success : bool;
  error_message : option string
}.

Definition succeeded : Outcome := mkOutcome true None.
Definition failed (message : string) : Outcome := mkOutcome false (Some message).

(** [existingUsers.find(u => u.email.toLowerCase() === email.toLowerCase())] *)
Definition findByEmail (users : list User) (address : string) : option User :=
  find (fun u => String.eqb (JS.toLowerCase (email u)) (JS.toLowerCase address)) users.

(** [saveToStorage(user)]: [localStorage.setItem] for a user, whose
    exception is caught and logged; [localStorage.removeItem] for none. *)
Definition saveToStorage (st : State) (who : option User) : State :=
  match who with
  | Some _ => if writable st then mkAuth (allUsers st) who (currentUser st) true else st
  | None => mkAuth (allUsers st) None (currentUser st) (writable st)
  end.

Definition signIn (st : State) (address password : string) : State * Outcome :=
  if negb (JS.includes "@" address)
  then (st, failed "Please enter a valid email address")
  else if String.length password <? 6
  then (st, failed "Password must be at least 6 characters long")
  else
    match findByEmail (allUsers st) address with
    | None => (st, failed "No account found with this email. Please sign up first.")
    | Some existingUser =>
        let st1 := mkAuth (allUsers st) (storedUser st) (Some existingUser) (writable st) in
        (saveToStorage st1 (Some existingUser), succeeded)
    end.

(** [newId] is the identifier drawn by [Math.random], [now] the clock. *)
Definition signUp (st : State) (name address password : string) (newId : string) (now : Z)
  : State * Outcome :=
  if String.length (JS.trim name) <? 2
  then (st, failed "Name must be at least 2 characters long")
  else if negb (JS.includes "@" address)
  then (st, failed "Please enter a valid email address")
  else if String.length password <? 6
  then (st, failed "Password must be at least 6 characters long")
  else
    match findByEmail (allUsers st) address with
    | Some _ => (st, failed "An account with this email already exists")
    | None =>
        let newUser := mkUser newId (JS.trim (JS.toLowerCase address)) (JS.trim name) now in
        if writable st then
          let st1 := mkAuth (allUsers st ++ [newUser]) (storedUser st) (Some newUser) true in
          (saveToStorage st1 (Some newUser), succeeded)
        else (st, failed "Failed to create account. Please try again.")
    end.

Definition signOut (st : State) : State :=
  saveToStorage (mkAuth (allUsers st) (storedUser st) None (writable st)) None.

Definition getCurrentUser (st : State) : option User := currentUser st.

Definition isAuthenticated (st : State) : bool :=
  match currentUser st with
  | Some _ => true
  | None => false
  end.

End AuthService.

(** ** The statements of the specification

    Predicates and values that the properties below are stated with. *)

Module Spec.

Import Arr.

(** A stage of [st] raises [e] on some text. *)
Definition stageRaises (st : TextProcessor.Stages) (e : JsError) : Prop :=
  (exists s, TextProcessor.run_fixEncodingIssues st s = Throws e) \/
  (exists s, TextProcessor.run_correctOCRErrors st s = Throws e) \/
  (exists s, TextProcessor.run_normalizeWhitespace st s = Throws e) \/
  (exists s, TextProcessor.run_standardizeFormatting st s = Throws e) \/
  (exists s, TextProcessor.run_expandAcronyms st s = Throws e) \/
  (exists s, TextProcessor.run_extractDocumentStructure st s = Throws e) \/
  (exists s n, TextProcessor.run_calculateTextQuality st s n = Throws e).

(** The confidence as the specification words it: [min(topScore/10, 1)],
    plus 0.1 if a second result scores within 80% of the top, plus 0.2
    times the fraction of the query terms that occur (whatever their
    case) in the top chunk, clamped to [0,1]. *)
Definition confidenceSpec (query : string) (results : list ScoredChunk) : Q :=
  match results with
  | [] => 0%Q
  | top :: others =>
      let terms := EnhancedQuestionAnswering.extractQueryTerms (JS.toLowerCase query) in
      let base := Qmin (score top / 10) 1 in
      let closeSecond :=
        match others with
        | second :: _ =>
            if Qltb ((8 # 10) * score top) (score second) then (1 # 10)%Q else 0%Q
        | [] => 0%Q
        end in
      let fraction :=
        (ofNat (count (fun t => JS.includes t (JS.toLowerCase (content (hit_chunk top))))
                      terms)
         / ofNat (length terms))%Q in
      clamp01 (base + closeSecond + (2 # 10) * fraction)
  end.

(** The question of the predefined short-circuit, the keywords that the
    table tries before ['three key elements'], and the canned answer. *)
Definition keyElementsQuestion : string :=
  "what are the three key elements of every machine learning algorithm".
Definition earlierKeywords : list string :=
  map fst (firstn 8 PredefinedQA.mlKeywordMatches).
Definition cannedKeyElements : string :=
  PredefinedQA.answerAt PredefinedQA.ML_RESEARCH_QA 2.

(** A sentence of [n] letters [c]. *)
Definition letters (c : ascii) (n : nat) : string :=
  string_of_list_ascii (repeat c n).

(** The bundle has no [require]: loading the enhanced module fails. *)
Definition moduleMissing : Exc unit :=
  Throws (ReferenceError "require is not defined").

Definition readyDocument (id name text : string) : ProcessedDocument :=
  mkDocument id name 1024 0 ready 1 [mkPage 1 text]
             (Chunker.createTextChunks [mkPage 1 text] Chunker.defaultMaxChunkSize)
             text None None None.

(** The chunk is one sentence of one of the pages, closed by a full stop. *)
Definition oneSentence (pages : list ExtractedPage) (c : TextChunk) : Prop :=
  exists p s, In p pages /\ In s (Chunker.sentencesOf (page_text p))
              /\ content c = JS.trim s +++ ".".

(** What the chunker does keep: the bound plus one, or a single sentence. *)
Definition withinSlack (pages : list ExtractedPage) (maxChunkSize : nat) (c : TextChunk)
  : Prop :=
  String.length (content c) <= maxChunkSize + 1 \/ oneSentence pages c.

(** The buffer between two sentences of the page [p]: empty, or sentences
    each closed by a full stop and a space, of which either there is one
    or the total is within the bound plus two. *)
Definition bufferOk (maxChunkSize : nat) (p : ExtractedPage) (b : string) : Prop :=
  b = "" \/
  exists x, b = x +++ ". " /\ JS.startsWithChar JS.isWhiteSpace b = false
            /\ (String.length b <= maxChunkSize + 2
                \/ exists s, In s (Chunker.sentencesOf (page_text p)) /\ x = JS.trim s).

Definition stateOk (pages : list ExtractedPage) (maxChunkSize : nat) (p : ExtractedPage)
           (st : Chunker.LoopState) : Prop :=
  Forall (withinSlack pages maxChunkSize) (Chunker.chunks st)
  /\ bufferOk maxChunkSize p (Chunker.currentChunk st).

(** A query word that the fallback search can take: no syntax character
    of the pattern grammar, and not a property that every object has. *)
Definition plainWord (w : string) : bool :=
  JS.allb (fun c => negb (RegExp.isSyntaxChar c)) w
  && negb (JS.arrayIncludes w PDFProcessor.inheritedProperties).

(** Ascending order of the trending score. *)
Definition trendLe (now : Z) (a b : FAQSystem.FAQItem) : Prop :=
  (FAQSystem.trendOf now a <= FAQSystem.trendOf now b)%Q.


(** The allowance of the free plan: five documents and twenty-five
    questions a month. *)
Definition withinAllowance (stats : UsageTracker.UsageStats) : Prop :=
  UsageTracker.planType stats = UsageTracker.free ->
  UsageTracker.documentsProcessed stats <= 5 /\ UsageTracker.questionsAsked stats <= 25.

(** What the chunker makes of [pages]: a chunk has a trimmed text that
    is not empty, the number of a page that has text, and at most
    twenty keywords, each longer than three characters and not a
    number. *)
Definition chunkFrom (pages : list ExtractedPage) (c : TextChunk) : Prop :=
  content c <> ""
  /\ JS.trim (content c) = content c
  /\ (exists p, In p pages /\ page_text p <> "" /\ page c = page_number p)
  /\ length (keywords c) <= 20
  /\ Forall (fun k => 3 < String.length k /\ Chunker.isPureNumber k = false) (keywords c).

(** What a stage hands on: its result on [input] when it is enabled,
    [input] itself when it is not. *)
Definition handsOn (on : bool) (run : string -> Exc string) (input output : string) : Prop :=
  if on then run input = Returns output else output = input.

(** An internal error [e] while [text] is processed: a stage that the
    options enable raises [e] on the text that the stages before it
    handed on.  The stages run in the order of [processText]; the
    structure is extracted from, and the quality computed of, the text
    that the fifth stage hands on. *)
Definition internalError (st : TextProcessor.Stages) (text : string)
           (options : TextProcessor.TextProcessingOptions) (e : JsError) : Prop :=
  let on1 := TextProcessor.setting (TextProcessor.fixEncoding options) true in
  let on2 := TextProcessor.setting (TextProcessor.removeOCRErrors options) true in
  let on3 := TextProcessor.setting (TextProcessor.normalizeWhitespaceOpt options) true in
  let on4 := TextProcessor.setting (TextProcessor.standardizeFormattingOpt options) true in
  let on5 := TextProcessor.setting (TextProcessor.expandAcronymsOpt options) false in
  let on6 := TextProcessor.setting (TextProcessor.preserveStructure options) true in
  (on1 = true /\ TextProcessor.run_fixEncodingIssues st text = Throws e)
  \/ exists t1, handsOn on1 (TextProcessor.run_fixEncodingIssues st) text t1 /\
  ((on2 = true /\ TextProcessor.run_correctOCRErrors st t1 = Throws e)
  \/ exists t2, handsOn on2 (TextProcessor.run_correctOCRErrors st) t1 t2 /\
  ((on3 = true /\ TextProcessor.run_normalizeWhitespace st t2 = Throws e)
  \/ exists t3, handsOn on3 (TextProcessor.run_normalizeWhitespace st) t2 t3 /\
  ((on4 = true /\ TextProcessor.run_standardizeFormatting st t3 = Throws e)
  \/ exists t4, handsOn on4 (TextProcessor.run_standardizeFormatting st) t3 t4 /\
  ((on5 = true /\ TextProcessor.run_expandAcronyms st t4 = Throws e)
  \/ exists t5, handsOn on5 (TextProcessor.run_expandAcronyms st) t4 t5 /\
  ((on6 = true /\ TextProcessor.run_extractDocumentStructure st t5 = Throws e)
  \/ ((on6 = false
       \/ exists secs, TextProcessor.run_extractDocumentStructure st t5 = Returns secs)
      /\ TextProcessor.run_calculateTextQuality st t5 (String.length text) = Throws e)))))).

(** The stages of the source, except that the third raises. *)
Definition failingStages : TextProcessor.Stages :=
  TextProcessor.mkStages
    (TextProcessor.run_fixEncodingIssues TextProcessor.stages)
    (TextProcessor.run_correctOCRErrors TextProcessor.stages)
    (fun _ => Throws (TypeError "text.replace is not a function"))
    (TextProcessor.run_standardizeFormatting TextProcessor.stages)
    (TextProcessor.run_expandAcronyms TextProcessor.stages)
    (TextProcessor.run_extractDocumentStructure TextProcessor.stages)
    (TextProcessor.run_calculateTextQuality TextProcessor.stages).

(** The invariant of a stored document: one that is ready has as many
    pages as its page count says, and has chunks. *)
Definition readyInvariant (d : ProcessedDocument) : Prop :=
  status d = ready -> length (pages d) = pageCount d /\ 0 < length (chunks d).

(** The answer of the extraction service to a scan of two pages, page
    by page: neither page has text. *)
Definition blankPages : PdfRestExtractor.ResultJson :=
  PdfRestExtractor.mkResultJson None None None None
    (Some [ PdfRestExtractor.mkPageJson (Some 1%Z) None (Some EmptyString) None;
            PdfRestExtractor.mkPageJson (Some 2%Z) None (Some EmptyString) None ]).

End Spec.

(** * Properties *)

(** ** Rationals, lists and strings *)

Module QFacts.

Import Arr.

Ltac qconst := unfold Qle, Qlt; simpl; lia.

Lemma Qltb_lt (a b : Q) : Qltb a b = true <-> (a < b)%Q.
Proof.
  unfold Qltb. rewrite negb_true_iff. split.
  - intros H. apply Qnot_le_lt. intros Hle. apply Qle_bool_iff in Hle. congruence.
  - intros H. destruct (Qle_bool b a) eqn:E; [| reflexivity].
    apply Qle_bool_iff in E. exfalso. now apply (Qlt_not_le a b).
Qed.

Lemma Qltb_proper (a a' b b' : Q) :
  (a == a')%Q -> (b == b')%Q -> Qltb a b = Qltb a' b'.
Proof.
  intros Ha Hb. destruct (Qltb a' b') eqn:E.
  - apply Qltb_lt. apply Qltb_lt in E. now rewrite Ha, Hb.
  - destruct (Qltb a b) eqn:E'; [| reflexivity].
    apply Qltb_lt in E'. rewrite Ha, Hb in E'. apply Qltb_lt in E'. congruence.
Qed.

Lemma ofNat_nonneg (n : nat) : (0 <= ofNat n)%Q.
Proof. unfold ofNat, Qle. simpl. lia. Qed.

Lemma fraction_nonneg (a b : nat) : (0 <= ofNat a / ofNat b)%Q.
Proof.
  destruct b as [| b].
  - unfold Qdiv, Qinv. simpl. rewrite Qmult_0_r. apply Qle_refl.
  - apply Qle_shift_div_l.
    + unfold ofNat, Qlt. simpl. lia.
    + rewrite Qmult_0_l. apply ofNat_nonneg.
Qed.

End QFacts.

Module ListFacts.

Import Arr.

Lemma find_skip {A} (f : A -> bool) (l1 : list A) (x : A) (l2 : list A) :
  (forall y, In y l1 -> f y = false) -> f x = true ->
  find f (l1 ++ x :: l2) = Some x.
Proof.
  intros Hl Hx. induction l1 as [| y l1 IH]; simpl.
  - now rewrite Hx.
  - rewrite (Hl y (or_introl eq_refl)). apply IH. intros z Hz. apply Hl. now right.
Qed.

Lemma firstn_incl {A} (n : nat) (l : list A) (x : A) : In x (firstn n l) -> In x l.
Proof.
  revert l. induction n as [| n IH]; intros [| y l]; simpl; try tauto.
  intros [-> | H]; [now left | right; auto].
Qed.

Lemma count_ext {A} (p q : A -> bool) (l : list A) :
  (forall x, In x l -> p x = q x) -> count p l = count q l.
Proof.
  unfold count. induction l as [| x l IH]; intros H; simpl; [reflexivity |].
  rewrite (H x (or_introl eq_refl)).
  destruct (q x); simpl; rewrite IH; auto; intros y Hy; apply H; now right.
Qed.

Lemma no_match_filter {A} (p : A -> bool) (l : list A) :
  (length (filter p l) =? 0) = negb (existsb p l).
Proof.
  induction l as [| x l IH]; simpl; [reflexivity |].
  destruct (p x); simpl; [reflexivity | exact IH].
Qed.

(** Insertion keeps the elements. *)
Lemma insertBy_In {A} (cmp : A -> A -> Q) (x y : A) (l : list A) :
  In y (insertBy cmp x l) -> y = x \/ In y l.
Proof.
  induction l as [| z l IH]; simpl.
  - intros [-> | []]. now left.
  - destruct (Qle_bool (cmp x z) 0); simpl.
    + intros [-> | H]; [now left | now right].
    + intros [-> | H]; [right; now left |].
      destruct (IH H) as [-> | H']; [now left | right; now right].
Qed.

Lemma sortBy_In {A} (cmp : A -> A -> Q) (y : A) (l : list A) :
  In y (sortBy cmp l) -> In y l.
Proof.
  induction l as [| x l IH]; simpl; [tauto |].
  intros H. apply insertBy_In in H. destruct H as [-> | H]; [now left | right; auto].
Qed.

Section SortedByKey.

Variable A : Type.
Variable key : A -> Q.

(** A comparator that is the difference of a key sorts by that key. *)
Let cmp (a b : A) : Q := (key a - key b)%Q.
Let le (a b : A) : Prop := (key a <= key b)%Q.

Lemma insertBy_key_sorted (x : A) (l : list A) :
  StronglySorted le l -> StronglySorted le (insertBy cmp x l).
Proof.
  induction 1 as [| y l Hs IH Hy]; simpl.
  - constructor; constructor.
  - destruct (Qle_bool (cmp x y) 0) eqn:E.
    + apply Qle_bool_iff in E. unfold cmp in E.
      assert (Hxy : le x y).
      { unfold le. apply Qle_minus_iff in E. apply Qle_minus_iff.
        setoid_replace (key y + - key x)%Q with (0 + - (key x - key y))%Q by ring.
        exact E. }
      constructor; [constructor; assumption |].
      constructor; [exact Hxy |].
      apply Forall_forall. intros z Hz. unfold le in *.
      apply Qle_trans with (y := key y); [exact Hxy |].
      rewrite Forall_forall in Hy. now apply Hy.
    + assert (Hyx : le y x).
      { unfold le. apply Qlt_le_weak. apply Qnot_le_lt. intros Hle.
        assert (Qle_bool (cmp x y) 0 = true); [| congruence].
        apply Qle_bool_iff. unfold cmp. apply Qle_minus_iff.
        setoid_replace (0 + - (key x - key y))%Q with (key y + - key x)%Q by ring.
        now apply Qle_minus_iff in Hle. }
      constructor; [exact IH |].
      apply Forall_forall. intros z Hz. apply insertBy_In in Hz.
      destruct Hz as [-> | Hz]; [exact Hyx |].
      rewrite Forall_forall in Hy. now apply Hy.
Qed.

Lemma sortBy_key_sorted (l : list A) : StronglySorted le (sortBy cmp l).
Proof.
  induction l as [| x l IH]; simpl; [constructor |].
  now apply insertBy_key_sorted.
Qed.

Lemma firstn_sorted (n : nat) (l : list A) :
  StronglySorted le l -> StronglySorted le (firstn n l).
Proof.
  intros H. revert n. induction H as [| y l Hs IH Hy]; intros [| n]; simpl;
    try constructor.
  - apply IH.
  - apply Forall_forall. intros z Hz. apply firstn_incl in Hz.
    rewrite Forall_forall in Hy. now apply Hy.
Qed.

End SortedByKey.

End ListFacts.

Module JSFacts.

Import JS.

Lemma append_assoc (a b c : string) : (a +++ b) +++ c = a +++ (b +++ c).
Proof. induction a; simpl; congruence. Qed.

Lemma length_append (a b : string) :
  String.length (a +++ b) = String.length a + String.length b.
Proof. induction a; simpl; congruence. Qed.

Lemma prefix_spec (p s : string) :
  prefix p s = true <-> exists r, s = p +++ r.
Proof.
  revert s. induction p as [| c p IH]; intros s.
  - split; [intros _; exists s; reflexivity | intros _; destruct s; reflexivity].
  - destruct s as [| d s]; simpl.
    + split; [discriminate | intros [r H]; discriminate].
    + destruct (ascii_dec c d) as [-> | Hne].
      * rewrite IH. split; intros [r H]; exists r; [now subst | now inversion H].
      * split; [discriminate | intros [r H]; inversion H; congruence].
Qed.

(** [includes] is the substring relation. *)
Lemma includes_spec (sub s : string) :
  includes sub s = true <-> exists a b, s = a +++ sub +++ b.
Proof.
  induction s as [| c s IH]; cbn [includes].
  - rewrite orb_false_r, prefix_spec. split.
    + intros [r H]. exists "", r. exact H.
    + intros [a [b H]]. destruct a; [exists b; exact H | discriminate].
  - rewrite orb_true_iff, prefix_spec, IH. split.
    + intros [[r H] | [a [b H]]].
      * exists "", r. exact H.
      * exists (String c a), b. simpl. now rewrite H.
    + intros [a [b H]]. destruct a as [| d a]; simpl in H.
      * left. exists b. exact H.
      * right. exists a, b. now inversion H.
Qed.

Lemma includes_trans (a b c : string) :
  includes a b = true -> includes b c = true -> includes a c = true.
Proof.
  rewrite !includes_spec. intros [x [y ->]] [u [v ->]].
  exists (u +++ x), (y +++ v). now rewrite !append_assoc.
Qed.

Lemma trimStart_suffix (s : string) : exists w, s = w +++ trimStart s.
Proof.
  induction s as [| c s [w IH]]; simpl.
  - exists "". reflexivity.
  - destruct (isWhiteSpace c).
    + exists (String c w). simpl. now rewrite <- IH.
    + exists "". reflexivity.
Qed.

Lemma trimEnd_prefix (s : string) : exists w, s = trimEnd s +++ w.
Proof.
  induction s as [| c s [w IH]].
  - exists "". reflexivity.
  - cbn [trimEnd]. destruct (allb isWhiteSpace (String c s)).
    + exists (String c s). reflexivity.
    + exists w. simpl. now rewrite <- IH.
Qed.

(** What the trimmed text includes, the text includes. *)
Lemma includes_trim (x s : string) :
  includes x (trim s) = true -> includes x s = true.
Proof.
  rewrite !includes_spec. unfold trim. intros [a [b H]].
  destruct (trimStart_suffix s) as [w Hw].
  destruct (trimEnd_prefix (trimStart s)) as [w' Hw'].
  exists (w +++ a), (b +++ w').
  rewrite Hw at 1. rewrite Hw' at 1. rewrite H. now rewrite !append_assoc.
Qed.

End JSFacts.

(** ** Regular expressions *)

Module RegExpFacts.

Import RegExp.

Ltac by_cases_on c :=
  destruct c as [[] [] [] [] [] [] [] []]; vm_compute;
  try reflexivity; try discriminate.

Lemma quant_is_syntax (c : ascii) : isQuantChar c = true -> isSyntaxChar c = true.
Proof. by_cases_on c. Qed.

Lemma backslash_is_syntax (c : ascii) : isCode 92 c = true -> isSyntaxChar c = true.
Proof. by_cases_on c. Qed.

Lemma syntax_not_b (c : ascii) : isSyntaxChar c = true -> isCode 98 c = false.
Proof. by_cases_on c. Qed.

Lemma not_syntax (c : ascii) :
  isSyntaxChar c = false -> isCode 92 c = false /\ isQuantChar c = false.
Proof.
  intros H. split.
  - destruct (isCode 92 c) eqn:E; [| reflexivity].
    apply backslash_is_syntax in E. congruence.
  - destruct (isQuantChar c) eqn:E; [| reflexivity].
    apply quant_is_syntax in E. congruence.
Qed.

(** An escaped word never starts with a quantifier. *)
Lemma escaped_head (w tail : string) :
  JS.startsWithChar isQuantChar tail = false ->
  JS.startsWithChar isQuantChar (escapeRegex w +++ tail) = false.
Proof.
  intros Ht. destruct w as [| c w]; simpl; [exact Ht |].
  destruct (isSyntaxChar c) eqn:E; simpl.
  - reflexivity.
  - now apply not_syntax.
Qed.

Lemma length_escapeRegex (w : string) :
  String.length w <= String.length (escapeRegex w).
Proof.
  induction w as [| c w IH]; simpl; [lia |].
  destruct (isSyntaxChar c); simpl; lia.
Qed.

Lemma parse_escaped (w : string) :
  forall fuel, 2 * String.length w + 2 <= fuel ->
    parseTerms fuel None (escapeRegex w +++ bs_b) = Pattern (literals w ++ [Boundary]).
Proof.
  induction w as [| c w IH]; intros fuel Hfuel.
  - destruct fuel as [| [| fuel]]; [simpl in Hfuel; lia | simpl in Hfuel; lia |].
    reflexivity.
  - simpl in Hfuel. destruct fuel as [| [| fuel]]; [lia | lia |].
    assert (Hrest : parseTerms (S fuel) (Some c) (escapeRegex w +++ bs_b)
                    = Pattern (Lit c One :: literals w ++ [Boundary])).
    { pose proof (escaped_head w bs_b eq_refl) as Hhead.
      pose proof (IH fuel ltac:(lia)) as IHf.
      destruct (escapeRegex w +++ bs_b) as [| q rest] eqn:E.
      - destruct w; simpl in E; [discriminate | destruct (isSyntaxChar a); discriminate].
      - simpl in Hhead. cbn [parseTerms]. rewrite Hhead, IHf. reflexivity. }
    cbn [escapeRegex literals]. destruct (isSyntaxChar c) eqn:E.
    + cbn [String.append parseTerms]. change (isCode 92 "\"%char) with true. cbv iota.
      rewrite (syntax_not_b c E), E. exact Hrest.
    + cbn [String.append parseTerms].
      destruct (not_syntax c E) as [-> ->]. rewrite E. exact Hrest.
Qed.

(** The pattern of the enhanced search always compiles, to the literal
    word between two boundaries: [wordRegexTest] never raises. *)
Lemma create_escaped (word : string) :
  create (bs_b +++ escapeRegex word +++ bs_b) = Pattern (wordPattern word).
Proof.
  unfold create, wordPattern.
  change (bs_b +++ escapeRegex word +++ bs_b)
    with (String "\"%char (String "b"%char (escapeRegex word +++ bs_b))).
  cbn [parseTerms String.length]. change (isCode 92 "\"%char) with true.
  change (isCode 98 "b"%char) with true. cbv iota.
  rewrite (escaped_head word bs_b eq_refl).
  rewrite parse_escaped; [reflexivity |].
  rewrite JSFacts.length_append. pose proof (length_escapeRegex word). simpl. lia.
Qed.

(** Without the escape a quantifier in the word is an early error. *)
Lemma create_unescaped_quantifier :
  create (bs_b +++ "c++" +++ bs_b) = Invalid "Nothing to repeat".
Proof. reflexivity. Qed.

End RegExpFacts.

(** ** The text processor *)

Module TextProcessorFacts.

Import TextProcessor.

Lemma bind_throws {A B} (m : Exc A) (k : A -> Exc B) (e : JsError) :
  bind m k = Throws e ->
  m = Throws e \/ exists a, m = Returns a /\ k a = Throws e.
Proof.
  destruct m as [a | e']; simpl; intros H.
  - right. exists a. split; [reflexivity | exact H].
  - left. inversion H. reflexivity.
Qed.

Lemma step_throws on run changed note st e :
  step on run changed note st = Throws e -> exists s, run s = Throws e.
Proof.
  unfold step. destruct on; [| discriminate].
  intros H. apply bind_throws in H. destruct H as [H | [a [_ H]]].
  - exists (fst st). exact H.
  - discriminate.
Qed.

(** Only a stage can make the [try] block raise. *)
Lemma pipeline_throws_stage st text options e :
  pipeline st text options = Throws e -> Spec.stageRaises st e.
Proof.
  unfold pipeline, Spec.stageRaises. intros H.
  repeat match type of H with
  | bind _ _ = Throws _ =>
      apply bind_throws in H; destruct H as [H | [? [_ H]]]
  | step _ _ _ _ _ = Throws _ => apply step_throws in H
  | (if ?b then _ else _) = Throws _ => destruct b
  end; try discriminate; eauto 10.
Qed.

(** A stage that raises at once: the first stage on the input text. *)
Lemma first_stage_raises st text options e :
  setting (fixEncoding options) true = true ->
  run_fixEncodingIssues st text = Throws e ->
  pipeline st text options = Throws e.
Proof.
  intros Hon H. unfold pipeline, step, configOf, enabled. cbn [fixEncoding setting].
  rewrite Hon. cbn [fst]. rewrite H. reflexivity.
Qed.

(** The stages of the class never raise. *)
Lemma processText_returns (text : string) (options : TextProcessingOptions) :
  exists r, pipeline stages text options = Returns r /\ processText text options = r.
Proof.
  unfold processText, processTextWith.
  destruct (pipeline stages text options) as [r | e] eqn:E.
  - exists r. split; reflexivity.
  - exfalso. apply pipeline_throws_stage in E.
    unfold Spec.stageRaises, stages in E. simpl in E.
    destruct E as [[s E] | [[s E] | [[s E] | [[s E] | [[s E] | [[s E] | [s [n E]]]]]]]];
      discriminate.
Qed.

(** A step raises exactly when it is enabled and its stage raises on
    the text it is given. *)
Lemma step_raises on run changed note st e :
  step on run changed note st = Throws e <-> on = true /\ run (fst st) = Throws e.
Proof.
  unfold step. destruct on.
  - destruct (run (fst st)) as [after|e'] eqn:E; cbn [bind]; split.
    + discriminate.
    + intros [_ H]. discriminate.
    + intros [= ->]. split; reflexivity.
    + intros [_ [= ->]]. reflexivity.
  - split; [discriminate|intros [H _]; discriminate].
Qed.

(** A step returns exactly the text that its stage hands on. *)
Lemma step_hands_on on run changed note st out :
  (exists notes, step on run changed note st = Returns (out, notes))
  <-> Spec.handsOn on run (fst st) out.
Proof.
  unfold step, Spec.handsOn. destruct on.
  - destruct (run (fst st)) as [after|e'] eqn:E; cbn [bind]; split.
    + intros [notes H]. congruence.
    + intros H. assert (after = out) as -> by congruence. eexists. reflexivity.
    + intros [notes H]. discriminate.
    + discriminate.
  - split.
    + intros [notes H]. destruct st. cbn [fst]. congruence.
    + intros ->. exists (snd st). now destruct st.
Qed.

Ltac next_step H :=
  match type of H with
  | bind (step ?on ?run ?ch ?note ?s) _ = Throws _ =>
      let E := fresh "E" in
      let s' := fresh "s" in
      destruct (step on run ch note s) as [s'|?] eqn:E; cbn [bind] in H;
      [ right; exists (fst s'); split;
        [ apply (step_hands_on on run ch note s (fst s')); exists (snd s');
          rewrite E; now destruct s'
        | ]
      | left; injection H as ->; apply step_raises in E; exact E ]
  end.

(** The [try] block raises [e] exactly when a stage that is enabled
    raises [e] on the text that reached it: an exception of a stage is
    neither lost on the way to the [catch] block nor made up. *)
Lemma pipeline_raises st text options e :
  pipeline st text options = Throws e <-> Spec.internalError st text options e.
Proof.
  unfold Spec.internalError, pipeline, enabled, configOf.
  cbn [fixEncoding removeOCRErrors normalizeWhitespaceOpt standardizeFormattingOpt
       expandAcronymsOpt preserveStructure setting].
  cbv zeta. split.
  - intros H.
    next_step H. next_step H. next_step H. next_step H. next_step H.
    destruct (setting (preserveStructure options) true) eqn:On6.
    + destruct (run_extractDocumentStructure st (fst s3)) as [secs|e6] eqn:E6;
        cbn [bind] in H.
      * right. split; [right; now exists secs|].
        destruct (run_calculateTextQuality st (fst s3) (String.length text)) as [q|e7];
          cbn [bind] in H; [discriminate|now injection H as ->].
      * left. injection H as ->. split; reflexivity.
    + cbn [bind] in H. right. split; [now left|].
      destruct (run_calculateTextQuality st (fst s3) (String.length text)) as [q|e7];
        cbn [bind] in H; [discriminate|now injection H as ->].
  - intros H.
    repeat match type of H with
    | (_ /\ _) \/ _ => destruct H as [H|H]
    | exists t, Spec.handsOn ?on ?run ?input t /\ _ =>
        let t := fresh "t" in
        let Ht := fresh "Ht" in
        let n := fresh "n" in
        destruct H as [t [Ht H]];
        match goal with
        | |- bind (step on run ?ch ?note ?s) _ = _ =>
            apply (step_hands_on on run ch note s t) in Ht;
            destruct Ht as [n Ht]; rewrite Ht; cbn [bind fst snd]
        end
    | _ = true /\ _ = Throws _ =>
        match goal with
        | |- bind (step ?on ?run ?ch ?note ?s) _ = _ =>
            apply (step_raises on run ch note s) in H; rewrite H; reflexivity
        | _ => idtac
        end
    end.
    + destruct H as [On E]. rewrite On, E. reflexivity.
    + destruct H as [[On|[secs Es]] Eq].
      * rewrite On. cbn [bind]. rewrite Eq. reflexivity.
      * destruct (setting (preserveStructure options) true); [rewrite Es|];
          cbn [bind]; rewrite Eq; reflexivity.
Qed.

(** C9.  [processText] never throws, whatever the stages do: it always
    returns a result.  The body of its [try] block raises exactly when
    an enabled stage raises on the text that the stages before it
    handed on; whenever a stage does so, the result is the input text
    unmodified with quality score 0.5 and the single note that an error
    occurred; when the body returns, the result is what it returns. *)
Theorem processText_never_throws (st : Stages) (text : string)
        (options : TextProcessingOptions) :
  exists r,
    processTextWith st text options = Returns r /\
    (forall e, pipeline st text options = Throws e <-> Spec.internalError st text options e) /\
    (forall e, Spec.internalError st text options e ->
       r = onError text /\
       cleanedText r = text /\ qualityScore r = (1 # 2)%Q /\
       improvementsApplied r = ["Error occurred during processing"]) /\
    (forall r', pipeline st text options = Returns r' -> r = r').
Proof.
  unfold processTextWith.
  destruct (pipeline st text options) as [r | e] eqn:E; cbn [tryCatch].
  - exists r. split; [reflexivity|]. split; [|split].
    + intros e. rewrite <- pipeline_raises, E. reflexivity.
    + intros e H. apply pipeline_raises in H. congruence.
    + intros r' H. congruence.
  - exists (onError text). split; [reflexivity|]. split; [|split].
    + intros e'. rewrite <- pipeline_raises, E. reflexivity.
    + intros e' _. repeat split.
    + discriminate.
Qed.

(** The third stage raises on the text that the first two hand on, and
    the text comes back as it was given. *)
Lemma processText_never_throws_witness :
  processTextWith Spec.failingStages "Plain  text." noOptions
  = Returns (onError "Plain  text.").
Proof.
  destruct (processText_never_throws Spec.failingStages "Plain  text." noOptions)
    as [r [Hr [_ [Herr _]]]].
  rewrite Hr. f_equal.
  apply (Herr (TypeError "text.replace is not a function")).
  right. exists (fixEncodingIssues "Plain  text."). split; [reflexivity|].
  right. exists (correctOCRErrors (fixEncodingIssues "Plain  text.")). split; [reflexivity|].
  left. split; reflexivity.
Defined.

(** C10.  Cleaning twice is not cleaning once: the rule for spaces within
    words joins [This is a test] into [Thisisa test], and a second pass
    joins the rest. *)
Theorem cleaning_not_idempotent :
  cleanedText (processText "This is a test" noOptions) = "Thisisa test"
  /\ cleanedText (processText (cleanedText (processText "This is a test" noOptions))
                              noOptions) = "Thisisatest"
  /\ cleanedText (processText (cleanedText (processText "This is a test" noOptions))
                              noOptions)
     <> cleanedText (processText "This is a test" noOptions).
Proof.
  repeat split; try (vm_compute; reflexivity).
  vm_compute. discriminate.
Qed.

End TextProcessorFacts.

(** ** The chunker *)

Module ChunkerFacts.

Import Chunker JSFacts.

Lemma not_all_space_dot (x : string) : JS.allb JS.isWhiteSpace (x +++ ". ") = false.
Proof.
  induction x as [| c x IH]; [reflexivity |].
  simpl. rewrite IH. apply andb_false_r.
Qed.

Lemma trimEnd_dot_space (x : string) : JS.trimEnd (x +++ ". ") = x +++ ".".
Proof.
  induction x as [| c x IH]; [reflexivity |].
  change (String c x +++ ". ") with (String c (x +++ ". ")).
  cbn [JS.trimEnd]. cbn [JS.allb]. rewrite not_all_space_dot, andb_false_r.
  now rewrite IH.
Qed.

Lemma trimStart_id (s : string) :
  JS.startsWithChar JS.isWhiteSpace s = false -> JS.trimStart s = s.
Proof. destruct s as [| c s]; simpl; [reflexivity |]. now intros ->. Qed.

Lemma trimStart_head (s : string) :
  JS.startsWithChar JS.isWhiteSpace (JS.trimStart s) = false.
Proof.
  induction s as [| c s IH]; simpl; [reflexivity |].
  destruct (JS.isWhiteSpace c) eqn:E; [exact IH | simpl; exact E].
Qed.

Lemma trim_head (s : string) : JS.startsWithChar JS.isWhiteSpace (JS.trim s) = false.
Proof.
  unfold JS.trim. pose proof (trimStart_head s) as H.
  destruct (JS.trimStart s) as [| c r]; [reflexivity |].
  simpl in H. cbn [JS.trimEnd JS.allb]. rewrite H. simpl. exact H.
Qed.

Lemma trim_buffer (x : string) :
  JS.startsWithChar JS.isWhiteSpace (x +++ ". ") = false ->
  JS.trim (x +++ ". ") = x +++ "." /\
  String.length (JS.trim (x +++ ". ")) + 1 = String.length (x +++ ". ").
Proof.
  intros H. unfold JS.trim. rewrite (trimStart_id _ H), trimEnd_dot_space.
  split; [reflexivity |]. rewrite !length_append. simpl. lia.
Qed.

Lemma head_append (x y : string) :
  JS.startsWithChar JS.isWhiteSpace x = false -> x <> "" ->
  JS.startsWithChar JS.isWhiteSpace (x +++ y) = false.
Proof. destruct x; simpl; [congruence | auto]. Qed.

Section Page.

Variable pages : list ExtractedPage.
Variable maxChunkSize : nat.
Variable p : ExtractedPage.
Hypothesis p_in : In p pages.

Let bufferOk := Spec.bufferOk maxChunkSize p.
Let stateOk := Spec.stateOk pages maxChunkSize p.
Let withinSlack := Spec.withinSlack pages maxChunkSize.

Lemma flush_ok (st : LoopState) (next : string) :
  stateOk st -> currentChunk st <> "" -> bufferOk next ->
  stateOk (flush (page_number p) st next).
Proof.
  intros [Hc Hb] Hne Hnext. split; [| exact Hnext]. cbn [flush chunks].
  apply Forall_app. split; [exact Hc |]. constructor; [| constructor].
  destruct Hb as [Hb | [x [Hx [Hhead Hcase]]]]; [congruence |].
  unfold Spec.withinSlack. cbn [content]. rewrite Hx in Hhead |- *.
  destruct (trim_buffer x Hhead) as [Ht Hl]. rewrite Hx in Hcase.
  destruct Hcase as [Hlen | [s [Hs ->]]].
  - left. lia.
  - right. exists p, s. rewrite Ht. auto.
Qed.

Lemma single_ok (s : string) :
  In s (sentencesOf (page_text p)) -> bufferOk (JS.trim s +++ ". ").
Proof.
  intros Hs. right. exists (JS.trim s). split; [reflexivity |]. split.
  - pose proof (trim_head s) as H. destruct (JS.trim s); [reflexivity | exact H].
  - right. exists s. auto.
Qed.

Lemma addSentence_ok (st : LoopState) (s : string) :
  In s (sentencesOf (page_text p)) -> stateOk st ->
  stateOk (addSentence maxChunkSize (page_number p) st s).
Proof.
  intros Hs Hst. unfold addSentence.
  destruct (String.length (JS.trim s) =? 0) eqn:E0; [exact Hst |].
  destruct ((maxChunkSize <? String.length (currentChunk st) + String.length (JS.trim s))
            && (0 <? String.length (currentChunk st))) eqn:E.
  - apply andb_true_iff in E. destruct E as [_ E]. apply Nat.ltb_lt in E.
    apply flush_ok; [exact Hst | | now apply single_ok].
    intros H. rewrite H in E. simpl in E. lia.
  - destruct Hst as [Hc Hb]. split; [exact Hc |]. cbn [currentChunk].
    destruct Hb as [-> | [x [Hx [Hhead Hcase]]]]; [now apply single_ok |].
    right. exists (currentChunk st +++ JS.trim s). split; [now rewrite append_assoc |].
    split.
    + apply head_append; [exact Hhead |]. rewrite Hx. destruct x; discriminate.
    + left. apply andb_false_iff in E. destruct E as [E | E].
      * apply Nat.ltb_ge in E. rewrite !length_append. simpl. lia.
      * apply Nat.ltb_ge in E. rewrite Hx, length_append in E. simpl in E. lia.
Qed.

Lemma sentences_ok (ss : list string) (st : LoopState) :
  (forall s, In s ss -> In s (sentencesOf (page_text p))) -> stateOk st ->
  stateOk (fold_left (addSentence maxChunkSize (page_number p)) ss st).
Proof.
  revert st. induction ss as [| s ss IH]; intros st Hin Hst; simpl; [exact Hst |].
  apply IH; [intros x Hx; apply Hin; now right |].
  apply addSentence_ok; [apply Hin; now left | exact Hst].
Qed.

Lemma addPage_ok (acc : list TextChunk * nat) :
  Forall (Spec.withinSlack pages maxChunkSize) (fst acc) ->
  Forall (Spec.withinSlack pages maxChunkSize) (fst (addPage maxChunkSize acc p)).
Proof.
  intros Hacc. unfold addPage.
  destruct (String.length (page_text p) =? 0); [exact Hacc |].
  set (st := fold_left (addSentence maxChunkSize (page_number p))
                       (sentencesOf (page_text p)) (mkLoop (fst acc) (snd acc) "")).
  assert (Hst : stateOk st).
  { apply sentences_ok; [auto |]. split; [exact Hacc | now left]. }
  destruct (0 <? String.length (JS.trim (currentChunk st))) eqn:E; cbn [fst].
  - apply flush_ok; [exact Hst | | now left].
    intros H. rewrite H in E. discriminate.
  - apply Hst.
Qed.

End Page.

Lemma pages_ok (pages todo : list ExtractedPage) (maxChunkSize : nat)
      (acc : list TextChunk * nat) :
  (forall p, In p todo -> In p pages) ->
  Forall (Spec.withinSlack pages maxChunkSize) (fst acc) ->
  Forall (Spec.withinSlack pages maxChunkSize) (fst (fold_left (addPage maxChunkSize) todo acc)).
Proof.
  revert acc. induction todo as [| p todo IH]; intros acc Hin Hacc; simpl; [exact Hacc |].
  apply IH; [intros q Hq; apply Hin; now right |].
  apply addPage_ok; [apply Hin; now left | exact Hacc].
Qed.

(** What does hold of every chunk: its content is at most one character
    over the bound, or it is a single sentence. *)
Lemma chunk_size_within_slack (pages : list ExtractedPage) (maxChunkSize : nat) :
  Forall (Spec.withinSlack pages maxChunkSize) (createTextChunks pages maxChunkSize).
Proof.
  unfold createTextChunks. apply pages_ok; [auto | constructor].
Qed.

(** C2.  A page of two sentences, of 248 and 250 letters, with the default
    bound of 500: the buffer holds 250 characters after the first
    sentence, the test [250 + 250 > 500] is false because the separator
    to be appended is not counted, and the one chunk produced holds both
    sentences in 501 characters. *)
Theorem chunk_exceeds_bound :
  let text := Spec.letters "a" 248 +++ "." +++ Spec.letters "b" 250 +++ "." in
  exists c,
    createTextChunks [mkPage 1 text] defaultMaxChunkSize = [c]
    /\ content c = Spec.letters "a" 248 +++ ". " +++ Spec.letters "b" 250 +++ "."
    /\ String.length (content c) = 501
    /\ defaultMaxChunkSize < String.length (content c).
Proof.
  eexists. split; [vm_compute; reflexivity |].
  split; [vm_compute; reflexivity |].
  split; [vm_compute; reflexivity |].
  vm_compute. lia.
Qed.

(** A single sentence of exactly the bound also gives a longer chunk. *)
Lemma chunk_of_one_full_sentence :
  map (fun c => String.length (content c))
      (createTextChunks [mkPage 1 (Spec.letters "a" 500 +++ ".")] defaultMaxChunkSize)
  = [501].
Proof. vm_compute. reflexivity. Qed.

End ChunkerFacts.

(** ** The retrieval engine and the answer synthesizer *)

Module RetrievalFacts.

Import Arr EnhancedQuestionAnswering QFacts ListFacts.

(** The per-term loop adds the same amount whatever it starts from. *)
Lemma forEachIndexed_wordScore_shift (n : nat) (l1 l2 : string) (words : list string) :
  (forall w, In w words ->
     JS.includes w l1 = JS.includes w l2 /\ wordRegexTest w l1 = wordRegexTest w l2) ->
  forall (i : nat) (s s' k : Q),
    (s == s' + k)%Q ->
    (forEachIndexed (wordScore n l1) words i s
     == forEachIndexed (wordScore n l2) words i s' + k)%Q.
Proof.
  induction words as [| w words IH]; intros Hsame i s s' k Hs; simpl.
  - exact Hs.
  - apply IH.
    + intros x Hx. apply Hsame. now right.
    + destruct (Hsame w (or_introl eq_refl)) as [Hi Hr].
      unfold wordScore. rewrite Hi, Hr.
      destruct (JS.includes w l2); [destruct (wordRegexTest w l2) |];
        rewrite Hs; ring.
Qed.

Lemma title_loop_shift (nm1 nm2 : string) (words : list string) :
  (forall w, In w words -> JS.includes w nm1 = JS.includes w nm2) ->
  forall (s s' k : Q),
    (s == s' + k)%Q ->
    (fold_left (fun sc word => if JS.includes word nm1 then (sc + 1)%Q else sc) words s
     == fold_left (fun sc word => if JS.includes word nm2 then (sc + 1)%Q else sc) words s'
        + k)%Q.
Proof.
  induction words as [| w words IH]; intros Hsame s s' k Hs; simpl.
  - exact Hs.
  - apply IH.
    + intros x Hx. apply Hsame. now right.
    + rewrite (Hsame w (or_introl eq_refl)).
      destruct (JS.includes w nm2); rewrite Hs; ring.
Qed.

(** Two chunks that differ for the score only in the phrase differ by
    the bonus of the phrase, in the exact sums of the model. *)
Lemma semantic_score_phrase_shift (queryWords : list string) (c1 c2 : TextChunk)
      (d1 d2 : ProcessedDocument) :
  let l1 := JS.toLowerCase (content c1) in
  let l2 := JS.toLowerCase (content c2) in
  let phrase := JS.join " " queryWords in
  (forall w, In w queryWords ->
     JS.includes w l1 = JS.includes w l2 /\ wordRegexTest w l1 = wordRegexTest w l2) ->
  (getContextualScore phrase l1 == getContextualScore phrase l2)%Q ->
  length (JS.splitRuns JS.isWhiteSpace l1) = length (JS.splitRuns JS.isWhiteSpace l2) ->
  (forall w, In w queryWords ->
     JS.includes w (JS.toLowerCase (name d1)) = JS.includes w (JS.toLowerCase (name d2))) ->
  JS.includes phrase l1 = true ->
  JS.includes phrase l2 = false ->
  (calculateSemanticScore queryWords c1 d1
   == calculateSemanticScore queryWords c2 d2 + 10)%Q.
Proof.
  intros l1 l2 phrase Hterms Hctx Hwords Htitle Hin Hout.
  unfold calculateSemanticScore. fold l1 l2 phrase.
  rewrite Hin, Hout, Hwords.
  rewrite (count_ext (fun word => JS.includes word l1) (fun word => JS.includes word l2))
    by (intros w Hw; apply Hterms; exact Hw).
  apply (title_loop_shift _ _ queryWords Htitle).
  rewrite Hctx.
  rewrite (forEachIndexed_wordScore_shift (length queryWords) l1 l2 queryWords Hterms
             0 10%Q 0%Q 10%Q) by ring.
  ring.
Qed.

(** C7, as amended.  For a fixed query, take two chunks with the same
    per-term keyword matches, the same contextual-pattern matches and the
    same number of white-space separated words, in documents whose
    names match the same query terms (the same document, say).  If one
    contains the query phrase and the other does not, the first scores
    strictly more. *)
Theorem phrase_bonus (query : string) (c1 c2 : TextChunk) (d1 d2 : ProcessedDocument) :
  let queryWords := extractQueryTerms (JS.toLowerCase query) in
  let l1 := JS.toLowerCase (content c1) in
  let l2 := JS.toLowerCase (content c2) in
  let phrase := JS.join " " queryWords in
  (forall w, In w queryWords ->
     JS.includes w l1 = JS.includes w l2 /\ wordRegexTest w l1 = wordRegexTest w l2) ->
  (getContextualScore phrase l1 == getContextualScore phrase l2)%Q ->
  length (JS.splitRuns JS.isWhiteSpace l1) = length (JS.splitRuns JS.isWhiteSpace l2) ->
  (forall w, In w queryWords ->
     JS.includes w (JS.toLowerCase (name d1)) = JS.includes w (JS.toLowerCase (name d2))) ->
  JS.includes phrase l1 = true ->
  JS.includes phrase l2 = false ->
  (calculateSemanticScore queryWords c2 d2 < calculateSemanticScore queryWords c1 d1)%Q.
Proof.
  intros queryWords l1 l2 phrase Hterms Hctx Hwords Htitle Hin Hout.
  pose proof (semantic_score_phrase_shift queryWords c1 c2 d1 d2
                Hterms Hctx Hwords Htitle Hin Hout) as E.
  rewrite E. rewrite <- (Qplus_0_r (calculateSemanticScore queryWords c2 d2)) at 1.
  apply Qplus_lt_r. reflexivity.
Qed.

Lemma phrase_bonus_witness :
  let d := Spec.readyDocument "d1" "notes.pdf" "" in
  (calculateSemanticScore ["neural"; "network"] (mkChunk "a network neural here" 1 1 []) d
   < calculateSemanticScore ["neural"; "network"] (mkChunk "a neural network here" 1 0 []) d)%Q.
Proof.
  intros d.
  pose proof (phrase_bonus "neural network"
                (mkChunk "a neural network here" 1 0 [])
                (mkChunk "a network neural here" 1 1 []) d d) as H.
  cbv zeta in H.
  change (extractQueryTerms (JS.toLowerCase "neural network"))
    with ["neural"; "network"] in H.
  apply H.
  - intros w Hw. simpl in Hw.
    repeat (destruct Hw as [<- | Hw]; [split; vm_compute; reflexivity |]). destruct Hw.
  - vm_compute. reflexivity.
  - vm_compute. reflexivity.
  - intros w _. reflexivity.
  - vm_compute. reflexivity.
  - vm_compute. reflexivity.
Defined.

(** C7, as stated, fails: the chunks below have the same length, the
    same per-term matches and no contextual match; the first contains the
    phrase, the second does not and still scores more, because its four
    terms make up a single white-space separated word. *)
Lemma phrase_not_monotone :
  let d := Spec.readyDocument "d1" "notes.pdf" "" in
  let queryWords := extractQueryTerms (JS.toLowerCase "alpha beta gamma delta") in
  let c1 := mkChunk "alpha beta gamma delta" 1 0 [] in
  let c2 := mkChunk "alpha.beta.gamma.delta" 1 1 [] in
  String.length (content c1) = String.length (content c2)
  /\ (forall w, In w queryWords ->
        JS.includes w (JS.toLowerCase (content c1)) = JS.includes w (JS.toLowerCase (content c2))
        /\ wordRegexTest w (JS.toLowerCase (content c1))
           = wordRegexTest w (JS.toLowerCase (content c2)))
  /\ forallb (fun p => Bool.eqb (testAny (contentPattern p) (content c1))
                                (testAny (contentPattern p) (content c2))) patterns = true
  /\ JS.includes (JS.join " " queryWords) (JS.toLowerCase (content c1)) = true
  /\ JS.includes (JS.join " " queryWords) (JS.toLowerCase (content c2)) = false
  /\ (calculateSemanticScore queryWords c1 d == 40)%Q
  /\ (calculateSemanticScore queryWords c2 d == 45)%Q
  /\ ~ (calculateSemanticScore queryWords c2 d < calculateSemanticScore queryWords c1 d)%Q.
Proof.
  intros d queryWords c1 c2.
  split; [reflexivity |].
  split.
  { intros w Hw. vm_compute in Hw.
    repeat (destruct Hw as [<- | Hw]; [split; vm_compute; reflexivity |]). destruct Hw. }
  split; [vm_compute; reflexivity |].
  split; [vm_compute; reflexivity |].
  split; [vm_compute; reflexivity |].
  split; [vm_compute; reflexivity |].
  split; [vm_compute; reflexivity |].
  vm_compute. discriminate.
Qed.

(** Every hit of the search has a positive score. *)
Lemma performSemanticSearch_positive (query : string) (documents : list ProcessedDocument) :
  Forall (fun r => (0 < score r)%Q) (performSemanticSearch query documents).
Proof.
  apply Forall_forall. intros r Hr. unfold performSemanticSearch in Hr.
  apply firstn_incl in Hr. apply sortBy_In in Hr.
  apply in_flat_map in Hr. destruct Hr as [d [_ Hr]].
  unfold scoreDocument in Hr. destruct (status_eqb (status d) ready); [| destruct Hr].
  apply in_flat_map in Hr. destruct Hr as [c [_ Hr]].
  destruct (Qltb 0 (calculateSemanticScore _ c d)) eqn:E; [| destruct Hr].
  destruct Hr as [<- | []]. simpl. now apply Qltb_lt.
Qed.

(** C5.  On a ranked list with scores that are not negative, the
    confidence is the value of the specification's formula and lies in
    [0,1]; on the empty list it is 0. *)
Theorem confidence_formula (query : string) (results : list ScoredChunk) :
  Forall (fun r => (0 <= score r)%Q) results ->
  (calculateConfidence query results == Spec.confidenceSpec query results)%Q
  /\ (0 <= calculateConfidence query results)%Q
  /\ (calculateConfidence query results <= 1)%Q
  /\ (results = [] -> calculateConfidence query results = 0%Q).
Proof.
  intros Hpos. destruct results as [| top others].
  - simpl. repeat split; try reflexivity; qconst.
  - inversion Hpos as [| ? ? Htop _]; subst.
    unfold calculateConfidence, Spec.confidenceSpec, clamp01.
    set (terms := extractQueryTerms (JS.toLowerCase query)).
    set (fraction :=
           (ofNat (count (fun word =>
                            JS.includes word (JS.toLowerCase (content (hit_chunk top))))
                         terms)
            / ofNat (length terms))%Q).
    set (base := Qmin (score top / 10) 1).
    assert (Hbase : (0 <= base)%Q).
    { unfold base. apply Q.min_glb; [| qconst].
      apply Qle_shift_div_l; [qconst |]. now rewrite Qmult_0_l. }
    assert (Hfrac : (0 <= fraction)%Q) by apply fraction_nonneg.
    set (c1 := match others with
               | second :: _ =>
                   if Qltb (score top * (8 # 10)) (score second)
                   then (base + (1 # 10))%Q else base
               | [] => base
               end).
    set (closeSecond := match others with
                        | second :: _ =>
                            if Qltb ((8 # 10) * score top) (score second)
                            then (1 # 10)%Q else 0%Q
                        | [] => 0%Q
                        end).
    assert (Hc1 : (c1 == base + closeSecond)%Q).
    { unfold c1, closeSecond. destruct others as [| second ?]; [ring |].
      rewrite (Qltb_proper (score top * (8 # 10)) ((8 # 10) * score top)
                 (score second) (score second)) by ring.
      destruct (Qltb ((8 # 10) * score top) (score second)); ring. }
    assert (Hclose : (0 <= closeSecond)%Q).
    { unfold closeSecond. destruct others as [| second ?]; [qconst |].
      destruct (Qltb ((8 # 10) * score top) (score second)); qconst. }
    assert (Hsum : (0 <= c1 + fraction * (2 # 10))%Q).
    { rewrite Hc1.
      apply Qle_trans with (y := (0 + 0 + 0)%Q); [qconst |].
      apply Qplus_le_compat; [apply Qplus_le_compat; assumption |].
      apply Qmult_le_0_compat; [assumption | qconst]. }
    repeat split.
    + rewrite Q.max_r.
      * rewrite Q.min_comm. rewrite Hc1.
        apply Q.min_compat; [reflexivity | ring].
      * apply Q.min_glb; [qconst |].
        rewrite <- Hc1.
        setoid_replace ((2 # 10) * fraction)%Q with (fraction * (2 # 10))%Q by ring.
        exact Hsum.
    + apply Q.min_glb; [exact Hsum | qconst].
    + apply Q.le_min_r.
    + discriminate.
Qed.

Lemma confidence_formula_witness :
  (calculateConfidence "alpha beta"
     [mkScored (mkChunk "alpha here" 1 0 []) 6 (Spec.readyDocument "d1" "notes.pdf" "")]
   == 7 # 10)%Q.
Proof.
  destruct (confidence_formula "alpha beta"
     [mkScored (mkChunk "alpha here" 1 0 []) 6 (Spec.readyDocument "d1" "notes.pdf" "")])
    as [H _].
  - repeat constructor. simpl. qconst.
  - rewrite H. vm_compute. reflexivity.
Defined.

(** The confidence that [generateAnswer] reports lies in [0,1]. *)
Lemma generateAnswer_confidence_bounds (query : string) (documents : list ProcessedDocument) :
  (0 <= confidence (generateAnswer query documents) <= 1)%Q.
Proof.
  unfold generateAnswer.
  destruct (length (performSemanticSearch query documents) =? 0); simpl; [split; qconst |].
  pose proof (performSemanticSearch_positive query documents) as Hpos.
  set (results := performSemanticSearch query documents) in *.
  destruct results as [| top others]; simpl; [split; qconst |].
  inversion Hpos as [| ? ? Htop _]; subst. split; [| apply Q.le_min_r].
  apply Q.min_glb; [| qconst].
  apply Qle_trans with (y := (0 + 0)%Q); [qconst |].
  apply Qplus_le_compat.
  - assert (Hbase : (0 <= Qmin (score top / 10) 1)%Q).
    { apply Q.min_glb; [| qconst]. apply Qle_shift_div_l; [qconst |].
      rewrite Qmult_0_l. now apply Qlt_le_weak. }
    destruct others as [| second ?]; [exact Hbase |].
    destruct (Qltb (score top * (8 # 10)) (score second)); [| exact Hbase].
    apply Qle_trans with (y := (0 + 0)%Q); [qconst |].
    apply Qplus_le_compat; [exact Hbase | qconst].
  - apply Qmult_le_0_compat; [apply fraction_nonneg | qconst].
Qed.

(** C4, as amended.  When the search finds nothing, the confidence is 0
    and the sources are empty; the answer is the message that the
    information could not be found, with the question quoted in it, if
    some document is ready, and the message that no document has been
    processed otherwise. *)
Theorem no_results_answer (query : string) (documents : list ProcessedDocument) :
  performSemanticSearch query documents = [] ->
  answer (generateAnswer query documents) =
    (if existsb (fun doc => status_eqb (status doc) ready) documents
     then couldNotFind query else noProcessedDocuments)
  /\ confidence (generateAnswer query documents) = 0%Q
  /\ sources (generateAnswer query documents) = [].
Proof.
  intros H. unfold generateAnswer. rewrite H. simpl.
  repeat split. unfold generateNoResultsAnswer.
  rewrite no_match_filter.
  destruct (existsb (fun doc => status_eqb (status doc) ready) documents); reflexivity.
Qed.

Lemma no_results_answer_witness :
  answer (generateAnswer "zzqqxx_nonexistent_term"
            [Spec.readyDocument "d1" "notes.pdf" "Machine learning is fun."])
  = couldNotFind "zzqqxx_nonexistent_term".
Proof.
  apply (no_results_answer "zzqqxx_nonexistent_term"
           [Spec.readyDocument "d1" "notes.pdf" "Machine learning is fun."]).
  vm_compute. reflexivity.
Defined.

(** C4, as stated, fails when no document is ready: the search is empty
    and the answer is another message. *)
Lemma no_ready_documents_answer :
  let documents :=
    [mkDocument "d1" "notes.pdf" 1024 0 processing 0 [] [] EmptyString None None None] in
  performSemanticSearch "what is gravity" documents = []
  /\ answer (generateAnswer "what is gravity" documents) = noProcessedDocuments
  /\ answer (generateAnswer "what is gravity" documents) <> couldNotFind "what is gravity".
Proof.
  repeat split; try (vm_compute; reflexivity).
  vm_compute. discriminate.
Qed.

End RetrievalFacts.

(** ** The PDF processor *)

Module PDFProcessorFacts.

Import PDFProcessor.

Lemma getDocument_set_same (m : Store) (key : string) (d : ProcessedDocument) :
  getDocument (set key d m) key = Some d.
Proof.
  induction m as [| [k v] m IH]; simpl.
  - now rewrite String.eqb_refl.
  - destruct (String.eqb k key) eqn:E; simpl; rewrite E; [reflexivity | exact IH].
Qed.

Lemma getDocument_set_other (m : Store) (key other : string) (d : ProcessedDocument) :
  other <> key -> getDocument (set key d m) other = getDocument m other.
Proof.
  intros Hne. induction m as [| [k v] m IH]; simpl.
  - destruct (String.eqb key other) eqn:E; [| reflexivity].
    apply String.eqb_eq in E. congruence.
  - destruct (String.eqb k key) eqn:E; simpl.
    + apply String.eqb_eq in E. subst k.
      destruct (String.eqb key other) eqn:E'; [| reflexivity].
      apply String.eqb_eq in E'. congruence.
    + destruct (String.eqb k other); [reflexivity | exact IH].
Qed.

(** [processFile] touches no other document. *)
Lemma processFile_other_documents m file id now extraction other :
  other <> id ->
  getDocument (fst (processFile m file id now extraction)) other = getDocument m other.
Proof.
  intros Hne. unfold processFile.
  destruct extraction; cbn [fst]; now rewrite !getDocument_set_other.
Qed.

(** What [processFile] stores when the extraction returns. *)
Lemma processFile_returns (m : Store) (file : File) (id : string) (now : Z)
      (x : ExtractedTextData) :
  exists d,
    snd (processFile m file id now (Returns x)) = Returns (id, d)
    /\ getDocument (fst (processFile m file id now (Returns x))) id = Some d
    /\ status d = ready
    /\ pages d = map (fun p => mkPage (page_number p) (TextProcessor.quickClean (page_text p)))
                     (extracted_pages x)
    /\ pageCount d = extracted_pageCount x
    /\ fullText d = extracted_fullText x
    /\ chunks d = Chunker.createTextChunks (pages d) Chunker.defaultMaxChunkSize.
Proof.
  unfold processFile. cbv zeta. cbn [fst snd].
  eexists. split; [reflexivity|]. split; [apply getDocument_set_same|].
  cbn [status pages pageCount fullText chunks]. repeat split.
Qed.



(** C3.  The extraction service answers a scan of two pages page by
    page, and neither page has text.  [extractTextWithFallback] takes
    the two line feeds that join the pages for text and lets the answer
    pass, whatever else the host does.  [processFile] then stores a
    document that is ready, whose two pages match its page count, and
    that has no chunk, where the invariant asks for chunks in a ready
    document, or else for the status [error]. *)
Theorem blank_pages_ready_without_chunks (m : Store) (id : string) (now : Z)
        (output : PdfRestExtractor.Fetched string)
        (fallback : PdfRestExtractor.PDFRestExtractResponse)
        (sizeInMB uploadTime : string) :
  let file := mkFile "scan.pdf" 2048 in
  let extracted :=
    PdfRestExtractor.extractTextWithFallback
      file (PdfRestExtractor.ok Spec.blankPages) output fallback sizeInMB uploadTime in
  extracted = mkExtracted (JS.nl +++ JS.nl) [mkPage 1 ""; mkPage 2 ""] 2
  /\ exists d,
       snd (processFile m file id now (Returns extracted)) = Returns (id, d)
       /\ getDocument (fst (processFile m file id now (Returns extracted))) id = Some d
       /\ status d = ready
       /\ length (pages d) = 2
       /\ pageCount d = 2
       /\ chunks d = []
       /\ ~ Spec.readyInvariant d.
Proof.
  intros file extracted.
  assert (E : extracted = mkExtracted (JS.nl +++ JS.nl) [mkPage 1 ""; mkPage 2 ""] 2)
    by reflexivity.
  split; [exact E|]. rewrite E.
  destruct (processFile_returns m file id now
              (mkExtracted (JS.nl +++ JS.nl) [mkPage 1 ""; mkPage 2 ""] 2))
    as [d [Hret [Hget [Hstatus [Hpages [Hcount [_ Hchunks]]]]]]].
  cbn [extracted_pages extracted_pageCount map page_number page_text] in Hpages, Hcount.
  assert (Hnone : chunks d = []).
  { rewrite Hchunks, Hpages. vm_compute. reflexivity. }
  exists d. repeat (split; [assumption || (rewrite Hpages; reflexivity)|]).
  unfold Spec.readyInvariant. intros H. destruct (H Hstatus) as [_ H'].
  rewrite Hnone in H'. inversion H'.
Qed.

(** The same scan answered in one piece: [parseTextIntoPages] trims
    the text, finds none and puts a note in its place, so that the
    document has a chunk. *)
Lemma blank_text_gets_a_note (m : Store) (id : string) (now : Z)
      (output : PdfRestExtractor.Fetched string)
      (fallback : PdfRestExtractor.PDFRestExtractResponse)
      (sizeInMB uploadTime : string) :
  let file := mkFile "scan.pdf" 2048 in
  let answered :=
    PdfRestExtractor.mkResultJson None None (Some (JS.nl +++ JS.nl)) None None in
  let extracted :=
    PdfRestExtractor.extractTextWithFallback
      file (PdfRestExtractor.ok answered) output fallback sizeInMB uploadTime in
  extracted = mkExtracted (JS.nl +++ JS.nl) [mkPage 1 "No text content extracted."] 1
  /\ exists d,
       snd (processFile m file id now (Returns extracted)) = Returns (id, d)
       /\ status d = ready
       /\ length (chunks d) = 1
       /\ Spec.readyInvariant d.
Proof.
  intros file answered extracted.
  assert (E : extracted
              = mkExtracted (JS.nl +++ JS.nl) [mkPage 1 "No text content extracted."] 1)
    by (vm_compute; reflexivity).
  split; [exact E|]. rewrite E.
  destruct (processFile_returns m file id now
              (mkExtracted (JS.nl +++ JS.nl) [mkPage 1 "No text content extracted."] 1))
    as [d [Hret [_ [Hstatus [Hpages [Hcount [_ Hchunks]]]]]]].
  cbn [extracted_pages extracted_pageCount map page_number page_text] in Hpages, Hcount.
  assert (Hone : length (chunks d) = 1).
  { rewrite Hchunks, Hpages. vm_compute. reflexivity. }
  exists d. split; [exact Hret|]. split; [exact Hstatus|]. split; [exact Hone|].
  intros _. rewrite Hone, Hpages, Hcount. split; [reflexivity|lia].
Qed.

(** When the enhanced module loads, [generateAnswer] returns. *)
Lemma generateAnswer_enhanced_returns (m : Store) (query : string) :
  generateAnswer (Returns tt) m query = Some (Returns (enhancedAnswer m query)).
Proof. reflexivity. Qed.

(** C1.  When loading the enhanced module fails, the fallback search
    builds [new RegExp("\\bc++\\b", "i")] for the question [c++] as soon
    as a chunk contains that text; the constructor raises a syntax error
    inside the [catch] block, and [generateAnswer] raises it to its
    caller, which reports a failure instead of an answer. *)
Theorem generateAnswer_fallback_throws :
  let m := [("doc1", Spec.readyDocument "doc1" "notes.pdf" "C++ is a language.")] in
  generateAnswer Spec.moduleMissing m "c++"
  = Some (Throws (SyntaxError "Nothing to repeat"))
  /\ Api.askQuestion Spec.moduleMissing m "c++"
     = Some (Api.failure "Failed to process question: Nothing to repeat")
  /\ generateAnswer (Returns tt) m "c++" = Some (Returns (enhancedAnswer m "c++")).
Proof. repeat split; vm_compute; reflexivity. Qed.

Lemma escapeRegex_plain (w : string) :
  JS.allb (fun c => negb (RegExp.isSyntaxChar c)) w = true -> RegExp.escapeRegex w = w.
Proof.
  induction w as [| c w IH]; simpl; [reflexivity |].
  intros H. apply andb_true_iff in H. destruct H as [Hc Hw].
  apply negb_true_iff in Hc. rewrite Hc. now rewrite IH.
Qed.

Lemma wordStep_plain (lowered : string) (sc : Q) (w : string) :
  Spec.plainWord w = true -> exists q, wordStep lowered sc w = Some (Returns q).
Proof.
  intros H. apply andb_true_iff in H. destruct H as [H _].
  unfold wordStep. destruct (JS.includes w lowered); [| eexists; reflexivity].
  replace (RegExp.bs_b +++ w +++ RegExp.bs_b)
    with (RegExp.bs_b +++ RegExp.escapeRegex w +++ RegExp.bs_b)
    by (now rewrite escapeRegex_plain).
  rewrite RegExpFacts.create_escaped.
  eexists. reflexivity.
Qed.

Lemma foldRun_returns {A St} (f : St -> A -> Run St) (l : list A) :
  (forall x, In x l -> forall s, exists s', f s x = Some (Returns s')) ->
  forall s, exists s', foldRun f l s = Some (Returns s').
Proof.
  induction l as [| x l IH]; intros H s; simpl; [eexists; reflexivity |].
  destruct (H x (or_introl eq_refl) s) as [s1 ->]. simpl.
  apply IH. intros y Hy. apply H. now right.
Qed.

Lemma expandSearchTerms_returns (words : list string) :
  Forall (fun w => Spec.plainWord w = true) words ->
  exists l, expandSearchTerms words = Returns l.
Proof.
  unfold expandSearchTerms. generalize (@nil string).
  induction words as [| w words IH]; intros acc H; cbn [foldExc];
    [eexists; reflexivity |].
  inversion H as [| ? ? Hw Hrest]; subst.
  apply andb_true_iff in Hw. destruct Hw as [_ Hw]. apply negb_true_iff in Hw.
  destruct (lookup w synonyms); cbn [bind]; [now apply IH |].
  rewrite Hw. cbn [bind]. now apply IH.
Qed.

Lemma searchDocuments_returns (m : Store) (query : string) :
  Forall (fun w => Spec.plainWord w = true) (queryWordsOf (JS.toLowerCase query)) ->
  exists results, searchDocuments m query = Some (Returns results).
Proof.
  intros Hplain. unfold searchDocuments. fold (queryWordsOf (JS.toLowerCase query)).
  destruct (expandSearchTerms_returns _ Hplain) as [expanded ->]. cbn [andThen].
  match goal with
  | |- exists r, andThen (foldRun ?f ?l ?s0) ?k = _ =>
      assert (Hdocs : forall x, In x l -> forall s, exists s', f s x = Some (Returns s'));
      [| destruct (foldRun_returns f l Hdocs s0) as [results ->]]
  end.
  - intros doc _ results. destruct (status_eqb (status doc) ready); [| eexists; reflexivity].
    apply foldRun_returns. intros chunk _ acc. unfold scoreChunk.
    match goal with
    | |- exists s', andThen (andThen (foldRun ?f ?l ?s0) ?k) ?k' = _ =>
        assert (Hwords : forall x, In x l -> forall s, exists s', f s x = Some (Returns s'));
        [| destruct (foldRun_returns f l Hwords s0) as [q ->]]
    end.
    + intros w Hw sc. apply wordStep_plain.
      rewrite Forall_forall in Hplain. now apply Hplain.
    + cbn [andThen]. eexists. reflexivity.
  - cbn [andThen]. eexists. reflexivity.
Qed.

(** Where the fallback is safe: [generateAnswer] returns whenever the
    words of the question hold no syntax character of the pattern
    grammar and are no inherited property name. *)
Lemma generateAnswer_returns_on_plain_words (moduleLoad : Exc unit) (m : Store)
        (query : string) :
  Forall (fun w => Spec.plainWord w = true) (queryWordsOf (JS.toLowerCase query)) ->
  exists r, generateAnswer moduleLoad m query = Some (Returns r).
Proof.
  intros Hplain. unfold generateAnswer. destruct moduleLoad; [eexists; reflexivity |].
  unfold fallbackAnswer. destruct (searchDocuments_returns m query Hplain) as [results ->].
  cbn [andThen]. destruct results; eexists; reflexivity.
Qed.
(** The same question is answered when no chunk contains its text. *)
Lemma generateAnswer_fallback_returns :
  exists r,
    generateAnswer Spec.moduleMissing
      [("doc1", Spec.readyDocument "doc1" "notes.pdf" "Rust is a language.")] "c++"
    = Some (Returns r).
Proof. eexists. vm_compute. reflexivity. Qed.

End PDFProcessorFacts.

(** ** The predefined answers and the asking flow *)

Module PredefinedFacts.

Import PredefinedQA App JSFacts ListFacts.

Lemma findPredefinedAnswer_key_elements (userQuestion : string) :
  JS.includes Spec.keyElementsQuestion (JS.trim (JS.toLowerCase userQuestion)) = true ->
  (forall k, In k Spec.earlierKeywords ->
             JS.includes k (JS.trim (JS.toLowerCase userQuestion)) = false) ->
  findPredefinedAnswer userQuestion = Some Spec.cannedKeyElements.
Proof.
  intros Hin Hnot. unfold findPredefinedAnswer, keywordLookup.
  change mlKeywordMatches
    with (firstn 8 mlKeywordMatches
            ++ ("three key elements", 2) :: skipn 9 mlKeywordMatches).
  rewrite find_skip; [reflexivity | |].
  - intros [k i] Hy. apply Hnot. unfold Spec.earlierKeywords.
    change k with (fst (k, i)). now apply in_map.
  - cbn [fst]. apply includes_trans with (b := Spec.keyElementsQuestion);
      [reflexivity | exact Hin].
Qed.

(** C6, as amended.  If the lower-cased, trimmed question contains the
    sentence about the three key elements and none of the eight keywords
    that the table tries first, [findPredefinedAnswer] returns the canned
    answer on representation, evaluation and optimization; and when the
    usage limit lets the question through, the flow appends that answer,
    followed by the name of its knowledge base, and never calls
    [api.askQuestion]. *)
Theorem predefined_short_circuit (moduleLoad : Exc unit) (m : PDFProcessor.Store)
        (userQuestion : string) :
  JS.includes Spec.keyElementsQuestion (JS.trim (JS.toLowerCase userQuestion)) = true ->
  (forall k, In k Spec.earlierKeywords ->
             JS.includes k (JS.trim (JS.toLowerCase userQuestion)) = false) ->
  findPredefinedAnswer userQuestion = Some Spec.cannedKeyElements /\
  exists knowledgeBase documentName,
    (knowledgeBase = "ML Research Paper knowledge base"
     \/ knowledgeBase = "Integrated Research Knowledge Base") /\
    handleSendMessage true moduleLoad m userQuestion =
      Some (mkTurn
              [mkMessage user userQuestion [];
               mkMessage assistant
                 (Spec.cannedKeyElements +++ JS.nl +++ JS.nl +++ "---" +++ JS.nl
                    +++ "*This answer is from the " +++ knowledgeBase +++ ".*")
                 [PDFProcessor.mkSource documentName 1
                    ("Predefined answer from integrated "
                       +++ JS.toLowerCase knowledgeBase)]]
              [] false).
Proof.
  intros Hin Hnot.
  pose proof (findPredefinedAnswer_key_elements userQuestion Hin Hnot) as Hfind.
  split; [exact Hfind |].
  assert (HML : isMLResearchQuestion userQuestion = true).
  { unfold isMLResearchQuestion, mlKeywords. cbn [existsb].
    rewrite (includes_trans "machine learning" Spec.keyElementsQuestion
               (JS.toLowerCase userQuestion) eq_refl (includes_trim _ _ Hin)).
    reflexivity. }
  assert (Hturn : forall kb dn, knowledgeBaseOf userQuestion = (kb, dn) ->
    handleSendMessage true moduleLoad m userQuestion =
      Some (mkTurn
              [mkMessage user userQuestion [];
               mkMessage assistant
                 (Spec.cannedKeyElements +++ JS.nl +++ JS.nl +++ "---" +++ JS.nl
                    +++ "*This answer is from the " +++ kb +++ ".*")
                 [PDFProcessor.mkSource dn 1
                    ("Predefined answer from integrated " +++ JS.toLowerCase kb)]]
              [] false)).
  { intros kb dn Hkb. unfold handleSendMessage. cbn [negb]. rewrite Hfind.
    unfold predefinedMessage. rewrite Hkb. reflexivity. }
  unfold knowledgeBaseOf in Hturn. rewrite HML in Hturn. cbn [andb negb] in Hturn.
  destruct (isNuclearPhysicsQuestion userQuestion); cbn [andb negb] in Hturn.
  - eexists _, _. split; [now right |]. now apply Hturn.
  - eexists _, _. split; [now left |]. now apply Hturn.
Qed.

Lemma predefined_short_circuit_witness :
  findPredefinedAnswer
    "What are the three key elements of every machine learning algorithm?"
  = Some Spec.cannedKeyElements.
Proof.
  apply (predefined_short_circuit (Returns tt) []
           "What are the three key elements of every machine learning algorithm?").
  - vm_compute. reflexivity.
  - intros k Hk. unfold Spec.earlierKeywords in Hk. simpl in Hk.
    repeat (destruct Hk as [<- | Hk]; [vm_compute; reflexivity |]). destruct Hk.
Defined.

(** C6, as stated, fails: a question that contains the sentence and also
    the keyword [main types], which the table tries earlier, gets the
    answer on the types of machine learning. *)
Lemma earlier_keyword_wins :
  let userQuestion :=
    "Main types aside, what are the three key elements of every machine learning algorithm?" in
  JS.includes Spec.keyElementsQuestion (JS.trim (JS.toLowerCase userQuestion)) = true
  /\ findPredefinedAnswer userQuestion = Some (answerAt ML_RESEARCH_QA 1)
  /\ findPredefinedAnswer userQuestion <> Some Spec.cannedKeyElements.
Proof.
  repeat split; try (vm_compute; reflexivity).
  vm_compute. intros H. discriminate H.
Qed.

(** A refused question gets no answer at all. *)
Lemma usage_limit_blocks (moduleLoad : Exc unit) (m : PDFProcessor.Store)
      (userQuestion : string) :
  handleSendMessage false moduleLoad m userQuestion = Some (mkTurn [] [] true).
Proof. reflexivity. Qed.

End PredefinedFacts.

(** ** The FAQ tracker *)

Module FAQFacts.

Import Arr FAQSystem ListFacts.

Lemma trendingOrder_difference (now : Z) (a b : FAQItem) :
  trendingOrder now a b = (trendOf now a - trendOf now b)%Q.
Proof. reflexivity. Qed.

(** What [getTrendingQuestions] does return: at most [limit] items, each
    asked within the last seven days, in ascending order of the score. *)
Lemma getTrendingQuestions_ascending (now : Z) (faqItems : list FAQItem) (limit : nat) :
  length (getTrendingQuestions now faqItems limit) <= limit
  /\ Forall (fun faq => (now - sevenDays <= lastAsked faq)%Z)
            (getTrendingQuestions now faqItems limit)
  /\ StronglySorted (Spec.trendLe now) (getTrendingQuestions now faqItems limit).
Proof.
  unfold getTrendingQuestions. repeat split.
  - rewrite length_firstn. lia.
  - apply Forall_forall. intros faq H.
    apply firstn_incl in H. apply sortBy_In in H. apply filter_In in H.
    destruct H as [_ H]. now apply Z.leb_le.
  - apply (firstn_sorted FAQItem (trendOf now)).
    apply (sortBy_key_sorted FAQItem (trendOf now)).
Qed.

(** C8.  Two items asked a minute ago, ten times and once: the comparator
    computes its [aScore] from [b] and its [bScore] from [a], so the sort
    is ascending; the item asked once comes first, and with limit 1 it is
    the only one returned. *)
Theorem trending_order_reversed :
  let now := 1700000000000%Z in
  let often := mkFAQ "f1" "What is the main topic?" "" "Summary" 10 [] (now - 60000) 10 in
  let once := mkFAQ "f2" "What data was used?" "" "Data" 5 [] (now - 60000) 1 in
  (trendOf now once < trendOf now often)%Q
  /\ getTrendingQuestions now [often; once] 5 = [once; often]
  /\ getTrendingQuestions now [often; once] 1 = [once]
  /\ getPopularQuestions [often; once] 1 = [often].
Proof.
  repeat split; vm_compute; reflexivity.
Qed.

End FAQFacts.

(** * Further properties

    Properties of the same code beyond the statements of the
    specification: bounds, invariants, round trips and what the
    functions never do. *)

(** ** Further facts on lists and strings *)

Module OrderFacts.

Import Arr ListFacts.

Lemma sortBy_ext {A} (c1 c2 : A -> A -> Q) (l : list A) :
  (forall x y, (c1 x y == c2 x y)%Q) -> sortBy c1 l = sortBy c2 l.
Proof.
  intros H. induction l as [|x l IH]; cbn [sortBy fold_right]; auto.
  fold (sortBy c1 l). fold (sortBy c2 l). rewrite IH.
  generalize (sortBy c2 l). intros s.
  induction s as [|y s IHs]; cbn [insertBy]; auto.
  rewrite (Qleb_comp _ _ (H x y) 0%Q 0%Q (Qeq_refl 0)).
  destruct (Qle_bool (c2 x y) 0); [reflexivity|]. now rewrite IHs.
Qed.

Lemma StronglySorted_impl {A} (R R' : A -> A -> Prop) (l : list A) :
  (forall a b, R a b -> R' a b) -> StronglySorted R l -> StronglySorted R' l.
Proof.
  intros H. induction 1 as [|a l Hs IH Ha]; constructor; auto.
  eapply Forall_impl; [|exact Ha]. intros b. apply H.
Qed.

(** A comparator [key b - key a] sorts in descending order of [key]. *)
Lemma sortBy_descending {A} (key : A -> Q) (l : list A) :
  StronglySorted (fun a b => (key b <= key a)%Q)
                 (sortBy (fun a b => (key b - key a)%Q) l).
Proof.
  rewrite (sortBy_ext _ (fun a b => (- key a - - key b)%Q)) by (intros; ring).
  apply StronglySorted_impl with (R := fun a b => (- key a <= - key b)%Q).
  - intros a b Hab. apply Qopp_le_compat in Hab.
    now rewrite !Qopp_involutive in Hab.
  - apply (sortBy_key_sorted A (fun a => (- key a)%Q)).
Qed.

Lemma firstn_StronglySorted {A} (R : A -> A -> Prop) (n : nat) (l : list A) :
  StronglySorted R l -> StronglySorted R (firstn n l).
Proof.
  intros H. revert n. induction H as [|a l Hs IH Ha]; intros [|n]; cbn [firstn];
    try constructor.
  - apply IH.
  - apply Forall_forall. intros z Hz. apply firstn_incl in Hz.
    rewrite Forall_forall in Ha. now apply Ha.
Qed.

Lemma In_insertBy {A} (cmp : A -> A -> Q) (x y : A) (l : list A) :
  y = x \/ In y l -> In y (insertBy cmp x l).
Proof.
  induction l as [|z l IH]; cbn [insertBy].
  - intros [->|[]]. now left.
  - destruct (Qle_bool (cmp x z) 0).
    + intros [->|H]; [now left|now right].
    + intros [->|[->|H]]; [right; apply IH; now left|now left|right; apply IH; now right].
Qed.

Lemma In_sortBy {A} (cmp : A -> A -> Q) (y : A) (l : list A) :
  In y l -> In y (sortBy cmp l).
Proof.
  induction l as [|x l IH]; cbn [sortBy fold_right]; [auto|].
  intros [->|H]; apply In_insertBy; [now left|right; now apply IH].
Qed.

Lemma ofNat_le (a b : nat) : a <= b -> (ofNat a <= ofNat b)%Q.
Proof. intros H. unfold ofNat. rewrite <- Zle_Qle. lia. Qed.

Lemma ofNat_le_inv (a b : nat) : (ofNat a <= ofNat b)%Q -> a <= b.
Proof. unfold ofNat. rewrite <- Zle_Qle. lia. Qed.

Lemma ofNat_pos (a : nat) : 0 < a -> (0 < ofNat a)%Q.
Proof. intros H. unfold ofNat. change 0%Q with (inject_Z 0). rewrite <- Zlt_Qlt. lia. Qed.

Lemma fold_left_invariant {A B} (P : A -> Prop) (f : A -> B -> A) (l : list B) :
  (forall s x, In x l -> P s -> P (f s x)) -> forall s, P s -> P (fold_left f l s).
Proof.
  induction l as [|x l IH]; cbn [fold_left]; auto.
  intros H s Hs. apply IH.
  - intros s' y Hy. apply H. now right.
  - apply H; [now left|exact Hs].
Qed.

Lemma NoDup_firstn {A} (n : nat) (l : list A) : NoDup l -> NoDup (firstn n l).
Proof.
  intros H. revert n. induction H as [|x l Hx Hl IH]; intros [|n]; cbn [firstn];
    try constructor.
  - intros Hin. apply Hx. now apply firstn_incl in Hin.
  - apply IH.
Qed.

Lemma unique_spec (l seen : list string) :
  NoDup (unique seen l) /\ forall x, In x (unique seen l) -> ~ In x seen /\ In x l.
Proof.
  revert seen. induction l as [|x l IH]; intros seen; cbn [unique].
  - split; [constructor|intros ? []].
  - destruct (JS.arrayIncludes x seen) eqn:E.
    + destruct (IH seen) as [Hn Hs]. split; [exact Hn|].
      intros y Hy. destruct (Hs y Hy). split; [assumption|now right].
    + destruct (IH (x :: seen)) as [Hn Hs]. split.
      * constructor; [|exact Hn]. intros Hin. destruct (Hs x Hin) as [Hnot _].
        apply Hnot. now left.
      * intros y [<-|Hy].
        -- split; [|now left]. intros Hin. unfold JS.arrayIncludes in E.
           assert (existsb (String.eqb x) seen = true); [|congruence].
           apply existsb_exists. exists x. split; [exact Hin|apply String.eqb_refl].
        -- destruct (Hs y Hy) as [Hnot Hin]. split; [|now right].
           intros Hseen. apply Hnot. now right.
Qed.

End OrderFacts.

Module StringFacts.

Import JS JSFacts.

Lemma allb_impl (P Q : ascii -> bool) (s : string) :
  (forall c, P c = true -> Q c = true) -> allb P s = true -> allb Q s = true.
Proof.
  intros H. induction s as [|c s IH]; cbn [allb]; auto.
  intros Hs. apply andb_true_iff in Hs. destruct Hs as [Hc Hs].
  apply andb_true_iff. split; auto.
Qed.

Lemma allb_append (P : ascii -> bool) (a b : string) :
  allb P (a +++ b) = allb P a && allb P b.
Proof.
  induction a as [|c a IH]; cbn [String.append allb]; auto.
  now rewrite IH, andb_assoc.
Qed.

Lemma allb_and (P Q : ascii -> bool) (s : string) :
  allb (fun c => P c && Q c) s = allb P s && allb Q s.
Proof.
  induction s as [|c s IH]; cbn [allb]; auto.
  rewrite IH. destruct (P c), (Q c), (allb P s), (allb Q s); reflexivity.
Qed.

(** The pieces of a split hold no separator, and what holds of every
    character of the text holds of every character of a piece. *)
Lemma splitRuns_pieces (p Q : ascii -> bool) (s x : string) :
  In x (splitRuns p s) -> allb Q s = true ->
  allb (fun c => Q c && negb (p c)) x = true.
Proof.
  revert x. induction s as [|c s IH]; intros x; cbn [splitRuns].
  - intros [<-|[]] _. reflexivity.
  - intros Hin Hall. cbn [allb] in Hall. apply andb_true_iff in Hall.
    destruct Hall as [Hc Hs].
    destruct (p c) eqn:Epc.
    + destruct (startsWithChar p s).
      * now apply IH.
      * destruct Hin as [<-|Hin]; [reflexivity|now apply IH].
    + destruct (splitRuns p s) as [|h t] eqn:Er.
      * destruct Hin as [<-|[]]. cbn [allb]. now rewrite Hc, Epc.
      * destruct Hin as [<-|Hin].
        -- cbn [allb]. rewrite Hc, Epc. cbn [negb andb].
           apply IH; [now left|exact Hs].
        -- apply IH; [now right|exact Hs].
Qed.

Lemma splitRuns_nonempty (p : ascii -> bool) (s : string) : splitRuns p s <> [].
Proof.
  destruct s as [|c s]; cbn [splitRuns]; [discriminate|].
  destruct (p c).
  - destruct (startsWithChar p s); [|discriminate].
    revert c. induction s as [|d s IH]; intros c; cbn [splitRuns]; [discriminate|].
    destruct (p d).
    + destruct (startsWithChar p s); [apply (IH d)|discriminate].
    + destruct (splitRuns p s); discriminate.
  - destruct (splitRuns p s); discriminate.
Qed.

Lemma length_take (n : nat) (s : string) :
  String.length (take n s) = Nat.min n (String.length s).
Proof.
  revert s. induction n as [|n IH]; intros [|c s]; cbn [take String.length Nat.min]; auto.
Qed.

Lemma toLowerChar_idempotent (c : ascii) : toLowerChar (toLowerChar c) = toLowerChar c.
Proof. RegExpFacts.by_cases_on c. Qed.

Lemma toLowerCase_idempotent (s : string) : toLowerCase (toLowerCase s) = toLowerCase s.
Proof.
  induction s as [|c s IH]; cbn [toLowerCase]; auto.
  now rewrite toLowerChar_idempotent, IH.
Qed.

End StringFacts.

Module TrimFacts.

Import JS JSFacts ChunkerFacts.

Lemma allb_trimEnd_false (s : string) :
  allb isWhiteSpace s = false -> allb isWhiteSpace (trimEnd s) = false.
Proof.
  induction s as [|c s IH]; cbn [trimEnd]; [discriminate|].
  intros H. rewrite H. cbn [allb] in *.
  destruct (isWhiteSpace c); cbn [andb] in *; auto.
Qed.

Lemma trimEnd_idempotent (s : string) : trimEnd (trimEnd s) = trimEnd s.
Proof.
  induction s as [|c s IH]; cbn [trimEnd]; auto.
  destruct (allb isWhiteSpace (String c s)) eqn:E; [reflexivity|].
  cbn [trimEnd].
  assert (H : allb isWhiteSpace (String c (trimEnd s)) = false).
  { cbn [allb] in *. destruct (isWhiteSpace c); cbn [andb] in *; auto.
    now apply allb_trimEnd_false. }
  rewrite H. now rewrite IH.
Qed.

Lemma trim_idempotent (s : string) : trim (trim s) = trim s.
Proof.
  unfold trim at 1. rewrite (trimStart_id (trim s)) by apply trim_head.
  unfold trim. apply trimEnd_idempotent.
Qed.

Lemma allb_trimStart (P : ascii -> bool) (s : string) :
  allb P s = true -> allb P (trimStart s) = true.
Proof.
  induction s as [|c s IH]; cbn [trimStart]; auto.
  intros H. destruct (isWhiteSpace c); [|exact H].
  cbn [allb] in H. apply andb_true_iff in H. now apply IH.
Qed.

Lemma allb_trimEnd (P : ascii -> bool) (s : string) :
  allb P s = true -> allb P (trimEnd s) = true.
Proof.
  induction s as [|c s IH]; cbn [trimEnd]; auto.
  intros H. destruct (allb isWhiteSpace (String c s)); [reflexivity|].
  cbn [allb] in *. apply andb_true_iff in H. destruct H as [Hc Hs].
  rewrite Hc. now apply IH.
Qed.

Lemma allb_trim (P : ascii -> bool) (s : string) :
  allb P s = true -> allb P (trim s) = true.
Proof. intros H. unfold trim. now apply allb_trimEnd, allb_trimStart. Qed.

End TrimFacts.

(** ** The ranked list and the answer *)

Module SearchFacts.

Import Arr EnhancedQuestionAnswering QFacts ListFacts OrderFacts StringFacts.

Lemma stripped_char (c : ascii) :
  let l := JS.toLowerChar c in
  let d := if JS.isWordChar l || JS.isWhiteSpace l then l else " "%char in
  (JS.isWordChar d || JS.isWhiteSpace d) && negb (JS.isUpper d) = true.
Proof. RegExpFacts.by_cases_on c. Qed.

Lemma stripped_text (s : string) :
  JS.allb (fun c => (JS.isWordChar c || JS.isWhiteSpace c) && negb (JS.isUpper c))
          (stripPunctuation (JS.toLowerCase s)) = true.
Proof.
  induction s as [|c s IH]; cbn [JS.toLowerCase stripPunctuation JS.allb]; auto.
  rewrite IH, andb_true_r. apply stripped_char.
Qed.

Lemma word_char_of_piece (c : ascii) :
  ((JS.isWordChar c || JS.isWhiteSpace c) && negb (JS.isUpper c)) && negb (JS.isWhiteSpace c)
  = true ->
  JS.isWordChar c && negb (JS.isUpper c) = true.
Proof. RegExpFacts.by_cases_on c. Qed.

Lemma word_char_not_syntax (c : ascii) :
  JS.isWordChar c && negb (JS.isUpper c) = true -> negb (RegExp.isSyntaxChar c) = true.
Proof. RegExpFacts.by_cases_on c. Qed.

(** What the filter of [extractQueryTerms] keeps. *)
Lemma kept_term (query t : string) :
  In t (filter (fun word => negb (String.length word =? 0)
                            && (2 <? String.length word)
                            && negb (JS.arrayIncludes word stopWords))
          (JS.splitRuns JS.isWhiteSpace (stripPunctuation (JS.toLowerCase query)))) ->
  JS.allb (fun c => JS.isWordChar c && negb (JS.isUpper c)) t = true
  /\ 2 < String.length t /\ JS.arrayIncludes t stopWords = false.
Proof.
  intros Ht. apply filter_In in Ht. destruct Ht as [Hin Hp].
  apply andb_true_iff in Hp. destruct Hp as [Hp Hstop].
  apply andb_true_iff in Hp. destruct Hp as [_ Hlen].
  split; [|split; [now apply Nat.ltb_lt|now apply negb_true_iff]].
  apply allb_impl with (2 := splitRuns_pieces _ _ _ _ Hin (stripped_text query)).
  apply word_char_of_piece.
Qed.

Lemma query_term_chars (query t : string) :
  In t (extractQueryTerms query) ->
  JS.allb (fun c => JS.isWordChar c && negb (JS.isUpper c)) t = true
  /\ (t = "query" \/ (2 < String.length t /\ JS.arrayIncludes t stopWords = false)).
Proof.
  unfold extractQueryTerms. set (kept := filter _ _).
  assert (Hkept : forall x, In x (firstn 10 kept) ->
            JS.allb (fun c => JS.isWordChar c && negb (JS.isUpper c)) x = true
            /\ 2 < String.length x /\ JS.arrayIncludes x stopWords = false).
  { intros x Hx. apply firstn_incl in Hx. now apply kept_term with (query := query). }
  destruct (firstn 10 kept) as [|t0 ts] eqn:E.
  - intros [<-|[]]. split; [reflexivity|now left].
  - intros Hin. destruct (Hkept t Hin) as [H1 H2]. split; [exact H1|now right].
Qed.

(** X1.  The terms of a query: between one and ten, each made of
    lower-case word characters; a term is the placeholder or is longer
    than two characters and no stop word. *)
Theorem extractQueryTerms_shape (query : string) :
  1 <= length (extractQueryTerms query) <= 10
  /\ Forall (fun t =>
               JS.allb (fun c => JS.isWordChar c && negb (JS.isUpper c)) t = true
               /\ (t = "query"
                   \/ (2 < String.length t /\ JS.arrayIncludes t stopWords = false)))
            (extractQueryTerms query).
Proof.
  split.
  - unfold extractQueryTerms. set (kept := filter _ _).
    pose proof (firstn_le_length 10 kept) as Hle.
    destruct (firstn 10 kept) as [|t ts]; cbn [length] in *; lia.
  - apply Forall_forall. intros t Ht. now apply query_term_chars with (query := query).
Qed.

(** X2.  The pattern of a query term compiles, escaped or not: the
    escape leaves a term as it is. *)
Theorem query_term_pattern_compiles (query term : string) :
  In term (extractQueryTerms query) ->
  RegExp.escapeRegex term = term
  /\ RegExp.create (RegExp.bs_b +++ term +++ RegExp.bs_b)
     = RegExp.Pattern (RegExp.wordPattern term).
Proof.
  intros Hin. destruct (query_term_chars query term Hin) as [Hchars _].
  assert (Hesc : RegExp.escapeRegex term = term).
  { apply PDFProcessorFacts.escapeRegex_plain.
    apply allb_impl with (2 := Hchars). apply word_char_not_syntax. }
  split; [exact Hesc|].
  rewrite <- Hesc at 1. apply RegExpFacts.create_escaped.
Qed.

Lemma query_term_pattern_compiles_witness :
  RegExp.escapeRegex "rust" = "rust".
Proof.
  refine (proj1 (query_term_pattern_compiles "What is Rust?" "rust" _)).
  vm_compute. left. reflexivity.
Defined.

(** The hits of one document. *)
Lemma scoreDocument_hit (queryWords : list string) (d : ProcessedDocument) (r : ScoredChunk) :
  In r (scoreDocument queryWords d) ->
  hit_document r = d /\ status d = ready /\ In (hit_chunk r) (chunks d)
  /\ score r = calculateSemanticScore queryWords (hit_chunk r) d
  /\ (0 < score r)%Q.
Proof.
  unfold scoreDocument. destruct (status d) eqn:Es; cbn [status_eqb]; try (intros []).
  intros Hr. apply in_flat_map in Hr. destruct Hr as [c [Hc Hr]].
  destruct (Qltb 0 (calculateSemanticScore queryWords c d)) eqn:E; [|destruct Hr].
  destruct Hr as [<-|[]]. cbn [hit_document hit_chunk score].
  repeat split; auto. now apply Qltb_lt.
Qed.

(** X3.  The ranked list: at most eight hits, best first, each a chunk
    of a ready document of the library with its positive score. *)
Theorem performSemanticSearch_shape (query : string) (documents : list ProcessedDocument) :
  length (performSemanticSearch query documents) <= 8
  /\ StronglySorted (fun a b => (score b <= score a)%Q)
                    (performSemanticSearch query documents)
  /\ Forall (fun r =>
               In (hit_document r) documents
               /\ status (hit_document r) = ready
               /\ In (hit_chunk r) (chunks (hit_document r))
               /\ score r = calculateSemanticScore
                              (extractQueryTerms (JS.toLowerCase query))
                              (hit_chunk r) (hit_document r)
               /\ (0 < score r)%Q)
            (performSemanticSearch query documents).
Proof.
  unfold performSemanticSearch. split; [apply firstn_le_length|]. split.
  - apply firstn_StronglySorted. apply (sortBy_descending score).
  - apply Forall_forall. intros r Hr. apply firstn_incl in Hr. apply sortBy_In in Hr.
    apply in_flat_map in Hr. destruct Hr as [d [Hd Hr]].
    apply scoreDocument_hit in Hr. destruct Hr as [<- [Hs [Hc [Hsc Hpos]]]].
    repeat split; auto.
Qed.

Lemma positionWeight_ge_1 (n i : nat) : (1 <= 1 + ofNat (n - i) * (1 # 10))%Q.
Proof.
  rewrite <- (Qplus_0_r 1) at 1. apply Qplus_le_r.
  apply Qmult_le_0_compat; [apply ofNat_nonneg|qconst].
Qed.

Lemma wordScore_hit (n : nat) (lowered : string) (sc : Q) (w : string) (i : nat) :
  JS.includes w lowered = true -> (sc + 3 <= wordScore n lowered sc w i)%Q.
Proof.
  intros H. unfold wordScore. rewrite H.
  pose proof (positionWeight_ge_1 n i) as Hw.
  set (pw := (1 + ofNat (n - i) * (1 # 10))%Q) in *.
  assert (H3 : (sc + 3 <= sc + 3 * pw)%Q).
  { apply Qplus_le_r. rewrite <- (Qmult_1_r 3) at 1.
    apply Qmult_le_l; [qconst|exact Hw]. }
  destruct (wordRegexTest w lowered); [|exact H3].
  apply Qle_trans with (1 := H3).
  rewrite <- (Qplus_0_r (sc + 3 * pw)) at 1. apply Qplus_le_r.
  apply Qmult_le_0_compat; [qconst|]. apply Qle_trans with (2 := Hw). qconst.
Qed.

Lemma wordScore_mono (n : nat) (lowered : string) (sc : Q) (w : string) (i : nat) :
  (sc <= wordScore n lowered sc w i)%Q.
Proof.
  destruct (JS.includes w lowered) eqn:H.
  - apply Qle_trans with (2 := wordScore_hit n lowered sc w i H).
    rewrite <- (Qplus_0_r sc) at 1. apply Qplus_le_r. qconst.
  - unfold wordScore. rewrite H. apply Qle_refl.
Qed.

Lemma forEachIndexed_mono (n : nat) (lowered : string) (words : list string) :
  forall (i : nat) (s : Q), (s <= forEachIndexed (wordScore n lowered) words i s)%Q.
Proof.
  induction words as [|w words IH]; intros i s; cbn [forEachIndexed]; [apply Qle_refl|].
  apply Qle_trans with (2 := IH (S i) _). apply wordScore_mono.
Qed.

Lemma forEachIndexed_hit (n : nat) (lowered : string) (words : list string) (t : string) :
  In t words -> JS.includes t lowered = true ->
  forall (i : nat) (s : Q), (s + 3 <= forEachIndexed (wordScore n lowered) words i s)%Q.
Proof.
  intros Hin Ht. induction words as [|w words IH]; [destruct Hin|].
  intros i s. cbn [forEachIndexed]. destruct Hin as [->|Hin].
  - apply Qle_trans with (2 := forEachIndexed_mono n lowered words (S i) _).
    now apply wordScore_hit.
  - apply Qle_trans with (2 := IH Hin (S i) _).
    apply Qplus_le_l. apply wordScore_mono.
Qed.

Lemma contextual_loop_mono (query text : string) (l : list ContextPattern) :
  Forall (fun p => (0 <= weight p)%Q) l ->
  forall s : Q,
    (s <= fold_left
            (fun sc p =>
               if testAny (queryPattern p) query && testAny (contentPattern p) text
               then (sc + weight p)%Q else sc) l s)%Q.
Proof.
  induction 1 as [|p l Hp Hl IH]; intros s; cbn [fold_left]; [apply Qle_refl|].
  apply Qle_trans with (2 := IH _).
  destruct (_ && _); [|apply Qle_refl].
  rewrite <- (Qplus_0_r s) at 1. now apply Qplus_le_r.
Qed.

Lemma getContextualScore_nonneg (query text : string) :
  (0 <= getContextualScore query text)%Q.
Proof.
  unfold getContextualScore. apply contextual_loop_mono.
  unfold patterns. repeat constructor; cbn [weight]; qconst.
Qed.

Lemma title_loop_mono (documentName : string) (words : list string) :
  forall s : Q,
    (s <= fold_left (fun sc word => if JS.includes word documentName then (sc + 1)%Q else sc)
                    words s)%Q.
Proof.
  induction words as [|w words IH]; intros s; cbn [fold_left]; [apply Qle_refl|].
  apply Qle_trans with (2 := IH _).
  destruct (JS.includes w documentName); [|apply Qle_refl].
  rewrite <- (Qplus_0_r s) at 1. apply Qplus_le_r. qconst.
Qed.

Lemma calculateSemanticScore_hit (queryWords : list string) (c : TextChunk)
      (d : ProcessedDocument) (t : string) :
  In t queryWords -> JS.includes t (JS.toLowerCase (content c)) = true ->
  (3 <= calculateSemanticScore queryWords c d)%Q.
Proof.
  intros Hin Ht. unfold calculateSemanticScore.
  apply Qle_trans with (2 := title_loop_mono _ _ _).
  set (lowered := JS.toLowerCase (content c)) in *.
  set (s0 := if JS.includes (JS.join " " queryWords) lowered then 10%Q else 0%Q).
  pose proof (forEachIndexed_hit (length queryWords) lowered queryWords t Hin Ht 0 s0) as H1.
  set (s1 := forEachIndexed _ _ _ _) in *.
  assert (H0 : (0 <= s0)%Q)
    by (subst s0; destruct (JS.includes (JS.join " " queryWords) lowered); qconst).
  assert (H3 : (3 <= s1)%Q).
  { apply Qle_trans with (2 := H1). rewrite <- (Qplus_0_l 3) at 1. now apply Qplus_le_l. }
  pose proof (getContextualScore_nonneg (JS.join " " queryWords) lowered) as Hc.
  assert (Hd : (0 <= ofNat (count (fun word => JS.includes word lowered) queryWords)
                     / ofNat (Nat.max (length (JS.splitRuns JS.isWhiteSpace lowered)) 1) * 5)%Q).
  { apply Qmult_le_0_compat; [apply fraction_nonneg|qconst]. }
  rewrite <- (Qplus_0_r 3). apply Qplus_le_compat; [|exact Hd].
  rewrite <- (Qplus_0_r 3). apply Qplus_le_compat; [exact H3|exact Hc].
Qed.

(** X4.  A chunk of a ready document that holds a term of the query is
    worth at least three points, so the search finds something and the
    answer names a source. *)
Theorem search_finds_matching_chunk (query : string) (documents : list ProcessedDocument)
        (d : ProcessedDocument) (c : TextChunk) (t : string) :
  In d documents -> status d = ready -> In c (chunks d) ->
  In t (extractQueryTerms (JS.toLowerCase query)) ->
  JS.includes t (JS.toLowerCase (content c)) = true ->
  (3 <= calculateSemanticScore (extractQueryTerms (JS.toLowerCase query)) c d)%Q
  /\ performSemanticSearch query documents <> []
  /\ sources (generateAnswer query documents) <> [].
Proof.
  intros Hd Hs Hc Ht Hinc.
  pose proof (calculateSemanticScore_hit _ c d t Ht Hinc) as H3.
  assert (Hfound : performSemanticSearch query documents <> []).
  { unfold performSemanticSearch.
    set (queryWords := extractQueryTerms (JS.toLowerCase query)) in *.
    assert (Hin : In (mkScored c (calculateSemanticScore queryWords c d) d)
                     (sortBy byScoreDescending (flat_map (scoreDocument queryWords) documents))).
    { apply In_sortBy. apply in_flat_map. exists d. split; [exact Hd|].
      unfold scoreDocument. rewrite Hs. cbn [status_eqb].
      apply in_flat_map. exists c. split; [exact Hc|].
      assert (Hpos : Qltb 0 (calculateSemanticScore queryWords c d) = true).
      { apply Qltb_lt. apply Qlt_le_trans with (2 := H3). qconst. }
      rewrite Hpos. now left. }
    destruct (sortBy _ _) as [|r rs]; [destruct Hin|]. cbn [firstn]. discriminate. }
  split; [exact H3|]. split; [exact Hfound|].
  unfold generateAnswer.
  destruct (performSemanticSearch query documents) as [|r rs]; [congruence|].
  cbn [length Nat.eqb sources formatSources firstn map]. discriminate.
Qed.

Lemma search_finds_matching_chunk_witness :
  performSemanticSearch "What is Rust?"
    [Spec.readyDocument "doc1" "notes.pdf" "Rust is a language."] <> [].
Proof.
  refine (proj1 (proj2
            (search_finds_matching_chunk "What is Rust?"
               [Spec.readyDocument "doc1" "notes.pdf" "Rust is a language."]
               (Spec.readyDocument "doc1" "notes.pdf" "Rust is a language.")
               (mkChunk "Rust is a language." 1 0 ["rust"; "language."])
               "rust" _ _ _ _ _))).
  - left. reflexivity.
  - reflexivity.
  - vm_compute. left. reflexivity.
  - vm_compute. left. reflexivity.
  - vm_compute. reflexivity.
Defined.

Lemma length_excerptOf (limit : nat) (text : string) :
  String.length (excerptOf limit text) <= limit + 3.
Proof.
  unfold excerptOf. destruct (Nat.ltb_spec limit (String.length text)).
  - rewrite JSFacts.length_append, length_take. cbn [String.length]. lia.
  - lia.
Qed.

Lemma formatSources_shape (results : list ScoredChunk) :
  length (formatSources results) <= 3
  /\ Forall (fun s => String.length (src_excerpt s) <= 153) (formatSources results).
Proof.
  unfold formatSources. split; [rewrite length_map; apply firstn_le_length|].
  apply Forall_forall. intros s Hs. apply in_map_iff in Hs.
  destruct Hs as [r [<- Hr]]. cbn [src_excerpt]. apply (length_excerptOf 150).
Qed.

Lemma followUps_shape (query : string) (results : list ScoredChunk) :
  1 <= length (generateContextualFollowUps query results) <= 4
  /\ NoDup (generateContextualFollowUps query results).
Proof.
  unfold generateContextualFollowUps.
  set (l := _ ++ ["Can you provide more details about this topic?";
                  "What else should I know about this subject?"]).
  split.
  - split; [|apply firstn_le_length].
    assert (Hl : l <> []).
    { subst l. intros H. apply app_eq_nil in H. destruct H. discriminate. }
    destruct l as [|x l']; [congruence|]. cbn [unique JS.arrayIncludes existsb firstn length].
    lia.
  - apply NoDup_firstn. apply unique_spec.
Qed.

(** X5.  Whatever the question and the library, an answer carries a
    confidence between 0 and 1, at most three sources with excerpts of
    at most 153 characters, and between one and four follow-up
    questions, none twice. *)
Theorem generateAnswer_shape (query : string) (documents : list ProcessedDocument) :
  (0 <= confidence (generateAnswer query documents) <= 1)%Q
  /\ length (sources (generateAnswer query documents)) <= 3
  /\ Forall (fun s => String.length (src_excerpt s) <= 153)
            (sources (generateAnswer query documents))
  /\ 1 <= length (suggestedFollowUps (generateAnswer query documents)) <= 4
  /\ NoDup (suggestedFollowUps (generateAnswer query documents)).
Proof.
  split; [apply RetrievalFacts.generateAnswer_confidence_bounds|].
  unfold generateAnswer.
  destruct (length (performSemanticSearch query documents) =? 0).
  - cbn [sources suggestedFollowUps generateGenericFollowUps length].
    split; [lia|]. split; [constructor|]. split; [lia|].
    repeat (constructor; [cbn [In]; intuition discriminate|]). constructor.
  - cbn [sources suggestedFollowUps].
    destruct (formatSources_shape (performSemanticSearch query documents)) as [H1 H2].
    destruct (followUps_shape query (performSemanticSearch query documents)) as [H3 H4].
    split; [exact H1|]. split; [exact H2|]. split; assumption.
Qed.

End SearchFacts.

(** ** The fallback search *)

Module FallbackFacts.

Import Arr PDFProcessor QFacts ListFacts OrderFacts.

Lemma foldRun_invariant {A St} (P : St -> Prop) (f : St -> A -> Run St) (l : list A) :
  (forall s x s', In x l -> P s -> f s x = Some (Returns s') -> P s') ->
  forall s s', P s -> foldRun f l s = Some (Returns s') -> P s'.
Proof.
  induction l as [|x l IH]; intros Hstep s s' Hs; cbn [foldRun].
  - now intros [= <-].
  - destruct (f s x) as [[s1|e]|] eqn:E; cbn [andThen]; try discriminate.
    apply IH.
    + intros s2 y s3 Hy. apply Hstep. now right.
    + apply (Hstep s x s1); [now left|exact Hs|exact E].
Qed.

(** X6.  The ranked list of the fallback search, when the search
    settles: at most six hits, best first, each a chunk of a ready
    document of the map with a positive score. *)
Theorem searchDocuments_shape (m : Store) (query : string) (results : list ScoredChunk) :
  searchDocuments m query = Some (Returns results) ->
  length results <= 6
  /\ StronglySorted (fun a b => (score b <= score a)%Q) results
  /\ Forall (fun r =>
               In (hit_document r) (getAllDocuments m)
               /\ status (hit_document r) = ready
               /\ In (hit_chunk r) (chunks (hit_document r))
               /\ (0 < score r)%Q)
            results.
Proof.
  unfold searchDocuments.
  destruct (expandSearchTerms _) as [expanded|e]; cbn [andThen]; [|discriminate].
  match goal with
  | |- andThen (foldRun ?f ?l ?s0) ?k = _ -> _ =>
      destruct (foldRun f l s0) as [[found|e]|] eqn:E; cbn [andThen]; try discriminate
  end.
  intros H.
  replace results
    with (firstn 6 (sortBy EnhancedQuestionAnswering.byScoreDescending found))
    by congruence.
  clear H. split; [apply firstn_le_length|]. split.
  - apply firstn_StronglySorted. apply (sortBy_descending score).
  - apply Forall_forall. intros r Hr. apply firstn_incl in Hr. apply sortBy_In in Hr.
    revert r Hr. apply Forall_forall.
    revert E. apply foldRun_invariant; [|constructor].
    intros acc doc acc' Hdoc Hacc.
    destruct (status doc) eqn:Es; cbn [status_eqb]; try (now intros [= <-]).
    apply foldRun_invariant; [|exact Hacc].
    intros acc1 chunk acc2 Hchunk Hacc1.
    destruct (scoreChunk _ _ _ chunk) as [[sc|e]|]; cbn [andThen]; try discriminate.
    intros [= <-]. destruct (Qltb 0 sc) eqn:Epos; [|exact Hacc1].
    apply Forall_app. split; [exact Hacc1|]. constructor; [|constructor].
    cbn [hit_document hit_chunk score]. repeat split; auto. now apply Qltb_lt.
Qed.

Lemma searchDocuments_shape_witness :
  exists results,
    searchDocuments [("doc1", Spec.readyDocument "doc1" "notes.pdf" "Rust is a language.")]
                    "rust language"
    = Some (Returns results)
    /\ length results <= 6.
Proof.
  eexists. split.
  - vm_compute. reflexivity.
  - refine (proj1 (searchDocuments_shape
                     [("doc1", Spec.readyDocument "doc1" "notes.pdf" "Rust is a language.")]
                     "rust language" _ _)).
    vm_compute. reflexivity.
Defined.

(** X7.  A question whose words hold no syntax character of the
    pattern grammar and are no inherited property name is answered:
    the API returns data, whether the enhanced module loads or not. *)
Theorem askQuestion_answers_plain_words (moduleLoad : Exc unit) (m : Store)
        (question : string) :
  Forall (fun w => Spec.plainWord w = true) (queryWordsOf (JS.toLowerCase question)) ->
  exists r, Api.askQuestion moduleLoad m question = Some (Api.data r).
Proof.
  intros Hplain. unfold Api.askQuestion.
  destruct (PDFProcessorFacts.generateAnswer_returns_on_plain_words moduleLoad m question Hplain)
    as [r ->].
  exists r. reflexivity.
Qed.

Lemma askQuestion_answers_plain_words_witness :
  exists r,
    Api.askQuestion Spec.moduleMissing
      [("doc1", Spec.readyDocument "doc1" "notes.pdf" "Rust is a language.")]
      "what is rust"
    = Some (Api.data r).
Proof.
  apply askQuestion_answers_plain_words.
  vm_compute. repeat constructor.
Defined.

End FallbackFacts.

(** ** The chunker *)

Module ChunkFacts.

Import Chunker JSFacts ChunkerFacts OrderFacts StringFacts TrimFacts.

Lemma extractKeywords_shape (text : string) :
  length (extractKeywords text) <= 20
  /\ Forall (fun k => 3 < String.length k /\ isPureNumber k = false) (extractKeywords text).
Proof.
  unfold extractKeywords. split; [apply firstn_le_length|].
  apply Forall_forall. intros k Hk. apply ListFacts.firstn_incl in Hk.
  apply filter_In in Hk. destruct Hk as [Hk Hnum].
  apply filter_In in Hk. destruct Hk as [_ Hlen].
  split; [now apply Nat.ltb_lt|now apply negb_true_iff].
Qed.

Section Page.

Variable pages : list ExtractedPage.
Variable maxChunkSize : nat.
Variable p : ExtractedPage.
Hypothesis p_in : In p pages.
Hypothesis p_text : page_text p <> "".

(** The buffer between two sentences: empty, or closed by a full stop
    and a space and not opened by white space. *)
Let bufferShape (b : string) : Prop :=
  b = "" \/ exists x, b = x +++ ". " /\ JS.startsWithChar JS.isWhiteSpace b = false.

Let stateShape (st : LoopState) : Prop :=
  Forall (Spec.chunkFrom pages) (chunks st) /\ bufferShape (currentChunk st).

Lemma flush_shape (st : LoopState) (next : string) :
  stateShape st -> currentChunk st <> "" -> bufferShape next ->
  stateShape (flush (page_number p) st next).
Proof.
  intros [Hc Hb] Hne Hnext. split; [|exact Hnext].
  cbn [flush chunks]. apply Forall_app. split; [exact Hc|].
  constructor; [|constructor].
  destruct Hb as [Hb|[x [Hx Hhead]]]; [congruence|].
  unfold Spec.chunkFrom. cbn [content page keywords].
  rewrite Hx in Hhead. destruct (trim_buffer x Hhead) as [Htrim _].
  rewrite Hx, Htrim.
  split; [destruct x; discriminate|].
  split; [rewrite <- Htrim; apply trim_idempotent|].
  split; [exists p; auto|].
  apply extractKeywords_shape.
Qed.

Lemma fresh_buffer (s : string) :
  String.length (JS.trim s) <> 0 -> bufferShape (JS.trim s +++ ". ").
Proof.
  intros Hlen. right. exists (JS.trim s). split; [reflexivity|].
  apply head_append; [apply trim_head|].
  intros E. rewrite E in Hlen. now apply Hlen.
Qed.

Lemma addSentence_shape (st : LoopState) (s : string) :
  stateShape st -> stateShape (addSentence maxChunkSize (page_number p) st s).
Proof.
  intros Hst. unfold addSentence.
  destruct (Nat.eqb_spec (String.length (JS.trim s)) 0) as [E|E]; [exact Hst|].
  destruct (_ && _) eqn:Ec.
  - apply andb_true_iff in Ec. destruct Ec as [_ Hpos]. apply Nat.ltb_lt in Hpos.
    apply flush_shape; [exact Hst| |now apply fresh_buffer].
    intros E0. rewrite E0 in Hpos. cbn in Hpos. lia.
  - destruct Hst as [Hc Hb]. split; [exact Hc|]. cbn [currentChunk].
    destruct Hb as [->|[x [Hx Hhead]]]; [now apply fresh_buffer|].
    right. exists (currentChunk st +++ JS.trim s). split.
    + now rewrite append_assoc.
    + apply head_append; [exact Hhead|]. rewrite Hx. destruct x; discriminate.
Qed.

Lemma addPage_shape (acc : list TextChunk * nat) :
  Forall (Spec.chunkFrom pages) (fst acc) ->
  Forall (Spec.chunkFrom pages) (fst (addPage maxChunkSize acc p)).
Proof.
  intros Hacc. unfold addPage.
  destruct (String.length (page_text p) =? 0); [exact Hacc|].
  match goal with
  | |- context [fold_left ?f ?l ?s0] =>
      assert (Hst : stateShape (fold_left f l s0))
  end.
  { apply fold_left_invariant.
    - intros st s _. apply addSentence_shape.
    - split; [exact Hacc|now left]. }
  match type of Hst with stateShape ?st => set (final := st) in * end.
  destruct (Nat.ltb_spec 0 (String.length (JS.trim (currentChunk final)))) as [Hpos|Hz].
  - cbv zeta. cbn [fst].
    apply flush_shape; [exact Hst| |now left].
    intros E. rewrite E in Hpos. cbn in Hpos. lia.
  - cbn [fst]. apply Hst.
Qed.

End Page.

(** X8.  Every chunk has a trimmed text that is not empty, the number
    of a page that has text, and at most twenty keywords, each longer
    than three characters and not a number. *)
Theorem chunks_come_from_pages (pages : list ExtractedPage) (maxChunkSize : nat) :
  Forall (Spec.chunkFrom pages) (createTextChunks pages maxChunkSize).
Proof.
  unfold createTextChunks.
  apply (fold_left_invariant (fun acc => Forall (Spec.chunkFrom pages) (fst acc))).
  - intros acc p Hp Hacc. unfold addPage.
    destruct (Nat.eqb_spec (String.length (page_text p)) 0) as [E|E]; [exact Hacc|].
    assert (Htext : page_text p <> "") by (intros E0; rewrite E0 in E; now apply E).
    pose proof (addPage_shape pages maxChunkSize p Hp Htext acc Hacc) as H.
    unfold addPage in H.
    destruct (Nat.eqb_spec (String.length (page_text p)) 0); [contradiction|exact H].
  - constructor.
Qed.

Lemma flush_numbered (pg : Z) (st : LoopState) (next : string) :
  map chunkIndex (chunks st) = seq 0 (length (chunks st)) /\ nextIndex st = length (chunks st) ->
  map chunkIndex (chunks (flush pg st next)) = seq 0 (length (chunks (flush pg st next)))
  /\ nextIndex (flush pg st next) = length (chunks (flush pg st next)).
Proof.
  intros [Hm Hn]. cbn [flush chunks nextIndex].
  rewrite map_app, length_app, Hm. cbn [map length chunkIndex].
  rewrite Nat.add_1_r, seq_S, Hn. split; reflexivity.
Qed.

Lemma addSentence_numbered (maxChunkSize : nat) (pg : Z) (st : LoopState) (s : string) :
  map chunkIndex (chunks st) = seq 0 (length (chunks st)) /\ nextIndex st = length (chunks st) ->
  map chunkIndex (chunks (addSentence maxChunkSize pg st s))
  = seq 0 (length (chunks (addSentence maxChunkSize pg st s)))
  /\ nextIndex (addSentence maxChunkSize pg st s)
     = length (chunks (addSentence maxChunkSize pg st s)).
Proof.
  intros H. unfold addSentence.
  destruct (String.length (JS.trim s) =? 0); [exact H|].
  destruct (_ && _); [now apply flush_numbered|exact H].
Qed.

(** X9.  The chunks of a document are numbered 0, 1, 2, ... in the
    order they were cut, across the pages. *)
Theorem chunk_indices_consecutive (pages : list ExtractedPage) (maxChunkSize : nat) :
  map chunkIndex (createTextChunks pages maxChunkSize)
  = seq 0 (length (createTextChunks pages maxChunkSize)).
Proof.
  unfold createTextChunks.
  apply (fold_left_invariant
           (fun acc => map chunkIndex (fst acc) = seq 0 (length (fst acc))
                       /\ snd acc = length (fst acc))); [|split; reflexivity].
  intros acc p _ Hacc. unfold addPage.
  destruct (String.length (page_text p) =? 0); [exact Hacc|].
  match goal with
  | |- context [fold_left ?f ?l ?s0] =>
      assert (Hst : map chunkIndex (chunks (fold_left f l s0))
                    = seq 0 (length (chunks (fold_left f l s0)))
                    /\ nextIndex (fold_left f l s0) = length (chunks (fold_left f l s0)))
  end.
  { apply (fold_left_invariant
             (fun st => map chunkIndex (chunks st) = seq 0 (length (chunks st))
                        /\ nextIndex st = length (chunks st))).
    - intros st s _. apply addSentence_numbered.
    - exact Hacc. }
  destruct (0 <? String.length (JS.trim (currentChunk _))).
  - cbv zeta. cbn [fst snd]. now apply flush_numbered.
  - cbn [fst snd]. exact Hst.
Qed.

End ChunkFacts.

Module DocumentFacts.

(** X10.  The chunks of a document that was processed are those of its
    cleaned pages under the bound of 500: each is at most 501
    characters long or is a single sentence of a page. *)
Theorem document_chunks_within_slack (m : PDFProcessor.Store) (file : PDFProcessor.File)
        (id : string) (now : Z) (x : PDFProcessor.ExtractedTextData) :
  exists d,
    PDFProcessor.getDocument (fst (PDFProcessor.processFile m file id now (Returns x))) id
    = Some d
    /\ pages d
       = map (fun p => mkPage (page_number p) (TextProcessor.quickClean (page_text p)))
             (PDFProcessor.extracted_pages x)
    /\ Forall (Spec.withinSlack (pages d) Chunker.defaultMaxChunkSize) (chunks d).
Proof.
  unfold PDFProcessor.processFile. cbv beta iota zeta. cbn [fst].
  eexists. split; [apply PDFProcessorFacts.getDocument_set_same|].
  cbn [pages chunks]. split; [reflexivity|].
  apply ChunkerFacts.chunk_size_within_slack.
Qed.

End DocumentFacts.

(** ** Cleaning *)

Module CleaningFacts.

Import Arr TextProcessor JSFacts StringFacts TrimFacts QFacts.

(** The text that the pipeline returns, stage by stage. *)
Lemma processText_cleanedText (text : string) (options : TextProcessingOptions) :
  cleanedText (processText text options)
  = (let t1 := if setting (fixEncoding options) true then fixEncodingIssues text else text in
     let t2 := if setting (removeOCRErrors options) true then correctOCRErrors t1 else t1 in
     let t3 := if setting (normalizeWhitespaceOpt options) true
               then normalizeWhitespace t2 else t2 in
     let t4 := if setting (standardizeFormattingOpt options) true
               then standardizeFormatting t3 else t3 in
     if setting (expandAcronymsOpt options) false then expandAcronyms t4 else t4).
Proof.
  unfold processText, processTextWith, pipeline, stages, step, configOf, enabled.
  cbn [run_fixEncodingIssues run_correctOCRErrors run_normalizeWhitespace
       run_standardizeFormatting run_expandAcronyms run_extractDocumentStructure
       run_calculateTextQuality fixEncoding removeOCRErrors normalizeWhitespaceOpt
       standardizeFormattingOpt expandAcronymsOpt preserveStructure setting].
  destruct (setting (fixEncoding options) true),
           (setting (removeOCRErrors options) true),
           (setting (normalizeWhitespaceOpt options) true),
           (setting (standardizeFormattingOpt options) true),
           (setting (expandAcronymsOpt options) false),
           (setting (preserveStructure options) true);
    cbn [bind tryCatch fst snd cleanedText]; reflexivity.
Qed.

(** X11.  The presets clean alike: the text prepared for questions is
    the quickly cleaned text, which is also what the defaults give;
    the academic preset expands the acronyms of it. *)
Theorem cleaning_presets_agree (text : string) :
  quickClean text
  = standardizeFormatting (normalizeWhitespace (correctOCRErrors (fixEncodingIssues text)))
  /\ fst (fst (prepareForQA text)) = quickClean text
  /\ cleanedText (academicClean text) = expandAcronyms (quickClean text)
  /\ cleanedText (processText text noOptions) = quickClean text.
Proof.
  unfold quickClean, prepareForQA, academicClean. cbn [fst].
  rewrite !processText_cleanedText. repeat split.
Qed.

Lemma replaceAllBy_allb (P : ascii -> bool) (m : string -> option (string * nat)) :
  (forall s r n, JS.allb P s = true -> m s = Some (r, n) -> JS.allb P r = true) ->
  forall s k, JS.allb P s = true -> JS.allb P (replaceAllBy m k s) = true.
Proof.
  intros Hm. induction s as [|c s IH]; intros k Hs; cbn [replaceAllBy]; auto.
  pose proof Hs as Hcs. cbn [JS.allb] in Hcs. apply andb_true_iff in Hcs.
  destruct Hcs as [Hc Hs'].
  destruct k as [|k]; [|now apply IH].
  destruct (m (String c s)) as [[r n]|] eqn:E.
  - rewrite allb_append, (Hm _ _ _ Hs E). now apply IH.
  - cbn [JS.allb]. rewrite Hc. now apply IH.
Qed.

Lemma replaceAllBy_removes (P : ascii -> bool) (m : string -> option (string * nat)) :
  (forall s r n, m s = Some (r, n) -> JS.allb P r = true) ->
  (forall c s, m (String c s) = None -> P c = true) ->
  forall s k, JS.allb P (replaceAllBy m k s) = true.
Proof.
  intros Hm Hnone. induction s as [|c s IH]; intros k; cbn [replaceAllBy]; auto.
  destruct k as [|k]; [|apply IH].
  destruct (m (String c s)) as [[r n]|] eqn:E.
  - rewrite allb_append, (Hm _ _ _ E). apply IH.
  - cbn [JS.allb]. rewrite (Hnone _ _ E). apply IH.
Qed.

Lemma span_append (p : ascii -> bool) (s : string) :
  s = fst (span p s) +++ snd (span p s).
Proof.
  induction s as [|c s IH]; cbn [span]; auto.
  destruct (p c); [|reflexivity].
  destruct (span p s) as [a b]. cbn [fst snd String.append] in *. now f_equal.
Qed.

Lemma span_rest (P p : ascii -> bool) (s : string) :
  JS.allb P s = true -> JS.allb P (snd (span p s)) = true.
Proof.
  intros H. rewrite (span_append p s), allb_append in H.
  now apply andb_true_iff in H.
Qed.

Lemma span_head (p : ascii -> bool) (c : ascii) (s : string) :
  p c = true -> 1 <= String.length (fst (span p (String c s))).
Proof.
  intros H. cbn [span]. rewrite H. destruct (span p s). cbn [fst String.length]. lia.
Qed.

(** A replacement by a fixed text. *)
Lemma runOf_fixed (P p : ascii -> bool) (atLeast : nat) (to s r : string) (n : nat) :
  JS.allb P to = true -> runOf p atLeast to s = Some (r, n) -> JS.allb P r = true.
Proof.
  intros Hto. unfold runOf. destruct (span p s) as [a b].
  destruct (atLeast <=? String.length a); [|discriminate]. now intros [= <- _].
Qed.

Lemma literal_fixed (P : ascii -> bool) (from to s r : string) (n : nat) :
  JS.allb P to = true -> literal from to s = Some (r, n) -> JS.allb P r = true.
Proof.
  intros Hto. unfold literal. destruct (prefix from s); [|discriminate]. now intros [= <- _].
Qed.

Lemma trailingBlanks_fixed (P : ascii -> bool) (s r : string) (n : nat) :
  trailingBlanks s = Some (r, n) -> JS.allb P r = true.
Proof.
  unfold trailingBlanks. destruct (span isBlank s) as [a b].
  destruct (_ && _); [|discriminate]. now intros [= <- _].
Qed.

Lemma spaceBeforePunct_kept (P : ascii -> bool) (s r : string) (n : nat) :
  JS.allb P s = true -> spaceBeforePunct s = Some (r, n) -> JS.allb P r = true.
Proof.
  intros Hs. unfold spaceBeforePunct.
  pose proof (span_rest P JS.isWhiteSpace s Hs) as Hrest.
  destruct (span JS.isWhiteSpace s) as [a b]. cbn [snd] in Hrest.
  destruct b as [|c b]; [discriminate|].
  destruct (_ && _); [|discriminate]. intros [= <- _].
  cbn [JS.allb str1] in *. apply andb_true_iff in Hrest. destruct Hrest as [-> _].
  reflexivity.
Qed.

Lemma gluedSentence_kept (P : ascii -> bool) (s r : string) (n : nat) :
  P " "%char = true ->
  JS.allb P s = true -> gluedSentence s = Some (r, n) -> JS.allb P r = true.
Proof.
  intros Hsp Hs. unfold gluedSentence.
  destruct s as [|t [|u s]]; try discriminate.
  destruct (_ && _); [|discriminate]. intros [= <- _].
  cbn [JS.allb str1] in *. apply andb_true_iff in Hs. destruct Hs as [Ht Hs].
  apply andb_true_iff in Hs. destruct Hs as [Hu _]. now rewrite Ht, Hsp, Hu.
Qed.

Lemma not_blank_not_tab (c : ascii) : isBlank c = false -> negb (isCode 9 c) = true.
Proof. RegExpFacts.by_cases_on c. Qed.

Lemma no_tab_left (text : string) :
  JS.allb (fun c => negb (isCode 9 c)) (replaceAllBy (runOf isBlank 1 " ") 0 text) = true.
Proof.
  apply replaceAllBy_removes.
  - intros s r n. now apply runOf_fixed.
  - intros c s H. apply not_blank_not_tab.
    destruct (isBlank c) eqn:E; [|reflexivity].
    pose proof (span_head isBlank c s E) as Hlen.
    unfold runOf in H. destruct (span isBlank (String c s)) as [a b]. cbn [fst] in Hlen.
    destruct (Nat.leb_spec 1 (String.length a)); [discriminate|lia].
Qed.

Lemma no_cr_left (text : string) :
  JS.allb (fun c => negb (isCode 13 c)) (replaceAllBy (literal cr JS.nl) 0 text) = true.
Proof.
  apply replaceAllBy_removes.
  - intros s r n. now apply literal_fixed.
  - intros c s. unfold literal, cr, str1. cbn [prefix].
    destruct (ascii_dec (ascii_of_N 13) c) as [<-|Hne]; [destruct s; discriminate|].
    intros _.
    destruct c as [[] [] [] [] [] [] [] []]; try reflexivity.
    exfalso. apply Hne. reflexivity.
Qed.

(** The steps of [normalizeWhitespace] after the blanks were merged
    keep what holds of every character and of the line feed. *)
Lemma normalizeWhitespace_keeps (P : ascii -> bool) (text : string) :
  P (ascii_of_N 10) = true ->
  JS.allb P (replaceAllBy (runOf isBlank 1 " ") 0 text) = true ->
  JS.allb P (replaceAllBy (literal cr JS.nl) 0
               (replaceAllBy (literal (cr +++ JS.nl) JS.nl) 0
                  (replaceAllBy (runOf isBlank 1 " ") 0 text))) = true ->
  JS.allb P (normalizeWhitespace text) = true.
Proof.
  intros Hnl H1 H3. unfold normalizeWhitespace. apply allb_trim.
  apply replaceAllBy_allb; [intros s r n _; apply trailingBlanks_fixed|].
  apply replaceAllBy_allb; [|exact H3].
  intros s r n _. apply runOf_fixed. cbn [JS.nl String.append JS.allb]. now rewrite Hnl.
Qed.

Lemma normalizeWhitespace_no_tab (text : string) :
  JS.allb (fun c => negb (isCode 9 c) && negb (isCode 13 c)) (normalizeWhitespace text) = true.
Proof.
  rewrite allb_and. apply andb_true_iff. split.
  - apply normalizeWhitespace_keeps; [reflexivity|apply no_tab_left|].
    apply replaceAllBy_allb; [intros s r n _; now apply literal_fixed|].
    apply replaceAllBy_allb; [intros s r n _; now apply literal_fixed|].
    apply no_tab_left.
  - assert (H3 : JS.allb (fun c => negb (isCode 13 c))
                   (replaceAllBy (literal cr JS.nl) 0
                      (replaceAllBy (literal (cr +++ JS.nl) JS.nl) 0
                         (replaceAllBy (runOf isBlank 1 " ") 0 text))) = true)
      by apply no_cr_left.
    unfold normalizeWhitespace. apply allb_trim.
    apply replaceAllBy_allb; [intros s r n _; apply trailingBlanks_fixed|].
    apply replaceAllBy_allb; [|exact H3].
    intros s r n _. now apply runOf_fixed.
Qed.

Lemma oneOf_fixed (P : ascii -> bool) (class : list string) (to s r : string) (n : nat) :
  JS.allb P to = true -> oneOf class to s = Some (r, n) -> JS.allb P r = true.
Proof.
  intros Hto. unfold oneOf.
  destruct (find (fun character => prefix character s) class); [|discriminate].
  now intros [= <- _].
Qed.

Lemma standardizeFormatting_keeps (P : ascii -> bool) (text : string) :
  P " "%char = true -> P "."%char = true -> P "!"%char = true -> P "?"%char = true ->
  JS.allb P ellipsis = true -> JS.allb P bullet = true ->
  JS.allb P text = true -> JS.allb P (standardizeFormatting text) = true.
Proof.
  intros Hsp Hdot Hbang Hq Hell Hbullet Htext. unfold standardizeFormatting.
  apply replaceAllBy_allb;
    [intros s r n _; apply runOf_fixed; cbn [JS.allb]; now rewrite Hq|].
  apply replaceAllBy_allb;
    [intros s r n _; apply runOf_fixed; cbn [JS.allb]; now rewrite Hbang|].
  apply replaceAllBy_allb;
    [intros s r n _; apply runOf_fixed; cbn [JS.allb]; now rewrite Hdot|].
  apply replaceAllBy_allb; [intros s r n _; now apply oneOf_fixed|].
  apply replaceAllBy_allb; [intros s r n; now apply gluedSentence_kept|].
  apply replaceAllBy_allb; [intros s r n; apply spaceBeforePunct_kept|].
  apply replaceAllBy_allb; [intros s r n _; now apply runOf_fixed|].
  exact Htext.
Qed.

(** X12.  Normalised text is trimmed and holds neither a tabulator nor
    a carriage return; nor does the cleaned text of a page or of a
    document. *)
Theorem cleaned_text_has_no_tab (text : string) :
  JS.allb (fun c => negb (isCode 9 c) && negb (isCode 13 c)) (normalizeWhitespace text) = true
  /\ JS.trim (normalizeWhitespace text) = normalizeWhitespace text
  /\ JS.allb (fun c => negb (isCode 9 c) && negb (isCode 13 c)) (quickClean text) = true
  /\ JS.allb (fun c => negb (isCode 9 c) && negb (isCode 13 c)) (fst (fst (prepareForQA text)))
     = true.
Proof.
  split; [apply normalizeWhitespace_no_tab|].
  split; [unfold normalizeWhitespace; apply trim_idempotent|].
  assert (H : JS.allb (fun c => negb (isCode 9 c) && negb (isCode 13 c))
                (standardizeFormatting
                   (normalizeWhitespace (correctOCRErrors (fixEncodingIssues text)))) = true).
  { apply standardizeFormatting_keeps; try reflexivity.
    apply normalizeWhitespace_no_tab. }
  unfold quickClean, prepareForQA. cbn [fst]. rewrite !processText_cleanedText.
  split; exact H.
Qed.

End CleaningFacts.

(** ** Quality scores *)

Module QualityFacts.

Import Arr QFacts.

Ltac split_conditions :=
  repeat match goal with
         | |- context [if ?c then _ else _] => destruct c
         end.

Ltac closed_bounds :=
  split; apply Qle_bool_iff; vm_compute; reflexivity.

Lemma text_quality_bounds (text : string) (originalLength : nat) :
  (4 # 10 <= TextProcessor.calculateTextQuality text originalLength <= 1)%Q.
Proof.
  unfold TextProcessor.calculateTextQuality. cbv zeta.
  split_conditions; closed_bounds.
Qed.

Lemma document_quality_bounds (text : string) :
  (4 # 10 <= PDFProcessor.calculateTextQuality text <= 1)%Q.
Proof.
  unfold PDFProcessor.calculateTextQuality. cbv zeta.
  split_conditions; closed_bounds.
Qed.

(** X13.  A quality score lies between 0.4 and 1: that of a processed
    text, and that recorded with a ready document. *)
Theorem quality_scores_bounded (text : string) (originalLength : nat)
        (options : TextProcessor.TextProcessingOptions)
        (m : PDFProcessor.Store) (file : PDFProcessor.File) (id : string) (now : Z)
        (x : PDFProcessor.ExtractedTextData) :
  (4 # 10 <= TextProcessor.qualityScore (TextProcessor.processText text options) <= 1)%Q
  /\ exists d q,
       PDFProcessor.getDocument
         (fst (PDFProcessor.processFile m file id now (Returns x))) id = Some d
       /\ processingQuality d = Some q
       /\ (4 # 10 <= q <= 1)%Q.
Proof.
  split.
  - destruct (TextProcessorFacts.processText_returns text options) as [r [Hr ->]].
    revert Hr. unfold TextProcessor.pipeline.
    repeat match goal with
           | |- context [bind ?m _] =>
               let E := fresh "E" in
               destruct m eqn:E; cbn [bind]; [|discriminate]
           end.
    intros [= <-]. cbn [TextProcessor.qualityScore].
    match goal with
    | E : TextProcessor.run_calculateTextQuality _ _ _ = Returns _ |- _ =>
        cbn [TextProcessor.stages TextProcessor.run_calculateTextQuality] in E;
        injection E as <-
    end.
    apply text_quality_bounds.
  - unfold PDFProcessor.processFile. cbv beta iota zeta. cbn [fst].
    eexists. eexists. split; [apply PDFProcessorFacts.getDocument_set_same|].
    cbn [processingQuality]. split; [reflexivity|]. apply document_quality_bounds.
Qed.

End QualityFacts.

(** ** The table of predefined answers *)

Module AnswerTableFacts.

Import Arr PredefinedQA App QFacts ListFacts OrderFacts.

(** X14.  The similarity of two questions lies between 0 and 1. *)
Theorem predefined_similarity_bounds (str1 str2 : string) :
  (0 <= calculateSimilarity str1 str2 <= 1)%Q.
Proof.
  unfold calculateSimilarity.
  set (words1 := filter _ (JS.splitRuns JS.isWhiteSpace str1)).
  set (words2 := filter _ (JS.splitRuns JS.isWhiteSpace str2)).
  destruct (Nat.eqb_spec (length words1) 0) as [E1|E1]; cbn [orb]; [split; qconst|].
  destruct (Nat.eqb_spec (length words2) 0) as [E2|E2]; [split; qconst|].
  split; [apply fraction_nonneg|].
  apply Qle_shift_div_r; [apply ofNat_pos; lia|].
  rewrite Qmult_1_l. apply ofNat_le.
  pose proof (filter_length_le (fun word => JS.arrayIncludes word words2) words1). lia.
Qed.

Lemma keywordLookup_answer (question : string) (table : list (string * nat))
      (answers : list PredefinedQA) (a : string) :
  forallb (fun entry => snd entry <? length answers) table = true ->
  keywordLookup question table answers = Some a ->
  In a (map answer answers).
Proof.
  intros Htable. unfold keywordLookup.
  destruct (find _ table) as [entry|] eqn:E; [|discriminate].
  intros [= <-]. apply find_some in E. destruct E as [Hin _].
  rewrite forallb_forall in Htable. specialize (Htable entry Hin).
  apply Nat.ltb_lt in Htable. unfold answerAt.
  destruct (nth_error answers (snd entry)) as [qa|] eqn:En.
  - apply in_map. now apply nth_error_In in En.
  - apply nth_error_None in En. lia.
Qed.

Lemma fuzzy_answer (question : string) (l : list PredefinedQA) (a : string) (sc : Q) :
  fold_left (fuzzyStep question) l None = Some (a, sc) -> In a (map answer l).
Proof.
  assert (H : forall best,
             match best with
             | Some found => In (fst found) (map answer l)
             | None => True
             end ->
             match fold_left (fuzzyStep question) l best with
             | Some found => In (fst found) (map answer l)
             | None => True
             end).
  { apply (fold_left_invariant
             (fun best => match best with
                          | Some found => In (fst found) (map answer l)
                          | None => True
                          end)).
    intros best qa Hqa Hbest. unfold fuzzyStep.
    destruct (_ && _); [|exact Hbest]. cbn [fst]. now apply in_map. }
  intros E. specialize (H None I). now rewrite E in H.
Qed.

(** X15.  An answer of the table is the text of one of its entries and
    is not empty; the question is then answered without the API being
    asked. *)
Theorem predefined_answer_from_table (userQuestion a : string) :
  findPredefinedAnswer userQuestion = Some a ->
  In a (map answer ALL_QA_DOMAINS)
  /\ a <> ""
  /\ forall moduleLoad m,
       handleSendMessage true moduleLoad m userQuestion
       = Some (mkTurn [mkMessage user userQuestion []; predefinedMessage userQuestion a]
                      [] false).
Proof.
  intros H.
  assert (Hml : forallb (fun entry => snd entry <? length ML_RESEARCH_QA) mlKeywordMatches
                = true) by (vm_compute; reflexivity).
  assert (Hnuclear : forallb (fun entry => snd entry <? length NUCLEAR_PHYSICS_QA)
                             nuclearKeywordMatches = true) by (vm_compute; reflexivity).
  assert (Hin : In a (map answer ALL_QA_DOMAINS)).
  { revert H. unfold findPredefinedAnswer, ALL_QA_DOMAINS.
    rewrite map_app.
    destruct (keywordLookup _ mlKeywordMatches ML_RESEARCH_QA) as [x|] eqn:E1.
    - intros [= <-]. apply in_or_app. left.
      apply (keywordLookup_answer _ _ _ _ Hml E1).
    - destruct (keywordLookup _ nuclearKeywordMatches NUCLEAR_PHYSICS_QA) as [x|] eqn:E2.
      + intros [= <-]. apply in_or_app. right.
        apply (keywordLookup_answer _ _ _ _ Hnuclear E2).
      + destruct (fold_left _ _ None) as [[x sc]|] eqn:E3; [|discriminate].
        intros [= <-]. rewrite <- map_app. apply (fuzzy_answer _ _ _ _ E3). }
  assert (Hne : a <> "").
  { assert (Hall : forallb (fun x => negb (String.length x =? 0)) (map answer ALL_QA_DOMAINS)
                   = true) by (vm_compute; reflexivity).
    rewrite forallb_forall in Hall. specialize (Hall a Hin).
    intros ->. discriminate Hall. }
  split; [exact Hin|]. split; [exact Hne|].
  intros moduleLoad m. unfold handleSendMessage. cbn [negb]. rewrite H.
  destruct a as [|c rest]; [congruence|reflexivity].
Qed.

Lemma predefined_answer_from_table_witness :
  In (answerAt NUCLEAR_PHYSICS_QA 2) (map answer ALL_QA_DOMAINS).
Proof.
  assert (H : findPredefinedAnswer "What is the binding energy?"
              = Some (answerAt NUCLEAR_PHYSICS_QA 2)) by (vm_compute; reflexivity).
  exact (proj1 (predefined_answer_from_table _ _ H)).
Defined.

End AnswerTableFacts.

(** ** Uploading and reading documents *)

Module ApiFacts.

Import PDFProcessor Api PDFProcessorFacts.

Lemma getDocument_deleted (m : Store) (key : string) :
  getDocument (fst (PDFProcessor.deleteDocument m key)) key = None.
Proof.
  unfold PDFProcessor.deleteDocument. cbn [fst].
  induction m as [|[k v] rest IH]; cbn [filter getDocument fst]; auto.
  destruct (String.eqb k key) eqn:E; cbn [negb]; auto.
  cbn [getDocument]. now rewrite E.
Qed.

Lemma getDocument_deleted_other (m : Store) (key other : string) :
  other <> key ->
  getDocument (fst (PDFProcessor.deleteDocument m key)) other = getDocument m other.
Proof.
  intros Hne. unfold PDFProcessor.deleteDocument. cbn [fst].
  induction m as [|[k v] rest IH]; cbn [filter getDocument fst]; auto.
  destruct (String.eqb k key) eqn:E; cbn [negb getDocument].
  - apply String.eqb_eq in E. subst k.
    destruct (String.eqb key other) eqn:E'; auto.
    apply String.eqb_eq in E'. congruence.
  - now rewrite IH.
Qed.

Lemma deleteDocument_found (m : Store) (key : string) :
  snd (PDFProcessor.deleteDocument m key)
  = match getDocument m key with Some _ => true | None => false end.
Proof.
  unfold PDFProcessor.deleteDocument. cbn [snd].
  induction m as [|[k v] rest IH]; cbn [existsb getDocument fst]; auto.
  destruct (String.eqb k key); auto.
Qed.

Lemma processor_save (st : ApiState) (documents : list ProcessedDocument) :
  processor (saveDocumentsToStorage st documents) = processor st.
Proof. unfold saveDocumentsToStorage. now destruct (writable st). Qed.

(** X16.  What is not a PDF, or is larger than ten megabytes, is turned
    away with the state untouched. *)
Theorem uploadDocument_rejects (st : ApiState) (file : Upload) (id : string) (now : Z)
        (extraction : Exc ExtractedTextData) :
  file_type file <> "application/pdf"
  \/ (10 * 1024 * 1024 < Z.of_nat (file_size (upload_file file)))%Z ->
  fst (uploadDocument st file id now extraction) = st
  /\ (snd (uploadDocument st file id now extraction) = failure "Please upload only PDF files"
      \/ snd (uploadDocument st file id now extraction)
         = failure "File size must be less than 10MB").
Proof.
  intros H. unfold uploadDocument.
  destruct (String.eqb (file_type file) "application/pdf") eqn:E; cbn [negb].
  - apply String.eqb_eq in E. destruct H as [H|H]; [congruence|].
    destruct (Z.ltb_spec (10 * 1024 * 1024) (Z.of_nat (file_size (upload_file file)))); [|lia].
    split; [reflexivity|right; reflexivity].
  - split; [reflexivity|left; reflexivity].
Qed.


(** X18.  After an upload that succeeds, the document is ready and
    its content is read back page by page, each text cleaned; a
    writable store holds the documents of the map. *)
Theorem uploadDocument_then_content (st : ApiState) (file : Upload) (id : string)
        (now : Z) (x : ExtractedTextData) :
  file_type file = "application/pdf" ->
  (Z.of_nat (file_size (upload_file file)) <= 10 * 1024 * 1024)%Z ->
  (exists d, snd (uploadDocument st file id now (Returns x)) = data d
             /\ doc_id d = id /\ doc_name d = file_name (upload_file file)
             /\ doc_status d = ready /\ doc_pageCount d = extracted_pageCount x)
  /\ getDocumentContent (fst (uploadDocument st file id now (Returns x))) id
     = data (map (fun p => mkContent (page_number p) (TextProcessor.quickClean (page_text p)))
                 (extracted_pages x))
  /\ (writable st = true ->
      stored (fst (uploadDocument st file id now (Returns x)))
      = getAllDocuments (processor (fst (uploadDocument st file id now (Returns x))))).
Proof.
  intros Htype Hsize. unfold uploadDocument.
  rewrite Htype, String.eqb_refl. cbn [negb].
  destruct (Z.ltb_spec (10 * 1024 * 1024) (Z.of_nat (file_size (upload_file file)))); [lia|].
  unfold processFile. cbv beta iota zeta. cbn [fst snd].
  split.
  - eexists. split; [reflexivity|]. unfold toDocument.
    cbn [doc_id doc_name doc_status doc_pageCount name status pageCount].
    repeat split.
  - split.
    + unfold getDocumentContent. rewrite processor_save. cbn [processor].
      rewrite getDocument_set_same. cbn [status status_eqb negb pages].
      rewrite map_map. reflexivity.
    + intros W. unfold saveDocumentsToStorage. cbn [writable]. rewrite W.
      reflexivity.
Qed.

(** X19.  After a deletion the document is not found, the answer
    tells whether it was there, and the content of the others is as
    before. *)
Theorem deleteDocument_then_content (st : ApiState) (id : string) :
  getDocumentContent (fst (Api.deleteDocument st id)) id = failure "Document not found"
  /\ snd (Api.deleteDocument st id)
     = data (match getDocument (processor st) id with Some _ => true | None => false end)
  /\ (forall other, other <> id ->
        getDocumentContent (fst (Api.deleteDocument st id)) other
        = getDocumentContent st other).
Proof.
  pose proof (getDocument_deleted (processor st) id) as Hgone.
  pose proof (deleteDocument_found (processor st) id) as Hfound.
  pose proof (getDocument_deleted_other (processor st) id) as Hother.
  unfold Api.deleteDocument.
  destruct (PDFProcessor.deleteDocument (processor st) id) as [m success].
  cbn [fst snd] in *.
  assert (Hp : processor (if success
                          then saveDocumentsToStorage (mkApi m (stored st) (writable st))
                                                      (getAllDocuments m)
                          else mkApi m (stored st) (writable st)) = m).
  { destruct success; [rewrite processor_save|]; reflexivity. }
  split; [|split].
  - unfold getDocumentContent. rewrite Hp, Hgone. reflexivity.
  - now rewrite Hfound.
  - intros other Hne. unfold getDocumentContent. rewrite Hp, (Hother other Hne). reflexivity.
Qed.

Lemma uploadDocument_rejects_witness :
  fst (uploadDocument (mkApi [] [] true) (mkUpload (mkFile "notes.txt" 2048) "text/plain")
                      "doc1" 5 (Throws (PlainError "unused")))
  = mkApi [] [] true.
Proof.
  refine (proj1 (uploadDocument_rejects (mkApi [] [] true)
                   (mkUpload (mkFile "notes.txt" 2048) "text/plain") "doc1" 5
                   (Throws (PlainError "unused")) _)).
  left. discriminate.
Defined.


Lemma uploadDocument_then_content_witness :
  getDocumentContent
    (fst (uploadDocument (mkApi [] [] true)
            (mkUpload (mkFile "notes.pdf" 2048) "application/pdf") "doc1" 5
            (Returns (mkExtracted "Rust is a language."
                                  [mkPage 1 "Rust is a language."] 1))))
    "doc1"
  = data (map (fun p => mkContent (page_number p) (TextProcessor.quickClean (page_text p)))
              (extracted_pages (mkExtracted "Rust is a language."
                                            [mkPage 1 "Rust is a language."] 1))).
Proof.
  refine (proj1 (proj2 (uploadDocument_then_content (mkApi [] [] true)
                   (mkUpload (mkFile "notes.pdf" 2048) "application/pdf") "doc1" 5
                   (mkExtracted "Rust is a language." [mkPage 1 "Rust is a language."] 1)
                   _ _))).
  - reflexivity.
  - cbn. lia.
Defined.

End ApiFacts.

(** ** Tracking questions *)

Module TrackingFacts.

Import Arr FAQSystem QFacts ListFacts OrderFacts StringFacts.

Lemma popularity_descending (items : list FAQItem) :
  StronglySorted (fun a b => popularity b <= popularity a)
    (sortBy (fun a b => (ofNat (popularity b) - ofNat (popularity a))%Q) items).
Proof.
  apply StronglySorted_impl
    with (R := fun a b => (ofNat (popularity b) <= ofNat (popularity a))%Q).
  - intros a b. apply ofNat_le_inv.
  - apply (sortBy_descending (fun faq => ofNat (popularity faq))).
Qed.

(** X20.  The popular questions and the questions of a category come
    most popular first; the former are at most [limit] of the stored
    ones, the latter all stored ones of the category. *)
Theorem popular_questions_sorted (items : list FAQItem) (limit : nat) (wanted : string) :
  length (getPopularQuestions items limit) <= limit
  /\ StronglySorted (fun a b => popularity b <= popularity a)
                    (getPopularQuestions items limit)
  /\ Forall (fun faq => In faq items) (getPopularQuestions items limit)
  /\ StronglySorted (fun a b => popularity b <= popularity a)
                    (getQuestionsByCategory items wanted)
  /\ (forall faq, In faq (getQuestionsByCategory items wanted)
                  <-> In faq items /\ category faq = wanted).
Proof.
  unfold getPopularQuestions, getQuestionsByCategory.
  split; [apply firstn_le_length|].
  split; [apply firstn_StronglySorted, popularity_descending|].
  split.
  - apply Forall_forall. intros faq H. apply firstn_incl in H. now apply sortBy_In in H.
  - split; [apply popularity_descending|].
    intros faq. split.
    + intros H. apply sortBy_In in H. apply filter_In in H.
      destruct H as [H1 H2]. split; [exact H1|now apply String.eqb_eq].
    + intros [H1 H2]. apply In_sortBy. apply filter_In. split; [exact H1|].
      now apply String.eqb_eq.
Qed.




Lemma includes_all (words : list string) :
  filter (fun word => JS.arrayIncludes word words) words = words.
Proof.
  assert (H : forall l, incl l words ->
                        filter (fun word => JS.arrayIncludes word words) l = l).
  { induction l as [|x l IH]; intros Hl; cbn [filter]; auto.
    assert (Hx : JS.arrayIncludes x words = true).
    { apply existsb_exists. exists x. split; [apply Hl; now left|apply String.eqb_refl]. }
    rewrite Hx, IH; auto. intros y Hy. apply Hl. now right. }
  apply H. apply incl_refl.
Qed.

(** A text is at least as similar to itself as 1: the shared words
    are counted with their repetitions, the joint words without. *)
Lemma similarity_self (s : string) : (1 <= calculateSimilarity s s)%Q.
Proof.
  unfold calculateSimilarity. set (words := JS.splitRuns JS.isWhiteSpace s).
  rewrite includes_all.
  destruct (unique_spec (words ++ words) []) as [Hnodup Hin].
  assert (Hle : length (unique [] (words ++ words)) <= length words).
  { apply NoDup_incl_length; [exact Hnodup|]. intros x Hx.
    destruct (Hin x Hx) as [_ Hx']. apply in_app_or in Hx'. now destruct Hx'. }
  assert (Hpos : 0 < length (unique [] (words ++ words))).
  { pose proof (splitRuns_nonempty JS.isWhiteSpace s) as Hne. fold words in Hne.
    destruct words as [|w ws]; [congruence|].
    cbn [app unique JS.arrayIncludes existsb length]. lia. }
  apply Qle_shift_div_l; [now apply ofNat_pos|].
  rewrite Qmult_1_l. now apply ofNat_le.
Qed.

(** X22.  A question asked again within the last hundred questions,
    and similar to no stored one, becomes a stored question: asked
    once, of popularity 5. *)
Theorem repeated_question_becomes_faq (st : State) (asked : string) (now later : Z)
        (newId : string) (h : HistoryEntry) :
  JS.trim (JS.toLowerCase asked) = JS.toLowerCase asked ->
  findSimilarFAQ (faqItems st) (JS.toLowerCase asked) = None ->
  In h (firstn 99 (questionHistory st)) ->
  JS.toLowerCase (asked_question h) = JS.toLowerCase asked ->
  faqItems (trackQuestion st asked now later newId)
  = faqItems st ++
      [mkFAQ newId asked
         ("This is a frequently asked question. I'll analyze your documents to provide a comprehensive answer about "
            +++ JS.join ", " (firstn 3 (extractKeywords (JS.toLowerCase asked))) +++ ".")
         (categorizeQuestion (JS.toLowerCase asked)) 5
         (extractKeywords (JS.toLowerCase asked)) later 1].
Proof.
  intros Htrim Hnone Hh Hsame. unfold trackQuestion. rewrite Htrim, Hnone.
  set (entry := mkHistory asked now _).
  set (history := if 1000 <? length (entry :: questionHistory st)
                  then firstn 1000 (entry :: questionHistory st)
                  else entry :: questionHistory st).
  assert (Hrecent : firstn 100 history = entry :: firstn 99 (questionHistory st)).
  { subst history. destruct (1000 <? _); [|reflexivity].
    rewrite firstn_firstn. reflexivity. }
  assert (Hself : Qltb (6 # 10)
                    (calculateSimilarity (JS.toLowerCase asked) (JS.toLowerCase asked)) = true).
  { apply Qltb_lt. apply Qlt_le_trans with (2 := similarity_self _). qconst. }
  assert (Hcreate : shouldCreateFAQ history (JS.toLowerCase asked) = true).
  { unfold shouldCreateFAQ. rewrite Hrecent. cbn [map filter asked_question entry].
    subst entry. cbn [asked_question]. rewrite Hself. cbn [length].
    apply Nat.leb_le. apply le_n_S.
    assert (Hin : In (JS.toLowerCase asked)
                     (filter (fun q => Qltb (6 # 10) (calculateSimilarity (JS.toLowerCase asked) q))
                        (map (fun h0 => JS.toLowerCase (asked_question h0))
                             (firstn 99 (questionHistory st))))).
    { apply filter_In. split; [|exact Hself].
      rewrite <- Hsame. apply in_map with (f := fun h0 => JS.toLowerCase (asked_question h0)).
      exact Hh. }
    destruct (filter _ _) as [|x l]; [destruct Hin|cbn [length]; lia]. }
  rewrite Hcreate. reflexivity.
Qed.

Lemma repeated_question_becomes_faq_witness :
  length (faqItems (trackQuestion (mkState [] [mkHistory "What is Rust?" 5 "General"])
                                  "what is rust?" 10 11 "faq1")) = 1.
Proof.
  rewrite (repeated_question_becomes_faq
             (mkState [] [mkHistory "What is Rust?" 5 "General"])
             "what is rust?" 10 11 "faq1" (mkHistory "What is Rust?" 5 "General")).
  - reflexivity.
  - vm_compute. reflexivity.
  - reflexivity.
  - left. reflexivity.
  - vm_compute. reflexivity.
Defined.

End TrackingFacts.

(** ** Pages of an extracted text *)

Module PageFacts.

Import Arr PdfRestExtractor OrderFacts TrimFacts.

Lemma length_mapi {A B} (f : A -> nat -> B) (l : list A) :
  forall i, length (mapi f i l) = length l.
Proof. induction l as [|x l IH]; intros i; cbn [mapi length]; auto. Qed.

Lemma numbered_pages (texts : list string) :
  forall i,
    map page_number
        (mapi (fun text index => mkPage (Z.of_nat (index + 1)) (JS.trim text)) i texts)
    = map Z.of_nat (seq (i + 1) (length texts)).
Proof.
  induction texts as [|t texts IH]; intros i; cbn [mapi map length seq page_number]; auto.
  f_equal. rewrite IH. replace (S i + 1) with (S (i + 1)) by lia. reflexivity.
Qed.

Lemma trimmed_pages (texts : list string) :
  forall i,
    Forall (fun p => JS.trim (page_text p) = page_text p)
           (mapi (fun text index => mkPage (Z.of_nat (index + 1)) (JS.trim text)) i texts).
Proof.
  induction texts as [|t texts IH]; intros i; cbn [mapi]; constructor; auto.
  cbn [page_text]. apply trim_idempotent.
Qed.

(** The pages pushed by the loop: at most ten, and fewer while the
    loop goes on. *)
Lemma addWord_limit (st : PageLoop) (word : string) :
  length (pushed st) <= 10 /\ (stopped st = false -> length (pushed st) <= 9) ->
  length (pushed (addWord st word)) <= 10
  /\ (stopped (addWord st word) = false -> length (pushed (addWord st word)) <= 9).
Proof.
  intros [H10 H9]. unfold addWord.
  destruct (stopped st) eqn:Es; [split; [exact H10|intros; congruence]|].
  specialize (H9 eq_refl).
  destruct (maxPageLength <? _).
  - destruct (0 <? _); cbn [pushed currentPage stopped]; rewrite length_app; cbn [length];
      (split; [lia|intros H; apply Nat.leb_gt in H; lia]).
  - cbn [pushed currentPage stopped]. split; [lia|intros _; lia].
Qed.

Lemma splitIntoPages_limit (fullText : string) : length (splitIntoPages fullText) <= 11.
Proof.
  unfold splitIntoPages. destruct (String.length fullText <=? maxPageLength); [cbn; lia|].
  match goal with
  | |- context [fold_left ?f ?l ?s0] =>
      assert (H : length (pushed (fold_left f l s0)) <= 10
                  /\ (stopped (fold_left f l s0) = false ->
                      length (pushed (fold_left f l s0)) <= 9))
  end.
  { apply (fold_left_invariant
             (fun st => length (pushed st) <= 10
                        /\ (stopped st = false -> length (pushed st) <= 9))).
    - intros st w _. apply addWord_limit.
    - cbn. split; [lia|intros _; lia]. }
  destruct (0 <? _); [rewrite length_app; cbn [length]|]; lia.
Qed.

Lemma parseTextIntoPages_limit (fullText : string) :
  1 <= length (parseTextIntoPages fullText) <= 11.
Proof.
  unfold parseTextIntoPages.
  destruct (String.length (JS.trim fullText) =? 0); [cbn; lia|].
  cbv zeta. rewrite length_mapi.
  pose proof (splitIntoPages_limit fullText) as H.
  destruct (splitIntoPages fullText) as [|t ts]; cbn [length] in *; lia.
Qed.

(** X23.  The pages of a text are numbered 1, 2, ... without a gap;
    there is at least one and there are at most eleven; the text of
    each is trimmed. *)
Theorem parseTextIntoPages_shape (fullText : string) :
  1 <= length (parseTextIntoPages fullText) <= 11
  /\ map page_number (parseTextIntoPages fullText)
     = map Z.of_nat (seq 1 (length (parseTextIntoPages fullText)))
  /\ Forall (fun p => JS.trim (page_text p) = page_text p) (parseTextIntoPages fullText).
Proof.
  split; [apply parseTextIntoPages_limit|].
  unfold parseTextIntoPages.
  destruct (String.length (JS.trim fullText) =? 0).
  - split; [reflexivity|]. constructor; [reflexivity|constructor].
  - cbv zeta. rewrite length_mapi. split.
    + apply (numbered_pages _ 0).
    + apply trimmed_pages.
Qed.

(** Twelve words of 1400 characters: the tenth page stops the loop
    and the word in hand becomes the eleventh. *)
Lemma eleven_pages :
  length (parseTextIntoPages
            (JS.join " " (repeat (Spec.letters "a" 1400) 12))) = 11.
Proof. lazy. reflexivity. Qed.

Lemma estimate_of_long_text (n : nat) : 11 * 1500 < n -> 12 <= (n + 1499) / 1500.
Proof. intros H. apply Nat.div_le_lower_bound; lia. Qed.

Lemma estimate_of_short_text (n : nat) : 0 < n <= 1500 -> (n + 1499) / 1500 = 1.
Proof.
  intros H. symmetry. apply (Nat.div_unique (n + 1499) 1500 1 (n - 1)); lia.
Qed.

(** X24.  The page count that goes with the pages is an estimate: for
    a text of at most 1500 characters both are one page, for a text of
    more than 16500 characters the count exceeds the pages. *)
Theorem page_count_is_an_estimate (fullText : string) :
  (String.length fullText <= 1500 ->
   length (parseTextIntoPages fullText) = 1 /\ estimatePageCount fullText = 1)
  /\ (11 * 1500 < String.length fullText ->
      length (parseTextIntoPages fullText) < estimatePageCount fullText).
Proof.
  split.
  - intros Hshort. split.
    + unfold parseTextIntoPages, splitIntoPages, maxPageLength.
      destruct (String.length (JS.trim fullText) =? 0); [reflexivity|].
      destruct (Nat.leb_spec (String.length fullText) 1500); [reflexivity|lia].
    + unfold estimatePageCount.
      destruct (Nat.eqb_spec (String.length fullText) 0); [reflexivity|].
      rewrite estimate_of_short_text by lia. reflexivity.
  - intros Hlong.
    pose proof (parseTextIntoPages_limit fullText) as Hpages.
    unfold estimatePageCount.
    destruct (Nat.eqb_spec (String.length fullText) 0); [lia|].
    pose proof (estimate_of_long_text _ Hlong). lia.
Qed.

End PageFacts.

(** ** Usage limits *)

Module UsageFacts.

Import UsageTracker.

Lemma lookup_store_same (l : list (string * Entry)) (key : string) (v : Entry) :
  lookupItem (storeItem key v l) key = Some v.
Proof.
  induction l as [|[k old] rest IH]; cbn [storeItem lookupItem].
  - now rewrite String.eqb_refl.
  - destruct (String.eqb k key) eqn:E; cbn [lookupItem]; rewrite E; auto.
Qed.

Section Calendar.

Variable getMonth : Z -> nat.
Variable getFullYear : Z -> Z.


Lemma getUsageStats_writable ls userId now stamp :
  writable (fst (getUsageStats getMonth getFullYear ls userId now stamp)) = writable ls.
Proof.
  unfold getUsageStats, resetMonthlyUsage, saveUsageStats, setItem.
  destruct (getItem ls (keyOf userId)) as [[stats|]|]; cbn [fst]; auto.
  destruct (_ || _); cbn [fst]; auto.
  destruct (writable ls) eqn:E; cbn [writable]; auto.
Qed.

Lemma getItem_save_same ls userId stats :
  writable ls = true ->
  getItem (saveUsageStats ls userId stats) (keyOf userId) = Some (saved stats).
Proof.
  intros W. unfold saveUsageStats, setItem, getItem. rewrite W. cbn [items].
  apply lookup_store_same.
Qed.

(** The plan that [getUsageStats] reports is the stored one. *)
Lemma getUsageStats_plan ls userId now stamp stats :
  getItem ls (keyOf userId) = Some (saved stats) ->
  planType (snd (getUsageStats getMonth getFullYear ls userId now stamp)) = planType stats.
Proof.
  intros H. unfold getUsageStats, resetMonthlyUsage. rewrite H.
  destruct (_ || _); reflexivity.
Qed.

(** X25.  A question or a document is refused exactly when nothing is
    left of the month's allowance. *)
Theorem updateUsage_refuses_iff_nothing_left ls userId now stamp :
  (snd (updateUsage getMonth getFullYear ls userId question now stamp) = false
   <-> questions (snd (getRemainingUsage getMonth getFullYear ls userId now stamp)) = 0%Z)
  /\ (snd (updateUsage getMonth getFullYear ls userId document now stamp) = false
      <-> documents (snd (getRemainingUsage getMonth getFullYear ls userId now stamp)) = 0%Z).
Proof.
  unfold updateUsage, getRemainingUsage.
  destruct (getUsageStats getMonth getFullYear ls userId now stamp) as [ls1 stats].
  destruct stats as [d q r plan sub]. cbn [planType questionsAsked documentsProcessed].
  destruct plan; cbn [PLAN_LIMITS maxQuestions maxDocuments Z.ltb Z.compare andb snd questions documents].
  - split.
    + destruct (Z.leb_spec 25 (Z.of_nat q)); cbn [snd]; split; intros; try lia; try discriminate; auto.
    + destruct (Z.leb_spec 5 (Z.of_nat d)); cbn [snd]; split; intros; try lia; try discriminate; auto.
  - split; split; intros; discriminate.
  - split; split; intros; discriminate.
Qed.

(** X26.  With a writable store, a use that was accepted is counted:
    read in the same month, the statistics are the earlier ones with
    the one counter raised by one. *)
Theorem updateUsage_counts ls userId type now stamp now' stamp' :
  let before := snd (getUsageStats getMonth getFullYear ls userId now stamp) in
  writable ls = true ->
  snd (updateUsage getMonth getFullYear ls userId type now stamp) = true ->
  getMonth now' = getMonth (lastResetDate before) ->
  getFullYear now' = getFullYear (lastResetDate before) ->
  snd (getUsageStats getMonth getFullYear
         (fst (updateUsage getMonth getFullYear ls userId type now stamp))
         userId now' stamp')
  = match type with
    | question =>
        mkStats (documentsProcessed before) (questionsAsked before + 1)
                (lastResetDate before) (planType before) (subscriptionStatus before)
    | document =>
        mkStats (documentsProcessed before + 1) (questionsAsked before)
                (lastResetDate before) (planType before) (subscriptionStatus before)
    end.
Proof.
  intros before W Hok Hm Hy. subst before.
  pose proof (getUsageStats_writable ls userId now stamp) as W1. rewrite W in W1.
  revert Hok Hm Hy. unfold updateUsage.
  destruct (getUsageStats getMonth getFullYear ls userId now stamp) as [ls1 stats].
  cbn [fst snd] in *. intros Hok Hm Hy.
  destruct type.
  - destruct (_ && _); [discriminate|]. cbn [fst].
    unfold getUsageStats. rewrite (getItem_save_same _ _ _ W1). cbn [lastResetDate].
    rewrite Hm, Hy, Nat.eqb_refl, Z.eqb_refl. reflexivity.
  - destruct (_ && _); [discriminate|]. cbn [fst].
    unfold getUsageStats. rewrite (getItem_save_same _ _ _ W1). cbn [lastResetDate].
    rewrite Hm, Hy, Nat.eqb_refl, Z.eqb_refl. reflexivity.
Qed.

(** What [getUsageStats] returns is within the free allowance when the
    stored statistics are. *)
Lemma getUsageStats_within ls userId now stamp :
  (forall stats, getItem ls (keyOf userId) = Some (saved stats) -> Spec.withinAllowance stats) ->
  Spec.withinAllowance (snd (getUsageStats getMonth getFullYear ls userId now stamp))
  /\ (forall stats,
        getItem (fst (getUsageStats getMonth getFullYear ls userId now stamp)) (keyOf userId)
        = Some (saved stats) -> Spec.withinAllowance stats).
Proof.
  intros H. unfold getUsageStats, resetMonthlyUsage.
  destruct (getItem ls (keyOf userId)) as [[stats|]|] eqn:E; cbn [fst snd].
  - destruct (_ || _); cbn [fst snd].
    + split; [unfold Spec.withinAllowance; cbn; lia|].
      intros stats'. unfold saveUsageStats, setItem.
      destruct (writable ls) eqn:W.
      * unfold getItem. cbn [items]. rewrite lookup_store_same.
        intros [= <-]. unfold Spec.withinAllowance; cbn; lia.
      * cbn [fst]. intros H'. apply H. rewrite <- E. exact H'.
    + split; [apply H; reflexivity|]. intros stats' H'. apply H. rewrite <- E. exact H'.
  - split; [unfold Spec.withinAllowance; cbn; lia|]. intros stats'. rewrite E. discriminate.
  - split; [unfold Spec.withinAllowance; cbn; lia|]. intros stats'. rewrite E. discriminate.
Qed.

(** X27.  Statistics within the free allowance stay within it. *)
Theorem updateUsage_keeps_allowance ls userId type now stamp :
  (forall stats, getItem ls (keyOf userId) = Some (saved stats) -> Spec.withinAllowance stats) ->
  forall stats,
    getItem (fst (updateUsage getMonth getFullYear ls userId type now stamp)) (keyOf userId)
    = Some (saved stats) ->
    Spec.withinAllowance stats.
Proof.
  intros H. destruct (getUsageStats_within ls userId now stamp H) as [Hs Hl].
  unfold updateUsage.
  destruct (getUsageStats getMonth getFullYear ls userId now stamp) as [ls1 stats].
  cbn [fst snd] in *.
  assert (Hsave : forall new, Spec.withinAllowance new ->
            forall stats', getItem (saveUsageStats ls1 userId new) (keyOf userId)
                           = Some (saved stats') -> Spec.withinAllowance stats').
  { intros new Hnew stats'. unfold saveUsageStats, setItem.
    destruct (writable ls1) eqn:W.
    - unfold getItem. cbn [items]. rewrite lookup_store_same. now intros [= <-].
    - apply Hl. }
  destruct stats as [d q r plan sub]. unfold Spec.withinAllowance in Hs.
  cbn [planType questionsAsked documentsProcessed] in *.
  destruct type.
  - destruct (_ && _) eqn:C; cbn [fst]; [apply Hl|].
    apply Hsave. unfold Spec.withinAllowance. cbn [planType questionsAsked documentsProcessed].
    intros ->. cbn in C. specialize (Hs eq_refl).
    destruct (Z.leb_spec 5 (Z.of_nat d)); [discriminate|]. lia.
  - destruct (_ && _) eqn:C; cbn [fst]; [apply Hl|].
    apply Hsave. unfold Spec.withinAllowance. cbn [planType questionsAsked documentsProcessed].
    intros ->. cbn in C. specialize (Hs eq_refl).
    destruct (Z.leb_spec 25 (Z.of_nat q)); [discriminate|]. lia.
Qed.

(** X28.  With a writable store, nothing is refused after an upgrade
    to a paid plan. *)
Theorem upgraded_plan_never_refused ls userId newPlan type now stamp now' stamp' :
  writable ls = true ->
  newPlan <> free ->
  snd (updateUsage getMonth getFullYear
         (upgradePlan getMonth getFullYear ls userId newPlan now stamp)
         userId type now' stamp') = true.
Proof.
  intros W Hplan.
  pose proof (getUsageStats_writable ls userId now stamp) as W1. rewrite W in W1.
  unfold upgradePlan.
  destruct (getUsageStats getMonth getFullYear ls userId now stamp) as [ls1 stats].
  cbn [fst] in W1.
  pose proof (getUsageStats_plan
                (saveUsageStats ls1 userId
                   (mkStats (documentsProcessed stats) (questionsAsked stats)
                            (lastResetDate stats) newPlan active))
                userId now' stamp' _ (getItem_save_same _ _ _ W1)) as Hp.
  cbn [planType] in Hp. unfold updateUsage.
  destruct (getUsageStats getMonth getFullYear _ userId now' stamp') as [ls2 stats2].
  cbn [snd] in Hp. rewrite Hp.
  destruct newPlan; [congruence| |]; destruct type; reflexivity.
Qed.

End Calendar.

Lemma updateUsage_counts_witness :
  questionsAsked
    (snd (getUsageStats (fun _ => 0) (fun _ => 2024%Z)
            (fst (updateUsage (fun _ => 0) (fun _ => 2024%Z) (mkStorage [] true)
                              "u1" question 5 6))
            "u1" 7 8))
  = 1.
Proof.
  rewrite (updateUsage_counts (fun _ => 0) (fun _ => 2024%Z) (mkStorage [] true)
                              "u1" question 5 6 7 8);
    reflexivity.
Defined.

Lemma updateUsage_keeps_allowance_witness :
  Spec.withinAllowance (mkStats 0 25 0 free active).
Proof.
  apply (updateUsage_keeps_allowance (fun _ => 0) (fun _ => 2024%Z)
           (mkStorage [(keyOf "u1", saved (mkStats 0 25 0 free active))] true)
           "u1" question 5 6).
  - intros stats H. vm_compute in H. injection H as <-.
    unfold Spec.withinAllowance. cbn. lia.
  - vm_compute. reflexivity.
Defined.

Lemma upgraded_plan_never_refused_witness :
  snd (updateUsage (fun _ => 0) (fun _ => 2024%Z)
         (upgradePlan (fun _ => 0) (fun _ => 2024%Z)
            (mkStorage [(keyOf "u1", saved (mkStats 5 25 0 free active))] true)
            "u1" pro 5 6)
         "u1" question 7 8)
  = true.
Proof.
  apply (upgraded_plan_never_refused (fun _ => 0) (fun _ => 2024%Z)); [reflexivity|discriminate].
Defined.

End UsageFacts.

(** ** Accounts *)

Module AuthFacts.

Import AuthService ListFacts StringFacts.

(** X29.  An account that was just created, under an address without
    white space around it, is signed in, and signs in again after a
    sign-out with any password of six characters. *)
Theorem signUp_then_signIn (st st1 : State) (name address password newId : string) (now : Z)
        (password' : string) :
  signUp st name address password newId now = (st1, succeeded) ->
  JS.trim (JS.toLowerCase address) = JS.toLowerCase address ->
  6 <= String.length password' ->
  let newUser := mkUser newId (JS.toLowerCase address) (JS.trim name) now in
  allUsers st1 = allUsers st ++ [newUser]
  /\ currentUser st1 = Some newUser
  /\ isAuthenticated (signOut st1) = false
  /\ snd (signIn (signOut st1) address password') = succeeded
  /\ currentUser (fst (signIn (signOut st1) address password')) = Some newUser.
Proof.
  intros Hup Htrim Hpw newUser. subst newUser. revert Hup. unfold signUp.
  destruct (String.length (JS.trim name) <? 2); [intros [= _ H]; discriminate H|].
  destruct (JS.includes "@" address) eqn:Hat; cbn [negb]; [|intros [= _ H]; discriminate H].
  destruct (String.length password <? 6); [intros [= _ H]; discriminate H|].
  destruct (findByEmail (allUsers st) address) eqn:Hfind; [intros [= _ H]; discriminate H|].
  destruct (writable st) eqn:W; [|intros [= _ H]; discriminate H].
  rewrite Htrim. unfold saveToStorage. cbn [writable allUsers currentUser].
  intros [= <-]. cbn [allUsers currentUser].
  split; [reflexivity|]. split; [reflexivity|]. split; [reflexivity|].
  unfold signOut, saveToStorage. cbn [writable allUsers currentUser storedUser].
  assert (Hfound : findByEmail (allUsers st ++ [mkUser newId (JS.toLowerCase address) (JS.trim name) now])
                               address
                   = Some (mkUser newId (JS.toLowerCase address) (JS.trim name) now)).
  { unfold findByEmail. apply find_skip.
    - intros y Hy. unfold findByEmail in Hfind.
      exact (find_none _ _ Hfind y Hy).
    - cbn [email]. rewrite toLowerCase_idempotent. apply String.eqb_refl. }
  unfold signIn. cbn [allUsers]. rewrite Hat. cbn [negb].
  destruct (Nat.ltb_spec (String.length password') 6); [lia|].
  rewrite Hfound. unfold saveToStorage. cbn [writable currentUser fst snd].
  split; reflexivity.
Qed.

(** X30.  A refused sign-up or sign-in leaves the accounts and the
    session as they were. *)
Theorem refused_attempt_changes_nothing (st : State) (name address password newId : string)
        (now : Z) :
  (success (snd (signUp st name address password newId now)) = false ->
   fst (signUp st name address password newId now) = st)
  /\ (success (snd (signIn st address password)) = false ->
      fst (signIn st address password) = st).
Proof.
  split.
  - unfold signUp.
    destruct (String.length (JS.trim name) <? 2); [reflexivity|].
    destruct (negb (JS.includes "@" address)); [reflexivity|].
    destruct (String.length password <? 6); [reflexivity|].
    destruct (findByEmail (allUsers st) address); [reflexivity|].
    destruct (writable st); [|reflexivity].
    cbn [snd success succeeded]. discriminate.
  - unfold signIn.
    destruct (negb (JS.includes "@" address)); [reflexivity|].
    destruct (String.length password <? 6); [reflexivity|].
    destruct (findByEmail (allUsers st) address); [|reflexivity].
    cbn [snd success succeeded]. discriminate.
Qed.

Lemma signUp_then_signIn_witness :
  snd (signIn (signOut (fst (signUp (mkAuth [] None None true)
                                    "Ada" "Ada@Example.org" "secret1" "u1" 5)))
              "Ada@Example.org" "another-password")
  = succeeded.
Proof.
  refine (proj1 (proj2 (proj2 (proj2
            (signUp_then_signIn (mkAuth [] None None true) _
               "Ada" "Ada@Example.org" "secret1" "u1" 5 "another-password" _ _ _))))).
  - vm_compute. reflexivity.
  - vm_compute. reflexivity.
  - cbn. lia.
Defined.

End AuthFacts.
